(** * DHCPv6Client: a shallow embedding of IPConfiguration.bproj/DHCPv6Client.c

    The per-interface DHCPv6 client state machine: option extraction,
    retransmission timing, lease bookkeeping and the event handlers of the
    twelve client states.

    Conventions of the embedding.
    - [uint32_t], [uint16_t], [uint8_t] and [int] values are [Z]; unsigned
      subtraction is written with its wrap-around ([uint32_sub]).
    - [CFAbsoluteTime] and [CFTimeInterval] (C [double]) are rationals [Q];
      the conversion [(uint32_t)d] is truncation toward zero.  The random
      factors and the retransmission intervals are computed with the
      rounding of double ([round_double]); the sums and differences of
      times, and the comparisons between them, are written exactly.
    - A pointer that may be [NULL] is an [option]; a pointer into the saved
      packet is the option data it points to.
    - The collaborators (socket, timer, kernel address table, Wi-Fi service,
      clock, random source, option parser) are the fields of [Env]; what the
      client does to them is recorded in the client's [trace], and the one
      receive handler and the one timer are fields of the client.
    - Every call of the clock within a dispatch has a reading of its own
      (the time fields of [Env]). *)

From Stdlib Require Import ZArith QArith Qround Qabs Qpower List Bool Lia Lqa.
From Stdlib Require PrimFloat SpecFloat FloatOps Uint63.
From Stdlib Require Import Init.Byte.
From Stdlib Require String.
Import ListNotations.
Open Scope Z_scope.

(** ** Bytes and network-order integers *)

Definition byte_val (b : byte) : Z := Z.of_N (Byte.to_N b).

Definition nth_byte (buf : list byte) (off : nat) : Z :=
  byte_val (nth off buf x00).

Definition net_uint16_get (buf : list byte) (off : nat) : Z :=
  nth_byte buf off * 256 + nth_byte buf (off + 1).

Definition net_uint32_get (buf : list byte) (off : nat) : Z :=
  ((nth_byte buf off * 256 + nth_byte buf (off + 1)) * 256
   + nth_byte buf (off + 2)) * 256 + nth_byte buf (off + 3).

Definition UINT32_MAX : Z := 4294967295.
Definition DHCP_INFINITE_LEASE : Z := 4294967295.

Definition uint32_sub (a b : Z) : Z := (a - b) mod 4294967296.

Definition bytes_eqb (a b : list byte) : bool :=
  if list_eq_dec Byte.byte_eq_dec a b then true else false.

(** ** Options

    Modelled from the spec: DHCPv6Options.h and DHCPv6Options.c are not among
    the sources.  An option is its 2-byte code and its value bytes (the 2-byte
    length is the length of the value); a parsed option list is the sequence of
    the options of a buffer. *)

Record DHCPv6Option : Type := mkOption {
  opt_code : Z;
  opt_data : list byte
}.

Definition DHCPv6OptionListRef : Type := list DHCPv6Option.

Definition option_len (data : list byte) : Z := Z.of_nat (length data).

(** Modelled from the spec: the option codes of RFC 3315 section 24.3. *)
Definition kDHCPv6OPTION_CLIENTID : Z := 1.
Definition kDHCPv6OPTION_SERVERID : Z := 2.
Definition kDHCPv6OPTION_IA_NA : Z := 3.
Definition kDHCPv6OPTION_IAADDR : Z := 5.
Definition kDHCPv6OPTION_PREFERENCE : Z := 7.
Definition kDHCPv6OPTION_STATUS_CODE : Z := 13.

(** Modelled from the spec: the status codes of RFC 3315 section 24.4. *)
Definition kDHCPv6StatusCodeSuccess : Z := 0.
Definition kDHCPv6StatusCodeNoAddrsAvail : Z := 2.
Definition kDHCPv6StatusCodeNotOnLink : Z := 4.

(** Modelled from the spec: message types (section 6 of the specification). *)
Definition kDHCPv6MessageSOLICIT : Z := 1.
Definition kDHCPv6MessageADVERTISE : Z := 2.
Definition kDHCPv6MessageREQUEST : Z := 3.
Definition kDHCPv6MessageCONFIRM : Z := 4.
Definition kDHCPv6MessageRENEW : Z := 5.
Definition kDHCPv6MessageREBIND : Z := 6.
Definition kDHCPv6MessageREPLY : Z := 7.
Definition kDHCPv6MessageRELEASE : Z := 8.
Definition kDHCPv6MessageDECLINE : Z := 9.
Definition kDHCPv6MessageINFORMATION_REQUEST : Z := 11.

(** Modelled from the spec: value layouts (section 4.3).  IA_NA is a 4-byte
    IAID, 4-byte T1, 4-byte T2, then nested options; IAADDR is a 16-byte
    address, 4-byte preferred lifetime, 4-byte valid lifetime, then nested
    options; PREFERENCE is one byte. *)
Definition DHCPv6OptionIA_NA_MIN_LENGTH : Z := 12.
Definition DHCPv6OptionIAADDR_MIN_LENGTH : Z := 24.
Definition DHCPv6OptionPREFERENCE_MIN_LENGTH : Z := 1.
Definition kDHCPv6OptionPREFERENCEMinValue : Z := 0.
Definition kDHCPv6OptionPREFERENCEMaxValue : Z := 255.

Definition DHCPv6OptionIA_NAGetT1 (ia_na : list byte) : Z :=
  net_uint32_get ia_na 4.
Definition DHCPv6OptionIA_NAGetT2 (ia_na : list byte) : Z :=
  net_uint32_get ia_na 8.
Definition DHCPv6OptionIA_NA_options (ia_na : list byte) : list byte :=
  skipn 12 ia_na.

Definition DHCPv6OptionIAADDRGetAddress (ia_addr : list byte) : list byte :=
  firstn 16 ia_addr.
Definition DHCPv6OptionIAADDRGetPreferredLifetime (ia_addr : list byte) : Z :=
  net_uint32_get ia_addr 16.
Definition DHCPv6OptionIAADDRGetValidLifetime (ia_addr : list byte) : Z :=
  net_uint32_get ia_addr 20.

(** Modelled from the spec: DHCPv6OptionListGetOptionDataAndLength, the lookup
    of DHCPv6Options.c.  It returns the value of the first option with the
    given code whose index is at least [start_index], together with that
    index (the caller's [start_index] is set to it); [None] is the NULL
    result.  A NULL [start_index] argument is a start at 0. *)
Fixpoint find_option_from (opts : list DHCPv6Option) (code : Z) (i : nat)
  : option (nat * list byte) :=
  match opts with
  | [] => None
  | o :: rest =>
      if opt_code o =? code then Some (i, opt_data o)
      else find_option_from rest code (S i)
  end.

Definition DHCPv6OptionListGetOptionDataAndLength
    (options : DHCPv6OptionListRef) (code : Z) (start_index : nat)
  : option (nat * list byte) :=
  find_option_from (skipn start_index options) code start_index.

Definition get_option (options : DHCPv6OptionListRef) (code : Z)
  : option (list byte) :=
  match DHCPv6OptionListGetOptionDataAndLength options code 0 with
  | Some (_, d) => Some d
  | None => None
  end.

(** ** Collaborators *)

Record link_status_t : Type := mkLinkStatus {
  ls_valid : bool;
  ls_active : bool;
  ls_wake_on_same_network : bool
}.

Inductive link_info_t : Type :=
  | kLinkInfoNone
  | kLinkInfoNetworkChanged
  | kLinkInfoBSSIDChanged.

Record link_event_data_t : Type := mkLinkEvent {
  link_status : link_status_t;
  info : link_info_t
}.

(** Modelled from the spec: the link-status predicates of interfaces.h. *)
Definition link_status_is_active (s : link_status_t) : bool :=
  negb (ls_valid s) || ls_active s.
Definition link_status_is_inactive (s : link_status_t) : bool :=
  ls_valid s && negb (ls_active s).

Record inet6_addrinfo_t : Type := mkAddrInfo {
  addr : list byte;
  addr_flags : Z
}.

Definition IN6_IFF_TENTATIVE : Z := 2.
Definition IN6_IFF_DUPLICATED : Z := 4.

Record Env : Type := mkEnv {
  (* the clock: [timer_get_current_time] is the reading used by the
     function that an event is dispatched to (DHCPv6ClientStart,
     DHCPv6ClientHandleWake, DHCPv6ClientHandleEvent, the timeout cases of
     Solicit, Confirm and Inform) and by DHCPv6ClientSavePacket; no two of
     these use a reading in the same dispatch.  The functions that read the
     clock after one of them, in the same dispatch, have readings of their
     own, which may differ from it in either direction *)
  timer_get_current_time : Q;
  time_at_Request : Q;          (* DHCPv6Client_Request, start case *)
  time_at_RenewRebind : Q;      (* DHCPv6Client_RenewRebind, on entry *)
  time_at_AddressChanged : Q;   (* DHCPv6ClientHandleAddressChanged *)
  time_at_Bound : Q;            (* DHCPv6Client_Bound, before the lease test *)
  time_at_Bound_ready : Q;      (* DHCPv6Client_Bound, for the same address *)
  (* random source *)
  arc4random : nat -> Z;
  (* option parser and DUID helpers *)
  DHCPv6OptionListCreate : list byte -> option DHCPv6OptionListRef;
  DHCPv6OptionListCreateWithPacket : list byte -> option DHCPv6OptionListRef;
  DHCPv6OptionListGetStatusCode : DHCPv6OptionListRef -> bool * Z;
  DHCPDUIDIsValid : list byte -> bool;
  DHCPDUIDEstablishAndGet : list byte;
  DHCPDUIDCopy : list byte;
  (* interface and service *)
  if_is_wireless : bool;
  if_is_cellular : bool;
  if_get_link_status : link_status_t;
  ServiceGetSSID : option String.string;
  (* kernel address table *)
  inet6_dgram_socket_ok : bool;
  inet6_aifaddr_ok : bool;
  inet6_get_prefix_length : list byte -> Z;
  inet6_addrlist_copy : list inet6_addrinfo_t;
  (* configuration *)
  G_wake_skew_secs : Z
}.

(** ** get_ia_na_addr_code *)

(** The loop of get_ia_na_addr_code ("find the first ia_addr with non-zero
    lifetime"); one unit of [fuel] per iteration. *)
Fixpoint find_ia_addr (fuel : nat) (ia_na_options : DHCPv6OptionListRef)
    (start_index : nat) : option (list byte) :=
  match fuel with
  | O => None
  | S fuel' =>
      match DHCPv6OptionListGetOptionDataAndLength
              ia_na_options kDHCPv6OPTION_IAADDR start_index with
      | None => None
      | Some (idx, ia_addr) =>
          if option_len ia_addr <? DHCPv6OptionIAADDR_MIN_LENGTH then None
          else
            let valid_lifetime := DHCPv6OptionIAADDRGetValidLifetime ia_addr in
            let preferred_lifetime :=
              DHCPv6OptionIAADDRGetPreferredLifetime ia_addr in
            if valid_lifetime =? 0 then
              find_ia_addr fuel' ia_na_options (S idx)
            else if preferred_lifetime >? valid_lifetime then None
            else Some ia_addr
      end
  end.

(** Result: the IA_NA (NULL when no suitable IAADDR was found), the IAADDR
    written to [*ret_ia_addr], and the status code written to [*ret_code]. *)
Definition get_ia_na_addr_code (e : Env) (options : DHCPv6OptionListRef)
  : option (list byte) * option (list byte) * Z :=
  let code := kDHCPv6StatusCodeSuccess in
  match get_option options kDHCPv6OPTION_IA_NA with
  | None => (None, None, code)
  | Some ia_na =>
      if option_len ia_na <=? DHCPv6OptionIA_NA_MIN_LENGTH then
        (None, None, code)
      else
        let t1 := DHCPv6OptionIA_NAGetT1 ia_na in
        let t2 := DHCPv6OptionIA_NAGetT2 ia_na in
        if negb (t1 =? 0) && negb (t2 =? 0) && (t1 >? t2) then
          (None, None, code)
        else
          match DHCPv6OptionListCreate e (DHCPv6OptionIA_NA_options ia_na) with
          | None => (None, None, code)
          | Some ia_na_options =>
              let (ok, code) := DHCPv6OptionListGetStatusCode e ia_na_options in
              if negb ok then (None, None, code)
              else
                match find_ia_addr (S (length ia_na_options))
                                   ia_na_options 0 with
                | None => (None, None, code)
                | Some ia_addr => (Some ia_na, Some ia_addr, code)
                end
          end
  end.

Definition get_ia_na_addr (e : Env) (options : DHCPv6OptionListRef)
  : option (list byte) * option (list byte) :=
  fst (get_ia_na_addr_code e options).

Definition get_preference_value_from_options (options : DHCPv6OptionListRef)
  : Z :=
  match get_option options kDHCPv6OPTION_PREFERENCE with
  | Some pref =>
      if option_len pref >=? DHCPv6OptionPREFERENCE_MIN_LENGTH
      then nth_byte pref 0
      else kDHCPv6OptionPREFERENCEMinValue
  | None => kDHCPv6OptionPREFERENCEMinValue
  end.

(** ** The client *)

Inductive DHCPv6ClientState : Type :=
  | kDHCPv6ClientStateInactive
  | kDHCPv6ClientStateSolicit
  | kDHCPv6ClientStateRequest
  | kDHCPv6ClientStateBound
  | kDHCPv6ClientStateRenew
  | kDHCPv6ClientStateRebind
  | kDHCPv6ClientStateConfirm
  | kDHCPv6ClientStateRelease
  | kDHCPv6ClientStateUnbound
  | kDHCPv6ClientStateDecline
  | kDHCPv6ClientStateInform
  | kDHCPv6ClientStateInformComplete.

Definition S_dhcp_state_is_bound_renew_or_rebind (state : DHCPv6ClientState)
  : bool :=
  match state with
  | kDHCPv6ClientStateBound
  | kDHCPv6ClientStateRenew
  | kDHCPv6ClientStateRebind => true
  | _ => false
  end.

Definition DHCPv6ClientState_eqb (a b : DHCPv6ClientState) : bool :=
  match a, b with
  | kDHCPv6ClientStateInactive, kDHCPv6ClientStateInactive
  | kDHCPv6ClientStateSolicit, kDHCPv6ClientStateSolicit
  | kDHCPv6ClientStateRequest, kDHCPv6ClientStateRequest
  | kDHCPv6ClientStateBound, kDHCPv6ClientStateBound
  | kDHCPv6ClientStateRenew, kDHCPv6ClientStateRenew
  | kDHCPv6ClientStateRebind, kDHCPv6ClientStateRebind
  | kDHCPv6ClientStateConfirm, kDHCPv6ClientStateConfirm
  | kDHCPv6ClientStateRelease, kDHCPv6ClientStateRelease
  | kDHCPv6ClientStateUnbound, kDHCPv6ClientStateUnbound
  | kDHCPv6ClientStateDecline, kDHCPv6ClientStateDecline
  | kDHCPv6ClientStateInform, kDHCPv6ClientStateInform
  | kDHCPv6ClientStateInformComplete, kDHCPv6ClientStateInformComplete => true
  | _, _ => false
  end.

Inductive DHCPv6ClientMode : Type :=
  | kDHCPv6ClientModeIdle
  | kDHCPv6ClientModeStateless
  | kDHCPv6ClientModeStateful.

(** The three phases of a state's event function. *)
Inductive IFEventID_t : Type :=
  | IFEventID_start_e
  | IFEventID_timeout_e
  | IFEventID_data_e.

(** The event functions that are installed as receive handler or timer
    function (the function pointers of the source). *)
Inductive EventFunc : Type :=
  | DHCPv6Client_Inform_fn
  | DHCPv6Client_Decline_fn
  | DHCPv6Client_RenewRebind_fn
  | DHCPv6Client_Confirm_fn
  | DHCPv6Client_Request_fn
  | DHCPv6Client_Solicit_fn.

(** The pending timer: delay, function and its event argument. *)
Record timer_callout_t : Type := mkTimer {
  tc_delay : Q;
  tc_func : EventFunc;
  tc_arg : IFEventID_t
}.

(** What the client does to its collaborators, in order. *)
Inductive Effect : Type :=
  | LogState (s : DHCPv6ClientState)
  | SocketTransmit (msg_type : Z)
  | AddrRemove (a : list byte)
  | AddrAdd (a : list byte) (prefix_length valid_lft preferred_lft : Z)
  | Notify
  | GenerateSymptom.

Record lease_info_t : Type := mkLease {
  lease_start : Q;
  lease_t1 : Z;
  lease_t2 : Z;
  lease_valid_lifetime : Z;
  lease_preferred_lifetime : Z;
  lease_valid : bool;
  lease_ssid : option String.string
}.

Record dhcpv6_info_t : Type := mkInfo {
  pkt : option (list byte);
  pkt_len : Z;
  options : option DHCPv6OptionListRef
}.

(** [struct DHCPv6Client], with the receive handler of [sock] and the timer
    callout of [timer] in place of the two pointers; [rng] counts the draws
    from [arc4random], [trace] lists the effects so far (latest first) and
    [fault] records a NULL dereference. *)

Record DHCPv6Client : Type := mkClient {
  callback_rls : bool;
  callback : bool;
  our_ip : list byte;
  our_prefix_length : Z;
  mode : DHCPv6ClientMode;
  cstate : DHCPv6ClientState;
  sock_receive : option EventFunc;
  timer : option timer_callout_t;
  transaction_id : Z;
  try_ : Z;
  start_time : Q;
  retransmit_time : Q;
  saved : dhcpv6_info_t;
  saved_verified : bool;
  server_id : option (list byte);
  ia_na : option (list byte);
  ia_addr : option (list byte);
  lease : lease_info_t;
  private_address : bool;
  duid : option (list byte);
  renew_rebind_time : Q;
  rng : nat;
  trace : list Effect;
  fault : bool
}.

Definition set_callback_rls (v : bool) (c : DHCPv6Client) : DHCPv6Client :=
  mkClient v (callback c) (our_ip c) (our_prefix_length c) (mode c) (cstate c)
    (sock_receive c) (timer c) (transaction_id c) (try_ c) (start_time c)
    (retransmit_time c) (saved c) (saved_verified c) (server_id c) (ia_na c)
    (ia_addr c) (lease c) (private_address c) (duid c) (renew_rebind_time c)
    (rng c) (trace c) (fault c).

Definition set_callback (v : bool) (c : DHCPv6Client) : DHCPv6Client :=
  mkClient (callback_rls c) v (our_ip c) (our_prefix_length c) (mode c)
    (cstate c) (sock_receive c) (timer c) (transaction_id c) (try_ c)
    (start_time c) (retransmit_time c) (saved c) (saved_verified c) (server_id
    c) (ia_na c) (ia_addr c) (lease c) (private_address c) (duid c)
    (renew_rebind_time c) (rng c) (trace c) (fault c).

Definition set_our_ip (v : list byte) (c : DHCPv6Client) : DHCPv6Client :=
  mkClient (callback_rls c) (callback c) v (our_prefix_length c) (mode c)
    (cstate c) (sock_receive c) (timer c) (transaction_id c) (try_ c)
    (start_time c) (retransmit_time c) (saved c) (saved_verified c) (server_id
    c) (ia_na c) (ia_addr c) (lease c) (private_address c) (duid c)
    (renew_rebind_time c) (rng c) (trace c) (fault c).

Definition set_our_prefix_length (v : Z) (c : DHCPv6Client) : DHCPv6Client :=
  mkClient (callback_rls c) (callback c) (our_ip c) v (mode c) (cstate c)
    (sock_receive c) (timer c) (transaction_id c) (try_ c) (start_time c)
    (retransmit_time c) (saved c) (saved_verified c) (server_id c) (ia_na c)
    (ia_addr c) (lease c) (private_address c) (duid c) (renew_rebind_time c)
    (rng c) (trace c) (fault c).

Definition set_mode (v : DHCPv6ClientMode) (c : DHCPv6Client) : DHCPv6Client :=
  mkClient (callback_rls c) (callback c) (our_ip c) (our_prefix_length c) v
    (cstate c) (sock_receive c) (timer c) (transaction_id c) (try_ c)
    (start_time c) (retransmit_time c) (saved c) (saved_verified c) (server_id
    c) (ia_na c) (ia_addr c) (lease c) (private_address c) (duid c)
    (renew_rebind_time c) (rng c) (trace c) (fault c).

Definition set_cstate (v : DHCPv6ClientState) (c : DHCPv6Client) : DHCPv6Client :=
  mkClient (callback_rls c) (callback c) (our_ip c) (our_prefix_length c)
    (mode c) v (sock_receive c) (timer c) (transaction_id c) (try_ c)
    (start_time c) (retransmit_time c) (saved c) (saved_verified c) (server_id
    c) (ia_na c) (ia_addr c) (lease c) (private_address c) (duid c)
    (renew_rebind_time c) (rng c) (trace c) (fault c).

Definition set_sock_receive (v : option EventFunc) (c : DHCPv6Client) : DHCPv6Client :=
  mkClient (callback_rls c) (callback c) (our_ip c) (our_prefix_length c)
    (mode c) (cstate c) v (timer c) (transaction_id c) (try_ c) (start_time c)
    (retransmit_time c) (saved c) (saved_verified c) (server_id c) (ia_na c)
    (ia_addr c) (lease c) (private_address c) (duid c) (renew_rebind_time c)
    (rng c) (trace c) (fault c).

Definition set_timer (v : option timer_callout_t) (c : DHCPv6Client) : DHCPv6Client :=
  mkClient (callback_rls c) (callback c) (our_ip c) (our_prefix_length c)
    (mode c) (cstate c) (sock_receive c) v (transaction_id c) (try_ c)
    (start_time c) (retransmit_time c) (saved c) (saved_verified c) (server_id
    c) (ia_na c) (ia_addr c) (lease c) (private_address c) (duid c)
    (renew_rebind_time c) (rng c) (trace c) (fault c).

Definition set_transaction_id (v : Z) (c : DHCPv6Client) : DHCPv6Client :=
  mkClient (callback_rls c) (callback c) (our_ip c) (our_prefix_length c)
    (mode c) (cstate c) (sock_receive c) (timer c) v (try_ c) (start_time c)
    (retransmit_time c) (saved c) (saved_verified c) (server_id c) (ia_na c)
    (ia_addr c) (lease c) (private_address c) (duid c) (renew_rebind_time c)
    (rng c) (trace c) (fault c).

Definition set_try_ (v : Z) (c : DHCPv6Client) : DHCPv6Client :=
  mkClient (callback_rls c) (callback c) (our_ip c) (our_prefix_length c)
    (mode c) (cstate c) (sock_receive c) (timer c) (transaction_id c) v
    (start_time c) (retransmit_time c) (saved c) (saved_verified c) (server_id
    c) (ia_na c) (ia_addr c) (lease c) (private_address c) (duid c)
    (renew_rebind_time c) (rng c) (trace c) (fault c).

Definition set_start_time (v : Q) (c : DHCPv6Client) : DHCPv6Client :=
  mkClient (callback_rls c) (callback c) (our_ip c) (our_prefix_length c)
    (mode c) (cstate c) (sock_receive c) (timer c) (transaction_id c) (try_ c)
    v (retransmit_time c) (saved c) (saved_verified c) (server_id c) (ia_na c)
    (ia_addr c) (lease c) (private_address c) (duid c) (renew_rebind_time c)
    (rng c) (trace c) (fault c).

Definition set_retransmit_time (v : Q) (c : DHCPv6Client) : DHCPv6Client :=
  mkClient (callback_rls c) (callback c) (our_ip c) (our_prefix_length c)
    (mode c) (cstate c) (sock_receive c) (timer c) (transaction_id c) (try_ c)
    (start_time c) v (saved c) (saved_verified c) (server_id c) (ia_na c)
    (ia_addr c) (lease c) (private_address c) (duid c) (renew_rebind_time c)
    (rng c) (trace c) (fault c).

Definition set_saved (v : dhcpv6_info_t) (c : DHCPv6Client) : DHCPv6Client :=
  mkClient (callback_rls c) (callback c) (our_ip c) (our_prefix_length c)
    (mode c) (cstate c) (sock_receive c) (timer c) (transaction_id c) (try_ c)
    (start_time c) (retransmit_time c) v (saved_verified c) (server_id c)
    (ia_na c) (ia_addr c) (lease c) (private_address c) (duid c)
    (renew_rebind_time c) (rng c) (trace c) (fault c).

Definition set_saved_verified (v : bool) (c : DHCPv6Client) : DHCPv6Client :=
  mkClient (callback_rls c) (callback c) (our_ip c) (our_prefix_length c)
    (mode c) (cstate c) (sock_receive c) (timer c) (transaction_id c) (try_ c)
    (start_time c) (retransmit_time c) (saved c) v (server_id c) (ia_na c)
    (ia_addr c) (lease c) (private_address c) (duid c) (renew_rebind_time c)
    (rng c) (trace c) (fault c).

Definition set_server_id (v : option (list byte)) (c : DHCPv6Client) : DHCPv6Client :=
  mkClient (callback_rls c) (callback c) (our_ip c) (our_prefix_length c)
    (mode c) (cstate c) (sock_receive c) (timer c) (transaction_id c) (try_ c)
    (start_time c) (retransmit_time c) (saved c) (saved_verified c) v (ia_na
    c) (ia_addr c) (lease c) (private_address c) (duid c) (renew_rebind_time
    c) (rng c) (trace c) (fault c).

Definition set_ia_na (v : option (list byte)) (c : DHCPv6Client) : DHCPv6Client :=
  mkClient (callback_rls c) (callback c) (our_ip c) (our_prefix_length c)
    (mode c) (cstate c) (sock_receive c) (timer c) (transaction_id c) (try_ c)
    (start_time c) (retransmit_time c) (saved c) (saved_verified c) (server_id
    c) v (ia_addr c) (lease c) (private_address c) (duid c) (renew_rebind_time
    c) (rng c) (trace c) (fault c).

Definition set_ia_addr (v : option (list byte)) (c : DHCPv6Client) : DHCPv6Client :=
  mkClient (callback_rls c) (callback c) (our_ip c) (our_prefix_length c)
    (mode c) (cstate c) (sock_receive c) (timer c) (transaction_id c) (try_ c)
    (start_time c) (retransmit_time c) (saved c) (saved_verified c) (server_id
    c) (ia_na c) v (lease c) (private_address c) (duid c) (renew_rebind_time
    c) (rng c) (trace c) (fault c).

Definition set_lease (v : lease_info_t) (c : DHCPv6Client) : DHCPv6Client :=
  mkClient (callback_rls c) (callback c) (our_ip c) (our_prefix_length c)
    (mode c) (cstate c) (sock_receive c) (timer c) (transaction_id c) (try_ c)
    (start_time c) (retransmit_time c) (saved c) (saved_verified c) (server_id
    c) (ia_na c) (ia_addr c) v (private_address c) (duid c) (renew_rebind_time
    c) (rng c) (trace c) (fault c).

Definition set_private_address (v : bool) (c : DHCPv6Client) : DHCPv6Client :=
  mkClient (callback_rls c) (callback c) (our_ip c) (our_prefix_length c)
    (mode c) (cstate c) (sock_receive c) (timer c) (transaction_id c) (try_ c)
    (start_time c) (retransmit_time c) (saved c) (saved_verified c) (server_id
    c) (ia_na c) (ia_addr c) (lease c) v (duid c) (renew_rebind_time c) (rng
    c) (trace c) (fault c).

Definition set_duid (v : option (list byte)) (c : DHCPv6Client) : DHCPv6Client :=
  mkClient (callback_rls c) (callback c) (our_ip c) (our_prefix_length c)
    (mode c) (cstate c) (sock_receive c) (timer c) (transaction_id c) (try_ c)
    (start_time c) (retransmit_time c) (saved c) (saved_verified c) (server_id
    c) (ia_na c) (ia_addr c) (lease c) (private_address c) v
    (renew_rebind_time c) (rng c) (trace c) (fault c).

Definition set_renew_rebind_time (v : Q) (c : DHCPv6Client) : DHCPv6Client :=
  mkClient (callback_rls c) (callback c) (our_ip c) (our_prefix_length c)
    (mode c) (cstate c) (sock_receive c) (timer c) (transaction_id c) (try_ c)
    (start_time c) (retransmit_time c) (saved c) (saved_verified c) (server_id
    c) (ia_na c) (ia_addr c) (lease c) (private_address c) (duid c) v (rng c)
    (trace c) (fault c).

Definition set_rng (v : nat) (c : DHCPv6Client) : DHCPv6Client :=
  mkClient (callback_rls c) (callback c) (our_ip c) (our_prefix_length c)
    (mode c) (cstate c) (sock_receive c) (timer c) (transaction_id c) (try_ c)
    (start_time c) (retransmit_time c) (saved c) (saved_verified c) (server_id
    c) (ia_na c) (ia_addr c) (lease c) (private_address c) (duid c)
    (renew_rebind_time c) v (trace c) (fault c).

Definition set_trace (v : list Effect) (c : DHCPv6Client) : DHCPv6Client :=
  mkClient (callback_rls c) (callback c) (our_ip c) (our_prefix_length c)
    (mode c) (cstate c) (sock_receive c) (timer c) (transaction_id c) (try_ c)
    (start_time c) (retransmit_time c) (saved c) (saved_verified c) (server_id
    c) (ia_na c) (ia_addr c) (lease c) (private_address c) (duid c)
    (renew_rebind_time c) (rng c) v (fault c).

Definition set_fault (v : bool) (c : DHCPv6Client) : DHCPv6Client :=
  mkClient (callback_rls c) (callback c) (our_ip c) (our_prefix_length c)
    (mode c) (cstate c) (sock_receive c) (timer c) (transaction_id c) (try_ c)
    (start_time c) (retransmit_time c) (saved c) (saved_verified c) (server_id
    c) (ia_na c) (ia_addr c) (lease c) (private_address c) (duid c)
    (renew_rebind_time c) (rng c) (trace c) v.

(** ** Primitive operations on the client and its collaborators *)

Definition emit (ef : Effect) (c : DHCPv6Client) : DHCPv6Client :=
  set_trace (ef :: trace c) c.

Definition timer_callout_set (delay : Q) (func : EventFunc) (arg : IFEventID_t)
    (c : DHCPv6Client) : DHCPv6Client :=
  set_timer (Some (mkTimer delay func arg)) c.

Definition timer_cancel (c : DHCPv6Client) : DHCPv6Client :=
  set_timer None c.

Definition DHCPv6SocketEnableReceive (func : EventFunc) (c : DHCPv6Client)
  : DHCPv6Client :=
  set_sock_receive (Some func) c.

Definition DHCPv6SocketDisableReceive (c : DHCPv6Client) : DHCPv6Client :=
  set_sock_receive None c.

Definition in6addr_any : list byte := repeat x00 16.

Definition IN6_IS_ADDR_UNSPECIFIED (a : list byte) : bool :=
  bytes_eqb a in6addr_any.

Definition IN6_ARE_ADDR_EQUAL (a b : list byte) : bool := bytes_eqb a b.

Definition Qlt_bool (x y : Q) : bool := negb (Qle_bool y x).

(** [(uint32_t)d] for a double [d]: truncation toward zero (C leaves the
    conversion undefined outside the range of [uint32_t]; the wrap-around
    written here is never relied on). *)
Definition double_to_uint32 (d : Q) : Z :=
  (if Qle_bool 0 d then Qfloor d else Qceiling d) mod 4294967296.

(** Modelled from the spec: the timing constants of DHCPv6.h, which is not
    among the sources; the values are those of RFC 3315 section 5.5, which
    section 6 of the specification names. *)
Definition DHCPv6_SOL_MAX_DELAY : Q := 1.
Definition DHCPv6_SOL_TIMEOUT : Q := 1.
Definition DHCPv6_SOL_MAX_RT : Q := 120.
Definition DHCPv6_REQ_TIMEOUT : Q := 1.
Definition DHCPv6_REQ_MAX_RT : Q := 30.
Definition DHCPv6_REQ_MAX_RC : Z := 10.
Definition DHCPv6_CNF_MAX_DELAY : Q := 1.
Definition DHCPv6_CNF_TIMEOUT : Q := 1.
Definition DHCPv6_CNF_MAX_RT : Q := 4.
Definition DHCPv6_CNF_MAX_RD : Q := 10.
Definition DHCPv6_REN_TIMEOUT : Q := 10.
Definition DHCPv6_REN_MAX_RT : Q := 600.
Definition DHCPv6_REB_TIMEOUT : Q := 10.
Definition DHCPv6_REB_MAX_RT : Q := 600.
Definition DHCPv6_INF_MAX_DELAY : Q := 1.
Definition DHCPv6_INF_TIMEOUT : Q := 1.
Definition DHCPv6_INF_MAX_RT : Q := 120.
Definition DHCPv6_DEC_TIMEOUT : Q := 1.
Definition DHCPv6_DEC_MAX_RC : Z := 5.

(** ** Random source and the retransmission engine

    The draws of [arc4random] are numbered; a function that draws takes the
    number of the next draw and returns the number after its last one. *)

Definition arc4random_next (e : Env) (n : nat) : Z * nat :=
  (arc4random e n mod 4294967296, S n).

(** The arithmetic of C double (IEEE 754 binary64, round to nearest, ties to
    even), for the random factors and the intervals computed from them.  A
    finite double is a rational number; an operation of C gives the double
    nearest to the exact result.  [Qlog2 x] is the exponent of a positive
    [x]: 2 ^ Qlog2 x <= x < 2 ^ (Qlog2 x + 1); a double with that exponent
    is a multiple of 2 ^ (Qlog2 x - 52).  The exponent is not bounded here:
    the values are those of binary64 for magnitudes from 2 ^ -1022 up to the
    largest double (the quantities rounded below are seconds and factors
    between 0 and 1).  Every operation is rounded on its own: a product
    and the sum it enters are not fused. *)
Definition Qlog2 (x : Q) : Z :=
  let k := Z.log2 (Qnum x) - Z.log2 (Zpos (Qden x)) in
  if Qle_bool (2 ^ k) x then k else k - 1.

Definition round_nearest_even (m : Q) : Z :=
  let f := Qfloor m in
  match (m - inject_Z f ?= 1 # 2)%Q with
  | Lt => f
  | Eq => if Z.even f then f else f + 1
  | Gt => f + 1
  end.

Definition round_magnitude (a : Q) : Q :=
  let s := (2 ^ (52 - Qlog2 a))%Q in
  Qred (inject_Z (round_nearest_even (a * s)) / s).

Definition round_double (x : Q) : Q :=
  match Qnum x with
  | Z0 => 0
  | Zpos _ => round_magnitude x
  | Zneg _ => - round_magnitude (- x)
  end.

Definition double_add (x y : Q) : Q := round_double (x + y).
Definition double_sub (x y : Q) : Q := round_double (x - y).
Definition double_mul (x y : Q) : Q := round_double (x * y).
Definition double_div (x y : Q) : Q := round_double (x / y).

(** Half the distance from 1 to the next double: the bound of the relative
    error of one operation. *)
Definition double_epsilon : Q := 1 # 9007199254740992.

Definition random_double_in_range (e : Env) (bottom top : Q) (n : nat)
  : Q * nat :=
  let (a, n) := arc4random_next e n in
  let r := double_div (inject_Z a) (inject_Z UINT32_MAX) in
  (double_add bottom (double_mul (double_sub top bottom) r), n).

Definition LOWER_24_BITS : Z := 16777215.

Definition get_new_transaction_id (e : Env) (n : nat) : Z * nat :=
  let (r, n) := arc4random_next e n in
  (Z.land r LOWER_24_BITS, n).

(** The constant 0.1 of the C source: the double nearest to 1/10. *)
Definition double_tenth : Q := round_double (1 # 10).

Definition DHCPv6_RAND (e : Env) (n : nat) : Q * nat :=
  random_double_in_range e (- double_tenth)%Q double_tenth n.

Definition DHCPv6SubsequentTimeout (e : Env) (RTprev MRT : Q) (n : nat)
  : Q * nat :=
  let (r, n) := DHCPv6_RAND e n in
  let RT := double_add (double_mul 2 RTprev) (double_mul r RTprev) in
  if negb (Qeq_bool MRT 0) && Qlt_bool MRT RT then
    let (r', n) := DHCPv6_RAND e n in
    (double_add MRT (double_mul r' MRT), n)
  else (RT, n).

Definition DHCPv6InitialTimeout (e : Env) (IRT : Q) (n : nat) : Q * nat :=
  let (r, n) := DHCPv6_RAND e n in
  (double_add IRT (double_mul r IRT), n).

Definition DHCPv6ClientClearRetransmit (c : DHCPv6Client) : DHCPv6Client :=
  set_try_ 0 c.

Definition DHCPv6ClientNextRetransmit (e : Env) (IRT MRT : Q)
    (c : DHCPv6Client) : Q * DHCPv6Client :=
  let c := set_try_ (try_ c + 1) c in
  let (rt, n) :=
    if try_ c =? 1 then DHCPv6InitialTimeout e IRT (rng c)
    else DHCPv6SubsequentTimeout e (retransmit_time c) MRT (rng c) in
  let c := set_retransmit_time rt (set_rng n c) in
  (retransmit_time c, c).

Definition new_transaction_id (e : Env) (c : DHCPv6Client) : DHCPv6Client :=
  let (xid, n) := get_new_transaction_id e (rng c) in
  set_transaction_id xid (set_rng n c).

(** ** DHCPv6Client routines *)

Definition DHCPv6ClientSetSSID (ssid : option String.string)
    (c : DHCPv6Client) : DHCPv6Client :=
  let l := lease c in
  set_lease (mkLease (lease_start l) (lease_t1 l) (lease_t2 l)
                     (lease_valid_lifetime l) (lease_preferred_lifetime l)
                     (lease_valid l) ssid) c.

Definition set_lease_valid (v : bool) (c : DHCPv6Client) : DHCPv6Client :=
  let l := lease c in
  set_lease (mkLease (lease_start l) (lease_t1 l) (lease_t2 l)
                     (lease_valid_lifetime l) (lease_preferred_lifetime l)
                     v (lease_ssid l)) c.

(** The DUID in use: the cached private one (created on first use) when the
    private-address flag is set, the system-wide one otherwise.  The
    collaborator is taken to deliver a DUID. *)
Definition DHCPv6ClientGetDUID (e : Env) (c : DHCPv6Client)
  : list byte * DHCPv6Client :=
  if private_address c then
    match duid c with
    | None => (DHCPDUIDCopy e, set_duid (Some (DHCPDUIDCopy e)) c)
    | Some d => (d, c)
    end
  else (DHCPDUIDEstablishAndGet e, c).

Definition S_duid_matches (e : Env) (options : DHCPv6OptionListRef)
    (c : DHCPv6Client) : bool * DHCPv6Client :=
  let (data, c) := DHCPv6ClientGetDUID e c in
  match get_option options kDHCPv6OPTION_CLIENTID with
  | None => (false, c)
  | Some duid =>
      if negb (option_len data =? option_len duid) then (false, c)
      else if negb (bytes_eqb duid data) then (false, c)
      else (true, c)
  end.

Definition DHCPv6ClientSetState (s : DHCPv6ClientState) (c : DHCPv6Client)
  : DHCPv6Client :=
  emit (LogState s) (set_cstate s c).

Definition DHCPv6ClientRemoveAddress (e : Env) (c : DHCPv6Client)
  : DHCPv6Client :=
  if IN6_IS_ADDR_UNSPECIFIED (our_ip c) then c
  else
    let c := if inet6_dgram_socket_ok e then emit (AddrRemove (our_ip c)) c
             else c in
    set_our_prefix_length 0 (set_our_ip in6addr_any c).

Definition DHCPv6ClientPostNotification (c : DHCPv6Client) : DHCPv6Client :=
  if callback_rls c then emit Notify c else c.

Definition DHCPv6ClientCancelPendingEvents (c : DHCPv6Client) : DHCPv6Client :=
  timer_cancel (DHCPv6SocketDisableReceive c).

Definition lease_zero : lease_info_t := mkLease 0 0 0 0 0 false None.

Definition DHCPv6ClientClearLease (c : DHCPv6Client) : DHCPv6Client :=
  set_lease lease_zero (DHCPv6ClientSetSSID None c).

Definition DHCPv6ClientClearPacket (c : DHCPv6Client) : DHCPv6Client :=
  let c := DHCPv6ClientClearLease c in
  let c := set_saved (mkInfo None 0 None) c in
  let c := set_server_id None c in
  let c := set_ia_na None c in
  let c := set_ia_addr None c in
  set_saved_verified false c.

Definition DHCPv6ClientInactive (e : Env) (c : DHCPv6Client) : DHCPv6Client :=
  let c := DHCPv6ClientCancelPendingEvents c in
  let c := DHCPv6ClientClearPacket c in
  let c := DHCPv6ClientRemoveAddress e c in
  DHCPv6ClientPostNotification c.

Definition CFEqual (a b : String.string) : bool := String.eqb a b.

Definition DHCPv6ClientLeaseOnSameNetwork (e : Env) (c : DHCPv6Client) : bool :=
  if negb (if_is_wireless e) then true
  else
    match ServiceGetSSID e, lease_ssid (lease c) with
    | Some ssid, Some lssid => CFEqual ssid lssid
    | _, _ => false
    end.

Definition DHCPv6ClientLeaseStillValid (e : Env) (current_time : Q)
    (c : DHCPv6Client) : bool * DHCPv6Client :=
  if negb (lease_valid (lease c)) then (lease_valid (lease c), c)
  else if lease_valid_lifetime (lease c) =? DHCP_INFINITE_LEASE then
    (lease_valid (lease c), c)
  else if Qlt_bool current_time (lease_start (lease c)) then
    (* time went backwards *)
    let c := set_lease_valid false (DHCPv6ClientClearPacket c) in
    (lease_valid (lease c), c)
  else if Qle_bool (inject_Z (lease_valid_lifetime (lease c)))
                   (current_time - lease_start (lease c)) then
    (* expired *)
    let c := set_lease_valid false (DHCPv6ClientClearPacket c) in
    (lease_valid (lease c), c)
  else (lease_valid (lease c), c).

(** What arrives from the socket: the packet bytes and the option list the
    socket layer parsed from them. *)
Record DHCPv6SocketReceiveData : Type := mkData {
  data_pkt : list byte;
  data_options : DHCPv6OptionListRef
}.

Definition data_pkt_len (data : DHCPv6SocketReceiveData) : Z :=
  Z.of_nat (length (data_pkt data)).

Definition pkt_msg_type (p : list byte) : Z := nth_byte p 0.

Definition DHCPv6PacketGetTransactionID (p : list byte) : Z :=
  (nth_byte p 1 * 256 + nth_byte p 2) * 256 + nth_byte p 3.

(** The lease times kept for an IA_NA with T1, T2 and an IAADDR with the given
    lifetimes: the computation in the middle of DHCPv6ClientSavePacket.
    Result: (t1, t2, preferred_lifetime, valid_lifetime) as stored. *)
Definition lease_times (t1 t2 preferred_lifetime valid_lifetime : Z)
  : Z * Z * Z * Z :=
  let preferred_lifetime :=
    if preferred_lifetime =? 0 then valid_lifetime else preferred_lifetime in
  let '(t1, t2, preferred_lifetime, valid_lifetime) :=
    if (t1 =? 0) || (t2 =? 0) then
      if preferred_lifetime =? DHCP_INFINITE_LEASE then
        (0, 0, preferred_lifetime, valid_lifetime)
      else
        (double_to_uint32 (inject_Z preferred_lifetime * (5 # 10)),
         double_to_uint32 (inject_Z preferred_lifetime * (8 # 10)),
         preferred_lifetime, valid_lifetime)
    else if (t1 =? DHCP_INFINITE_LEASE) || (t2 =? DHCP_INFINITE_LEASE) then
      (0, 0, DHCP_INFINITE_LEASE, DHCP_INFINITE_LEASE)
    else (t1, t2, preferred_lifetime, valid_lifetime) in
  if valid_lifetime =? DHCP_INFINITE_LEASE then
    (0, 0, DHCP_INFINITE_LEASE, valid_lifetime)
  else (t1, t2, preferred_lifetime, valid_lifetime).

Definition DHCPv6ClientSavePacket (e : Env) (data : DHCPv6SocketReceiveData)
    (c : DHCPv6Client) : DHCPv6Client :=
  let current_time := timer_get_current_time e in
  let c := DHCPv6ClientClearPacket c in
  let c := DHCPv6ClientSetSSID (ServiceGetSSID e) c in
  let c := set_saved (mkInfo (Some (data_pkt data)) (data_pkt_len data)
                             (DHCPv6OptionListCreateWithPacket e (data_pkt data)))
                     c in
  match options (saved c) with
  | None => set_fault true c
  | Some opts =>
      let c := set_server_id (get_option opts kDHCPv6OPTION_SERVERID) c in
      let (na, ad) := get_ia_na_addr e opts in
      let c := set_ia_addr ad (set_ia_na na c) in
      match ia_na c with
      | None => set_saved_verified true c
      | Some na =>
          match ia_addr c with
          | None => set_fault true c
          | Some ad =>
              let '(t1, t2, preferred_lifetime, valid_lifetime) :=
                lease_times (DHCPv6OptionIA_NAGetT1 na)
                            (DHCPv6OptionIA_NAGetT2 na)
                            (DHCPv6OptionIAADDRGetPreferredLifetime ad)
                            (DHCPv6OptionIAADDRGetValidLifetime ad) in
              let l := lease c in
              let c := set_lease (mkLease current_time t1 t2 valid_lifetime
                                          preferred_lifetime (lease_valid l)
                                          (lease_ssid l)) c in
              set_saved_verified true c
          end
      end
  end.

(** The three transmit routines.  The packet they build (header, CLIENTID,
    ORO, ELAPSED_TIME, and for SendPacket SERVERID and IA_NA) is not
    modelled: a transmission is the effect [SocketTransmit] with the message
    type.  Building the packet looks up the DUID, which fills the cache. *)
Definition DHCPv6ClientMakePacket (e : Env) (c : DHCPv6Client) : DHCPv6Client :=
  snd (DHCPv6ClientGetDUID e c).

Definition DHCPv6ClientSendInform (e : Env) (c : DHCPv6Client) : DHCPv6Client :=
  emit (SocketTransmit kDHCPv6MessageINFORMATION_REQUEST)
       (DHCPv6ClientMakePacket e c).

Definition DHCPv6ClientSendSolicit (e : Env) (c : DHCPv6Client) : DHCPv6Client :=
  emit (SocketTransmit kDHCPv6MessageSOLICIT) (DHCPv6ClientMakePacket e c).

Definition DHCPv6ClientSendPacket (e : Env) (c : DHCPv6Client) : DHCPv6Client :=
  match ia_na c, server_id c with
  | Some _, Some _ =>
      let message_type :=
        match cstate c with
        | kDHCPv6ClientStateRequest => Some kDHCPv6MessageREQUEST
        | kDHCPv6ClientStateRenew => Some kDHCPv6MessageRENEW
        | kDHCPv6ClientStateRebind => Some kDHCPv6MessageREBIND
        | kDHCPv6ClientStateRelease => Some kDHCPv6MessageRELEASE
        | kDHCPv6ClientStateConfirm => Some kDHCPv6MessageCONFIRM
        | kDHCPv6ClientStateDecline => Some kDHCPv6MessageDECLINE
        | _ => None
        end in
      match message_type with
      | Some mt => emit (SocketTransmit mt) (DHCPv6ClientMakePacket e c)
      | None => c
      end
  | _, _ => c
  end.

(** ** The event functions

    Each state's function is a switch on the event id; its three cases are
    separate definitions here ([_start], [_timeout], [_data]) and a fall
    through from one case into the next is a call.  A definition takes the
    client last and returns the client after the event. *)

(** The first test of every receive case: wrong message type, wrong
    transaction id, or a CLIENTID that is not ours ("not a match"). *)
Definition not_a_match (e : Env) (msg_type : Z)
    (data : DHCPv6SocketReceiveData) (c : DHCPv6Client)
  : bool * DHCPv6Client :=
  if negb (pkt_msg_type (data_pkt data) =? msg_type) then (true, c)
  else if negb (DHCPv6PacketGetTransactionID (data_pkt data)
                =? transaction_id c) then (true, c)
  else
    let (m, c) := S_duid_matches e (data_options data) c in
    (negb m, c).

(** The second test of every receive case: "missing/invalid DUID". *)
Definition server_id_missing_or_invalid (e : Env)
    (data : DHCPv6SocketReceiveData) : bool :=
  match get_option (data_options data) kDHCPv6OPTION_SERVERID with
  | None => true
  | Some server_id => negb (DHCPDUIDIsValid e server_id)
  end.

Definition link_is_down (e : Env) : bool :=
  ls_valid (if_get_link_status e) && negb (ls_active (if_get_link_status e)).

(** *** InformComplete and Inform *)

Definition DHCPv6Client_InformComplete_start (c : DHCPv6Client) : DHCPv6Client :=
  DHCPv6ClientCancelPendingEvents
    (DHCPv6ClientSetState kDHCPv6ClientStateInformComplete c).

Definition DHCPv6Client_Inform_timeout (e : Env) (c : DHCPv6Client)
  : DHCPv6Client :=
  let transmit c :=
    let (rt, c) := DHCPv6ClientNextRetransmit
                     e DHCPv6_INF_TIMEOUT DHCPv6_INF_MAX_RT c in
    let c := timer_callout_set rt DHCPv6Client_Inform_fn IFEventID_timeout_e c in
    DHCPv6ClientSendInform e c in
  if try_ c =? 0 then transmit (set_start_time (timer_get_current_time e) c)
  else if link_is_down e then DHCPv6ClientInactive e c
  else transmit c.

Definition DHCPv6Client_Inform_start (e : Env) (c : DHCPv6Client)
  : DHCPv6Client :=
  let c := DHCPv6ClientSetState kDHCPv6ClientStateInform c in
  let c := DHCPv6ClientClearPacket c in
  let c := DHCPv6ClientClearRetransmit c in
  let c := new_transaction_id e c in
  let c := DHCPv6SocketEnableReceive DHCPv6Client_Inform_fn c in
  if negb (if_is_cellular e) then
    let (d, n) := random_double_in_range e 0 DHCPv6_INF_MAX_DELAY (rng c) in
    timer_callout_set d DHCPv6Client_Inform_fn IFEventID_timeout_e
                      (set_rng n c)
  else DHCPv6Client_Inform_timeout e c.

Definition DHCPv6Client_Inform_data (e : Env)
    (data : DHCPv6SocketReceiveData) (c : DHCPv6Client) : DHCPv6Client :=
  let (nomatch, c) := not_a_match e kDHCPv6MessageREPLY data c in
  if nomatch then c
  else if server_id_missing_or_invalid e data then c
  else
    let c := DHCPv6ClientSavePacket e data c in
    if fault c then c
    else
      let c := DHCPv6ClientPostNotification c in
      DHCPv6Client_InformComplete_start c.

(** *** Release *)

Definition DHCPv6Client_Release_start (e : Env) (c : DHCPv6Client)
  : DHCPv6Client :=
  let c := DHCPv6ClientSetState kDHCPv6ClientStateRelease c in
  let c := DHCPv6ClientRemoveAddress e c in
  let c := DHCPv6ClientCancelPendingEvents c in
  let c := DHCPv6ClientClearRetransmit c in
  let c := new_transaction_id e c in
  DHCPv6ClientSendPacket e c.

(** *** Solicit (start), Request (start, timeout), Solicit (timeout) *)

Definition DHCPv6Client_Solicit_start (e : Env) (c : DHCPv6Client)
  : DHCPv6Client :=
  let c := DHCPv6ClientSetState kDHCPv6ClientStateSolicit c in
  let c := DHCPv6ClientClearRetransmit c in
  let c := DHCPv6ClientClearPacket c in
  let c := new_transaction_id e c in
  let c := DHCPv6SocketEnableReceive DHCPv6Client_Solicit_fn c in
  let (d, n) := random_double_in_range e 0 DHCPv6_SOL_MAX_DELAY (rng c) in
  timer_callout_set d DHCPv6Client_Solicit_fn IFEventID_timeout_e
                    (set_rng n c).

Definition DHCPv6Client_Request_timeout (e : Env) (c : DHCPv6Client)
  : DHCPv6Client :=
  if try_ c >=? DHCPv6_REQ_MAX_RC then
    (* go back to Solicit *)
    DHCPv6Client_Solicit_start e c
  else
    let (rt, c) := DHCPv6ClientNextRetransmit
                     e DHCPv6_REQ_TIMEOUT DHCPv6_REQ_MAX_RT c in
    let c := timer_callout_set rt DHCPv6Client_Request_fn
                               IFEventID_timeout_e c in
    DHCPv6ClientSendPacket e c.

Definition DHCPv6Client_Request_start (e : Env) (c : DHCPv6Client)
  : DHCPv6Client :=
  let c := DHCPv6ClientSetState kDHCPv6ClientStateRequest c in
  let c := DHCPv6ClientClearRetransmit c in
  let c := new_transaction_id e c in
  let c := set_start_time (time_at_Request e) c in
  let c := DHCPv6SocketEnableReceive DHCPv6Client_Request_fn c in
  DHCPv6Client_Request_timeout e c.

Definition GENERATE_SYMPTOM_AT_TRY : Z := 6.

Definition DHCPv6Client_Solicit_timeout (e : Env) (c : DHCPv6Client)
  : DHCPv6Client :=
  let continue c :=
    (* we received a response after waiting *)
    if negb (pkt_len (saved c) =? 0) then DHCPv6Client_Request_start e c
    else
      let (rt, c) := DHCPv6ClientNextRetransmit
                       e DHCPv6_SOL_TIMEOUT DHCPv6_SOL_MAX_RT c in
      let c := timer_callout_set rt DHCPv6Client_Solicit_fn
                                 IFEventID_timeout_e c in
      let c := DHCPv6ClientSendSolicit e c in
      if try_ c >=? GENERATE_SYMPTOM_AT_TRY then
        if callback c then emit GenerateSymptom c else set_fault true c
      else c in
  if try_ c =? 0 then continue (set_start_time (timer_get_current_time e) c)
  else if link_is_down e then DHCPv6ClientInactive e c
  else continue c.

(** *** Decline *)

Definition DHCPv6Client_Decline_timeout (e : Env) (c : DHCPv6Client)
  : DHCPv6Client :=
  if try_ c >=? DHCPv6_DEC_MAX_RC then
    (* go back to Solicit *)
    DHCPv6Client_Solicit_start e c
  else
    let (rt, c) := DHCPv6ClientNextRetransmit e DHCPv6_DEC_TIMEOUT 0 c in
    let c := timer_callout_set rt DHCPv6Client_Decline_fn
                               IFEventID_timeout_e c in
    DHCPv6ClientSendPacket e c.

Definition DHCPv6Client_Decline_start (e : Env) (c : DHCPv6Client)
  : DHCPv6Client :=
  let c := DHCPv6ClientSetState kDHCPv6ClientStateDecline c in
  let c := DHCPv6ClientRemoveAddress e c in
  let c := DHCPv6ClientCancelPendingEvents c in
  let c := DHCPv6ClientClearLease c in
  let c := set_saved_verified false c in
  let c := DHCPv6ClientPostNotification c in
  let c := DHCPv6ClientClearRetransmit c in
  let c := new_transaction_id e c in
  let c := DHCPv6SocketEnableReceive DHCPv6Client_Decline_fn c in
  DHCPv6Client_Decline_timeout e c.

Definition DHCPv6Client_Decline_data (e : Env)
    (data : DHCPv6SocketReceiveData) (c : DHCPv6Client) : DHCPv6Client :=
  let (nomatch, c) := not_a_match e kDHCPv6MessageREPLY data c in
  if nomatch then c
  else if server_id_missing_or_invalid e data then c
  else
    (* back to Solicit *)
    DHCPv6Client_Solicit_start e c.

(** *** Unbound *)

Definition DHCPv6Client_Unbound_start (e : Env) (c : DHCPv6Client)
  : DHCPv6Client :=
  let c := DHCPv6ClientSetState kDHCPv6ClientStateUnbound c in
  let c := DHCPv6ClientCancelPendingEvents c in
  let c := DHCPv6ClientRemoveAddress e c in
  let c := DHCPv6ClientClearPacket c in
  let c := DHCPv6ClientPostNotification c in
  DHCPv6Client_Solicit_start e c.

(** *** Renew and Rebind (start, timeout) *)

Definition DHCPv6Client_RenewRebind_timeout (e : Env) (c : DHCPv6Client)
  : DHCPv6Client :=
  let current_time := time_at_RenewRebind e in
  let (still_valid, c) := DHCPv6ClientLeaseStillValid e current_time c in
  if negb still_valid then DHCPv6Client_Unbound_start e c
  else
    let time_since_start := (current_time - lease_start (lease c))%Q in
    let (wait_time, c) :=
      if double_to_uint32 time_since_start <? lease_t2 (lease c) then
        (* Renew (before T2) *)
        let (wait_time, c) := DHCPv6ClientNextRetransmit
                                e DHCPv6_REN_TIMEOUT DHCPv6_REN_MAX_RT c in
        let time_until_t2 :=
          inject_Z (uint32_sub (lease_t2 (lease c))
                               (double_to_uint32 time_since_start)) in
        (if Qlt_bool time_until_t2 wait_time then time_until_t2 else wait_time,
         c)
      else
        (* Rebind (T2 or later) *)
        let c :=
          if negb (DHCPv6ClientState_eqb (cstate c) kDHCPv6ClientStateRebind)
          then
            (* switch to Rebind *)
            let c := new_transaction_id e c in
            let c := set_start_time current_time c in
            let c := DHCPv6ClientSetState kDHCPv6ClientStateRebind c in
            DHCPv6ClientClearRetransmit c
          else c in
        let (wait_time, c) := DHCPv6ClientNextRetransmit
                                e DHCPv6_REB_TIMEOUT DHCPv6_REB_MAX_RT c in
        let time_until_expiration :=
          inject_Z (uint32_sub (lease_valid_lifetime (lease c))
                               (double_to_uint32 time_since_start)) in
        (if Qlt_bool time_until_expiration wait_time
         then time_until_expiration else wait_time, c) in
    let c := set_renew_rebind_time (current_time + wait_time)%Q c in
    let c := timer_callout_set wait_time DHCPv6Client_RenewRebind_fn
                               IFEventID_timeout_e c in
    DHCPv6ClientSendPacket e c.

Definition DHCPv6Client_RenewRebind_start (e : Env) (c : DHCPv6Client)
  : DHCPv6Client :=
  let c := DHCPv6ClientSetState kDHCPv6ClientStateRenew c in
  let c := DHCPv6ClientCancelPendingEvents c in
  let c := DHCPv6ClientClearRetransmit c in
  let c := set_start_time (time_at_RenewRebind e) c in
  let c := new_transaction_id e c in
  let c := DHCPv6SocketEnableReceive DHCPv6Client_RenewRebind_fn c in
  DHCPv6Client_RenewRebind_timeout e c.

(** *** Address changes and Bound *)

Definition RENEW_WAKEUP_SECS : Z := 10.

(** The timer that takes the client from Bound to Renew: T1 after the
    start of the lease, or 10 seconds from now when T1 has passed. *)
Definition schedule_renew (current_time time_since_start : Q)
    (c : DHCPv6Client) : DHCPv6Client :=
  let t1 := lease_t1 (lease c) in
  let t1 :=
    if double_to_uint32 time_since_start <? t1
    then uint32_sub t1 (double_to_uint32 time_since_start)
    else RENEW_WAKEUP_SECS in
  let c := set_renew_rebind_time (current_time + inject_Z t1)%Q c in
  timer_callout_set (inject_Z t1) DHCPv6Client_RenewRebind_fn
                    IFEventID_start_e c.

(** The scan of the address list in DHCPv6ClientHandleAddressChanged. *)
Fixpoint address_scan (e : Env) (l : list inet6_addrinfo_t)
    (c : DHCPv6Client) : DHCPv6Client :=
  match l with
  | [] => c
  | scan :: rest =>
      if IN6_ARE_ADDR_EQUAL (our_ip c) (addr scan) then
        if negb (Z.land (addr_flags scan) IN6_IFF_DUPLICATED =? 0) then
          (* someone else is using this address, decline it *)
          DHCPv6Client_Decline_start e c
        else if negb (Z.land (addr_flags scan) IN6_IFF_TENTATIVE =? 0) then
          (* address is still tentative *)
          c
        else
          (* notify that we're ready *)
          let c := DHCPv6ClientPostNotification c in
          let c := DHCPv6ClientCancelPendingEvents c in
          (* set a timer to start in Renew *)
          if negb (lease_valid_lifetime (lease c) =? DHCP_INFINITE_LEASE) then
            let current_time := time_at_AddressChanged e in
            if Qlt_bool current_time (lease_start (lease c)) then
              (* time went backwards? *)
              DHCPv6Client_Unbound_start e c
            else
              schedule_renew current_time
                             (current_time - lease_start (lease c))%Q c
          else c
      else address_scan e rest c
  end.

Definition DHCPv6ClientHandleAddressChanged (e : Env)
    (addr_list : list inet6_addrinfo_t) (c : DHCPv6Client) : DHCPv6Client :=
  match addr_list with
  | [] => c
  | _ =>
      if negb (DHCPv6ClientState_eqb (cstate c) kDHCPv6ClientStateBound) then c
      else address_scan e addr_list c
  end.

Definition DHCPv6ClientSimulateAddressChanged (e : Env) (c : DHCPv6Client)
  : DHCPv6Client :=
  DHCPv6ClientHandleAddressChanged e (inet6_addrlist_copy e) c.

Definition DHCPV6_PREFIX_LENGTH : Z := 128.

Definition S_get_prefix_length (e : Env) (a : list byte) : Z :=
  let prefix_length := inet6_get_prefix_length e a in
  if prefix_length =? 0 then DHCPV6_PREFIX_LENGTH else prefix_length.

(** The second half of the start case of DHCPv6Client_Bound: the address is
    put on the interface with the lifetimes that are left. *)
Definition Bound_set_address (e : Env) (new_ip : list byte)
    (time_since_start : Q) (valid_lifetime preferred_lifetime : Z)
    (c : DHCPv6Client) : DHCPv6Client :=
  if negb (inet6_dgram_socket_ok e) then c
  else
    (* if the address has changed, remove the old first *)
    let same_address :=
      negb (IN6_IS_ADDR_UNSPECIFIED (our_ip c))
      && IN6_ARE_ADDR_EQUAL (our_ip c) new_ip in
    let c :=
      if negb (IN6_IS_ADDR_UNSPECIFIED (our_ip c))
         && negb (IN6_ARE_ADDR_EQUAL (our_ip c) new_ip)
      then emit (AddrRemove (our_ip c)) c else c in
    let prefix_length := S_get_prefix_length e new_ip in
    let c := emit (AddrAdd new_ip prefix_length valid_lifetime
                           preferred_lifetime) c in
    if negb (inet6_aifaddr_ok e) then c
    else if same_address then
      let current_time := time_at_Bound_ready e in
      (* notify that we're ready *)
      let c := DHCPv6ClientPostNotification c in
      let c := DHCPv6ClientCancelPendingEvents c in
      (* set a timer to start in Renew *)
      if negb (lease_valid_lifetime (lease c) =? DHCP_INFINITE_LEASE) then
        schedule_renew current_time time_since_start c
      else c
    else
      let c := set_our_ip new_ip c in
      let c := set_our_prefix_length prefix_length c in
      (* and see what addresses are there now *)
      DHCPv6ClientSimulateAddressChanged e c.

Definition DHCPv6Client_Bound_start (e : Env) (c : DHCPv6Client)
  : DHCPv6Client :=
  match ia_addr c with
  | None => set_fault true c
  | Some ia =>
      let new_ip := DHCPv6OptionIAADDRGetAddress ia in
      let c := DHCPv6ClientSetState kDHCPv6ClientStateBound c in
      let c := set_lease_valid true c in
      let c := set_saved_verified true c in
      let c := DHCPv6ClientCancelPendingEvents c in
      let valid_lifetime := lease_valid_lifetime (lease c) in
      let preferred_lifetime := lease_preferred_lifetime (lease c) in
      if negb (valid_lifetime =? DHCP_INFINITE_LEASE) then
        let current_time := time_at_Bound e in
        if Qlt_bool current_time (lease_start (lease c)) then
          (* time went backwards? *)
          DHCPv6Client_Unbound_start e c
        else
          let time_since_start := (current_time - lease_start (lease c))%Q in
          let elapsed := double_to_uint32 time_since_start in
          if elapsed >=? lease_valid_lifetime (lease c) then
            (* expired *)
            DHCPv6Client_Unbound_start e c
          else
            (* reduce the time left by the amount that's elapsed already *)
            let valid_lifetime := uint32_sub valid_lifetime elapsed in
            let preferred_lifetime :=
              if elapsed <? preferred_lifetime
              then uint32_sub preferred_lifetime elapsed else 0 in
            Bound_set_address e new_ip time_since_start
                              valid_lifetime preferred_lifetime c
      else
        Bound_set_address e new_ip 0 valid_lifetime preferred_lifetime c
  end.

(** *** The receive cases of Renew/Rebind, Confirm, Request and Solicit *)

Definition DHCPv6Client_RenewRebind_data (e : Env)
    (data : DHCPv6SocketReceiveData) (c : DHCPv6Client) : DHCPv6Client :=
  let (nomatch, c) := not_a_match e kDHCPv6MessageREPLY data c in
  if nomatch then c
  else if server_id_missing_or_invalid e data then c
  else
    let (ok, code) := DHCPv6OptionListGetStatusCode e (data_options data) in
    if negb ok then c
    else if negb (code =? kDHCPv6StatusCodeSuccess) then
      DHCPv6Client_Unbound_start e c
    else
      match get_ia_na_addr e (data_options data) with
      | (None, _) => DHCPv6Client_Unbound_start e c
      | (Some _, _) =>
          let c := DHCPv6ClientSavePacket e data c in
          if fault c then c else DHCPv6Client_Bound_start e c
      end.

Definition DHCPv6Client_Confirm_start (e : Env) (c : DHCPv6Client)
  : DHCPv6Client :=
  let c := DHCPv6ClientSetState kDHCPv6ClientStateConfirm c in
  let c := DHCPv6ClientCancelPendingEvents c in
  let c := DHCPv6ClientClearRetransmit c in
  let c := set_saved_verified false c in
  let c := new_transaction_id e c in
  let c := DHCPv6SocketEnableReceive DHCPv6Client_Confirm_fn c in
  let (d, n) := random_double_in_range e 0 DHCPv6_CNF_MAX_DELAY (rng c) in
  timer_callout_set d DHCPv6Client_Confirm_fn IFEventID_timeout_e
                    (set_rng n c).

Definition DHCPv6Client_Confirm_timeout (e : Env) (c : DHCPv6Client)
  : DHCPv6Client :=
  let current_time := timer_get_current_time e in
  let transmit c :=
    let (rt, c) := DHCPv6ClientNextRetransmit
                     e DHCPv6_CNF_TIMEOUT DHCPv6_CNF_MAX_RT c in
    let c := timer_callout_set rt DHCPv6Client_Confirm_fn
                               IFEventID_timeout_e c in
    DHCPv6ClientSendPacket e c in
  if try_ c =? 0 then transmit (set_start_time current_time c)
  else if link_is_down e then DHCPv6ClientInactive e c
  else
    let done :=
      if Qlt_bool (start_time c) current_time then
        Qle_bool DHCPv6_CNF_MAX_RD (current_time - start_time c)
      else true in
    if done then
      let (still_valid, c) := DHCPv6ClientLeaseStillValid e current_time c in
      if still_valid then DHCPv6Client_Bound_start e c
      else DHCPv6Client_Solicit_start e c
    else transmit c.

Definition DHCPv6Client_Confirm_data (e : Env)
    (data : DHCPv6SocketReceiveData) (c : DHCPv6Client) : DHCPv6Client :=
  let (nomatch, c) := not_a_match e kDHCPv6MessageREPLY data c in
  if nomatch then c
  else if server_id_missing_or_invalid e data then c
  else
    let (ok, code) := DHCPv6OptionListGetStatusCode e (data_options data) in
    if negb ok then c
    else if negb (code =? kDHCPv6StatusCodeSuccess) then
      DHCPv6Client_Unbound_start e c
    else DHCPv6Client_Bound_start e c.

Definition DHCPv6Client_Request_data (e : Env)
    (data : DHCPv6SocketReceiveData) (c : DHCPv6Client) : DHCPv6Client :=
  let (nomatch, c) := not_a_match e kDHCPv6MessageREPLY data c in
  if nomatch then c
  else if server_id_missing_or_invalid e data then c
  else
    let (ok, code) := DHCPv6OptionListGetStatusCode e (data_options data) in
    if negb ok then c
    else if code =? kDHCPv6StatusCodeNoAddrsAvail then
      (* must ignore it *)
      c
    else
      let '(na, _, code) := get_ia_na_addr_code e (data_options data) in
      if code =? kDHCPv6StatusCodeNotOnLink then
        (* go back to Solicit *)
        DHCPv6Client_Solicit_start e c
      else
        match na with
        | None => (* no address binding *) c
        | Some _ =>
            let c := DHCPv6ClientSavePacket e data c in
            if fault c then c else DHCPv6Client_Bound_start e c
        end.

Definition DHCPv6Client_Solicit_data (e : Env)
    (data : DHCPv6SocketReceiveData) (c : DHCPv6Client) : DHCPv6Client :=
  let (nomatch, c) := not_a_match e kDHCPv6MessageADVERTISE data c in
  if nomatch then c
  else if server_id_missing_or_invalid e data then c
  else
    let (ok, code) := DHCPv6OptionListGetStatusCode e (data_options data) in
    if negb ok then c
    else if code =? kDHCPv6StatusCodeNoAddrsAvail then
      (* must ignore it *)
      c
    else
      match get_ia_na_addr e (data_options data) with
      | (None, _) => c
      | (Some _, _) =>
          (* check for a server preference value *)
          let pref := get_preference_value_from_options (data_options data) in
          (* if this response is "better" than one we saved, use it *)
          let saved_is_better :=
            match options (saved c) with
            | Some saved_options =>
                get_preference_value_from_options saved_options >=? pref
            | None => false
            end in
          if saved_is_better then c
          else
            let c := DHCPv6ClientSavePacket e data c in
            if fault c then c
            else if (try_ c >? 1)
                    || (pref =? kDHCPv6OptionPREFERENCEMaxValue) then
              (* already waited, or preference is max, move to Request *)
              DHCPv6Client_Request_start e c
            else c
      end.

(** *** The event functions as the source has them: a switch on the event *)

Definition with_data (handler : DHCPv6SocketReceiveData -> DHCPv6Client ->
                                DHCPv6Client)
    (event_data : option DHCPv6SocketReceiveData) (c : DHCPv6Client)
  : DHCPv6Client :=
  match event_data with
  | Some data => handler data c
  | None => set_fault true c
  end.

Definition DHCPv6Client_InformComplete (e : Env) (event_id : IFEventID_t)
    (event_data : option DHCPv6SocketReceiveData) (c : DHCPv6Client)
  : DHCPv6Client :=
  match event_id with
  | IFEventID_start_e => DHCPv6Client_InformComplete_start c
  | _ => c
  end.

Definition DHCPv6Client_Inform (e : Env) (event_id : IFEventID_t)
    (event_data : option DHCPv6SocketReceiveData) (c : DHCPv6Client)
  : DHCPv6Client :=
  match event_id with
  | IFEventID_start_e => DHCPv6Client_Inform_start e c
  | IFEventID_timeout_e => DHCPv6Client_Inform_timeout e c
  | IFEventID_data_e => with_data (DHCPv6Client_Inform_data e) event_data c
  end.

Definition DHCPv6Client_Release (e : Env) (event_id : IFEventID_t)
    (event_data : option DHCPv6SocketReceiveData) (c : DHCPv6Client)
  : DHCPv6Client :=
  match event_id with
  | IFEventID_start_e => DHCPv6Client_Release_start e c
  | _ => c
  end.

Definition DHCPv6Client_Decline (e : Env) (event_id : IFEventID_t)
    (event_data : option DHCPv6SocketReceiveData) (c : DHCPv6Client)
  : DHCPv6Client :=
  match event_id with
  | IFEventID_start_e => DHCPv6Client_Decline_start e c
  | IFEventID_timeout_e => DHCPv6Client_Decline_timeout e c
  | IFEventID_data_e => with_data (DHCPv6Client_Decline_data e) event_data c
  end.

Definition DHCPv6Client_RenewRebind (e : Env) (event_id : IFEventID_t)
    (event_data : option DHCPv6SocketReceiveData) (c : DHCPv6Client)
  : DHCPv6Client :=
  match event_id with
  | IFEventID_start_e => DHCPv6Client_RenewRebind_start e c
  | IFEventID_timeout_e => DHCPv6Client_RenewRebind_timeout e c
  | IFEventID_data_e =>
      with_data (DHCPv6Client_RenewRebind_data e) event_data c
  end.

Definition DHCPv6Client_Confirm (e : Env) (event_id : IFEventID_t)
    (event_data : option DHCPv6SocketReceiveData) (c : DHCPv6Client)
  : DHCPv6Client :=
  match event_id with
  | IFEventID_start_e => DHCPv6Client_Confirm_start e c
  | IFEventID_timeout_e => DHCPv6Client_Confirm_timeout e c
  | IFEventID_data_e => with_data (DHCPv6Client_Confirm_data e) event_data c
  end.

Definition DHCPv6Client_Bound (e : Env) (event_id : IFEventID_t)
    (event_data : option DHCPv6SocketReceiveData) (c : DHCPv6Client)
  : DHCPv6Client :=
  match event_id with
  | IFEventID_start_e => DHCPv6Client_Bound_start e c
  | _ => c
  end.

Definition DHCPv6Client_Unbound (e : Env) (event_id : IFEventID_t)
    (event_data : option DHCPv6SocketReceiveData) (c : DHCPv6Client)
  : DHCPv6Client :=
  match event_id with
  | IFEventID_start_e => DHCPv6Client_Unbound_start e c
  | _ => c
  end.

Definition DHCPv6Client_Request (e : Env) (event_id : IFEventID_t)
    (event_data : option DHCPv6SocketReceiveData) (c : DHCPv6Client)
  : DHCPv6Client :=
  match event_id with
  | IFEventID_start_e => DHCPv6Client_Request_start e c
  | IFEventID_timeout_e => DHCPv6Client_Request_timeout e c
  | IFEventID_data_e => with_data (DHCPv6Client_Request_data e) event_data c
  end.

Definition DHCPv6Client_Solicit (e : Env) (event_id : IFEventID_t)
    (event_data : option DHCPv6SocketReceiveData) (c : DHCPv6Client)
  : DHCPv6Client :=
  match event_id with
  | IFEventID_start_e => DHCPv6Client_Solicit_start e c
  | IFEventID_timeout_e => DHCPv6Client_Solicit_timeout e c
  | IFEventID_data_e => with_data (DHCPv6Client_Solicit_data e) event_data c
  end.

Definition call_event_func (e : Env) (func : EventFunc)
  : IFEventID_t -> option DHCPv6SocketReceiveData -> DHCPv6Client ->
    DHCPv6Client :=
  match func with
  | DHCPv6Client_Inform_fn => DHCPv6Client_Inform e
  | DHCPv6Client_Decline_fn => DHCPv6Client_Decline e
  | DHCPv6Client_RenewRebind_fn => DHCPv6Client_RenewRebind e
  | DHCPv6Client_Confirm_fn => DHCPv6Client_Confirm e
  | DHCPv6Client_Request_fn => DHCPv6Client_Request e
  | DHCPv6Client_Solicit_fn => DHCPv6Client_Solicit e
  end.

(** The socket delivers a received message to the receive handler that is
    enabled, if one is; the timer calls its function when it fires. *)
Definition socket_receive (e : Env) (data : DHCPv6SocketReceiveData)
    (c : DHCPv6Client) : DHCPv6Client :=
  match sock_receive c with
  | Some func => call_event_func e func IFEventID_data_e (Some data) c
  | None => c
  end.

Definition timer_fire (e : Env) (c : DHCPv6Client) : DHCPv6Client :=
  match timer c with
  | Some t => call_event_func e (tc_func t) (tc_arg t) None (set_timer None c)
  | None => c
  end.

(** The message type that the receive case of an event function accepts. *)
Definition expected_msg_type (func : EventFunc) : Z :=
  match func with
  | DHCPv6Client_Solicit_fn => kDHCPv6MessageADVERTISE
  | _ => kDHCPv6MessageREPLY
  end.

(** ** Wake, start, stop, get_info and the other external events *)

Definition S_time_in_future (current_time the_time time_interval : Q) : bool :=
  Qlt_bool current_time the_time
  && Qle_bool time_interval (the_time - current_time).

Definition link_info_eqb (a b : link_info_t) : bool :=
  match a, b with
  | kLinkInfoNone, kLinkInfoNone
  | kLinkInfoNetworkChanged, kLinkInfoNetworkChanged
  | kLinkInfoBSSIDChanged, kLinkInfoBSSIDChanged => true
  | _, _ => false
  end.

Definition DHCPv6ClientHandleWake (e : Env) (link_event : link_event_data_t)
    (c : DHCPv6Client) : DHCPv6Client :=
  let link_status_p := link_status link_event in
  let wait_for_link_active := link_status_is_inactive link_status_p in
  if wait_for_link_active
     || (if_is_wireless e
         && link_info_eqb (info link_event) kLinkInfoNetworkChanged)
     || (negb (if_is_wireless e)
         && negb (ls_wake_on_same_network link_status_p)) then
    let c := DHCPv6ClientRemoveAddress e c in
    if wait_for_link_active then c
    else if negb (DHCPv6ClientState_eqb (cstate c) kDHCPv6ClientStateSolicit)
    then DHCPv6Client_Solicit_start e c
    else c
  else
    let current_time := timer_get_current_time e in
    let (still_valid, c) := DHCPv6ClientLeaseStillValid e current_time c in
    if negb still_valid then
      if negb (DHCPv6ClientState_eqb (cstate c) kDHCPv6ClientStateSolicit)
      then DHCPv6Client_Unbound_start e c
      else c
    else if negb (S_dhcp_state_is_bound_renew_or_rebind (cstate c))
            || link_info_eqb (info link_event) kLinkInfoBSSIDChanged then
      DHCPv6Client_Confirm_start e c
    else if lease_valid_lifetime (lease c) =? DHCP_INFINITE_LEASE then
      (* If an infinite lease, no need to do any maintenance *)
      c
    else if S_time_in_future current_time (renew_rebind_time c)
                             (inject_Z (G_wake_skew_secs e)) then
      let delta := (renew_rebind_time c - current_time)%Q in
      timer_callout_set delta DHCPv6Client_RenewRebind_fn IFEventID_start_e c
    else DHCPv6Client_RenewRebind_start e c.

Definition DHCPv6ClientCreate : DHCPv6Client :=
  mkClient false false in6addr_any 0 kDHCPv6ClientModeIdle
           kDHCPv6ClientStateInactive None None 0 0 0 0
           (mkInfo None 0 None) false None None None lease_zero false None 0
           O [] false.

Definition DHCPv6ClientStart (e : Env) (allocate_address privacy_required : bool)
    (c : DHCPv6Client) : DHCPv6Client :=
  let c := set_private_address privacy_required c in
  if allocate_address then
    let current_time := timer_get_current_time e in
    let c := set_mode kDHCPv6ClientModeStateful c in
    (* start Stateful *)
    let (still_valid, c) := DHCPv6ClientLeaseStillValid e current_time c in
    if still_valid && DHCPv6ClientLeaseOnSameNetwork e c then
      DHCPv6Client_Confirm_start e c
    else
      let c := DHCPv6ClientRemoveAddress e c in
      let c := DHCPv6ClientClearPacket c in
      DHCPv6Client_Solicit_start e c
  else
    (* start Stateless *)
    let c := set_mode kDHCPv6ClientModeStateless c in
    let c := DHCPv6ClientRemoveAddress e c in
    let c := DHCPv6ClientClearPacket c in
    DHCPv6Client_Inform_start e c.

Definition DHCPv6ClientStop (e : Env) (discard_information : bool)
    (c : DHCPv6Client) : DHCPv6Client :=
  (* remove the IP address *)
  let c := DHCPv6ClientRemoveAddress e c in
  let c := DHCPv6ClientCancelPendingEvents c in
  let c := if discard_information then DHCPv6ClientClearPacket c
           else set_saved_verified false c in
  let c := DHCPv6ClientSetState kDHCPv6ClientStateInactive c in
  let c := set_mode kDHCPv6ClientModeIdle c in
  let c := set_duid None c in
  DHCPv6ClientPostNotification c.

(** The result of get_info: the return value and what is written to
    [*info_p]. *)
Definition no_info : dhcpv6_info_t := mkInfo None 0 None.

Definition DHCPv6ClientGetInfo (c : DHCPv6Client) : bool * dhcpv6_info_t :=
  match options (saved c) with
  | None => (false, no_info)
  | Some opts =>
      if negb (saved_verified c) then (false, no_info)
      else (true, mkInfo (pkt (saved c)) (pkt_len (saved c)) (Some opts))
  end.

Inductive ClientEvent : Type :=
  | IFEventID_ipv6_address_changed_e (addr_list : list inet6_addrinfo_t)
  | IFEventID_wake_e (link_event : link_event_data_t)
  | IFEventID_renew_e (link_event : link_event_data_t)
  | IFEventID_link_status_changed_e (link_event : link_event_data_t)
  | IFEventID_bssid_changed_e.

Definition confirm_if_bound (e : Env) (c : DHCPv6Client) : DHCPv6Client :=
  let current_time := timer_get_current_time e in
  let (still_valid, c) := DHCPv6ClientLeaseStillValid e current_time c in
  if still_valid && S_dhcp_state_is_bound_renew_or_rebind (cstate c) then
    DHCPv6Client_Confirm_start e c
  else c.

Definition DHCPv6ClientHandleEvent (e : Env) (event : ClientEvent)
    (c : DHCPv6Client) : DHCPv6Client :=
  match mode c with
  | kDHCPv6ClientModeStateful =>
      match event with
      | IFEventID_ipv6_address_changed_e addr_list =>
          DHCPv6ClientHandleAddressChanged e addr_list c
      | IFEventID_wake_e link_event => DHCPv6ClientHandleWake e link_event c
      | IFEventID_renew_e link_event
      | IFEventID_link_status_changed_e link_event =>
          if link_status_is_active (link_status link_event) then
            (* trigger a confirm (if we're not already on it) *)
            confirm_if_bound e c
          else c
      | IFEventID_bssid_changed_e =>
          (* we roamed, confirm the address if necessary *)
          confirm_if_bound e c
      end
  | _ => (* not stateful, ignore *) c
  end.

(** ** A concrete environment and concrete messages

    Used to run the definitions above on explicit inputs. *)

Definition byte_of (z : Z) : byte :=
  match Byte.of_N (Z.to_N (z mod 256)) with
  | Some b => b
  | None => x00
  end.

Definition u16_bytes (z : Z) : list byte :=
  [byte_of (z / 256); byte_of z].

Definition u32_bytes (z : Z) : list byte :=
  [byte_of (z / 16777216); byte_of (z / 65536); byte_of (z / 256); byte_of z].

(** Modelled from the spec: the option stream of section 4.3 (2-byte code,
    2-byte length, value, all big-endian; an option whose length spills past
    the buffer is rejected).  The parser of DHCPv6Options.c is a parameter of
    the development ([Env]); this one instantiates it in the examples. *)
Fixpoint parse_options (fuel : nat) (buf : list byte)
  : option DHCPv6OptionListRef :=
  match fuel with
  | O => None
  | S fuel' =>
      match buf with
      | [] => Some []
      | c1 :: c2 :: l1 :: l2 :: rest =>
          let code := byte_val c1 * 256 + byte_val c2 in
          let len := Z.to_nat (byte_val l1 * 256 + byte_val l2) in
          if (length rest <? len)%nat then None
          else
            match parse_options fuel' (skipn len rest) with
            | Some os => Some (mkOption code (firstn len rest) :: os)
            | None => None
            end
      | _ => None
      end
  end.

Definition encode_option (o : DHCPv6Option) : list byte :=
  u16_bytes (opt_code o) ++ u16_bytes (option_len (opt_data o)) ++ opt_data o.

Definition encode_options (os : DHCPv6OptionListRef) : list byte :=
  concat (map encode_option os).

Definition example_create (buf : list byte) : option DHCPv6OptionListRef :=
  parse_options (S (length buf)) buf.

Definition example_status_code (opts : DHCPv6OptionListRef) : bool * Z :=
  match get_option opts kDHCPv6OPTION_STATUS_CODE with
  | None => (true, kDHCPv6StatusCodeSuccess)
  | Some d =>
      if option_len d <? 2 then (false, kDHCPv6StatusCodeSuccess)
      else (true, net_uint16_get d 0)
  end.

Definition example_duid : list byte := [x00; x03; x00; x01; x0a; x0b].
Definition example_server_duid : list byte := [x00; x03; x00; x01; x11; x22].

Definition link_up : link_status_t := mkLinkStatus true true true.

Definition example_env (now : Q) (wireless : bool)
    (ssid : option String.string) : Env :=
  mkEnv now now now now now now (fun n => 1000003 * Z.of_nat n + 4242)
        example_create (fun p => example_create (skipn 4 p))
        example_status_code
        (fun d => (2 <=? length d)%nat)
        example_duid example_duid
        wireless false link_up ssid
        true true (fun _ => 64) []
        30.

(** A wired environment at time 1000 whose random source returns [a] at
    every draw. *)
Definition example_env_draw (a : Z) : Env :=
  mkEnv 1000 1000 1000 1000 1000 1000 (fun _ => a)
        example_create (fun p => example_create (skipn 4 p))
        example_status_code
        (fun d => (2 <=? length d)%nat)
        example_duid example_duid
        false false link_up None
        true true (fun _ => 64) []
        30.

Definition iaaddr_value (a : list byte) (preferred valid : Z) : list byte :=
  a ++ u32_bytes preferred ++ u32_bytes valid.

Definition ia_na_value (iaid t1 t2 : Z) (nested : DHCPv6OptionListRef)
  : list byte :=
  u32_bytes iaid ++ u32_bytes t1 ++ u32_bytes t2 ++ encode_options nested.

Definition example_addr : list byte :=
  [x20; x01; x0d; xb8; x00; x00; x00; x00;
   x00; x00; x00; x00; x00; x00; x00; x01].

Definition make_data (msg_type xid : Z) (opts : DHCPv6OptionListRef)
  : DHCPv6SocketReceiveData :=
  mkData (byte_of msg_type :: byte_of (xid / 65536) :: byte_of (xid / 256)
            :: byte_of xid :: encode_options opts)
         opts.

(** A message with our CLIENTID, a SERVERID, and an IA_NA holding one IAADDR;
    [extra] is put in front of the IA_NA. *)
Definition example_message (msg_type xid : Z) (t1 t2 preferred valid : Z)
    (extra : DHCPv6OptionListRef) : DHCPv6SocketReceiveData :=
  make_data msg_type xid
    ([mkOption kDHCPv6OPTION_CLIENTID example_duid;
      mkOption kDHCPv6OPTION_SERVERID example_server_duid]
     ++ extra
     ++ [mkOption kDHCPv6OPTION_IA_NA
           (ia_na_value 1 t1 t2
              [mkOption kDHCPv6OPTION_IAADDR
                 (iaaddr_value example_addr preferred valid)])]).

Definition preference_option (v : Z) : DHCPv6Option :=
  mkOption kDHCPv6OPTION_PREFERENCE [byte_of v].

Definition status_option (code : Z) : DHCPv6Option :=
  mkOption kDHCPv6OPTION_STATUS_CODE (u16_bytes code).

(** A client in the Solicit state that has transmitted [tries] times. *)
Definition example_solicit_client (xid tries : Z) : DHCPv6Client :=
  set_try_ tries
    (set_transaction_id xid
       (set_sock_receive (Some DHCPv6Client_Solicit_fn)
          (set_cstate kDHCPv6ClientStateSolicit
             (set_mode kDHCPv6ClientModeStateful DHCPv6ClientCreate)))).

(** ** Definitions used in the statements

    The IAADDR scan of get_ia_na_addr_code, in the words of the claims. *)

(** The values of the options with a given code, in the order of the list. *)
Definition option_values (code : Z) (opts : DHCPv6OptionListRef)
  : list (list byte) :=
  map opt_data (filter (fun o => opt_code o =? code) opts).

Definition iaaddr_values (opts : DHCPv6OptionListRef) : list (list byte) :=
  option_values kDHCPv6OPTION_IAADDR opts.

(** The scan as the claim words it: IAADDR options are taken in order, those
    with a zero valid lifetime are skipped, and the first one that is not
    skipped decides. *)
Fixpoint first_usable_iaaddr (l : list (list byte)) : option (list byte) :=
  match l with
  | [] => None
  | a :: rest =>
      if option_len a <? DHCPv6OptionIAADDR_MIN_LENGTH then None
      else if DHCPv6OptionIAADDRGetValidLifetime a =? 0 then
        first_usable_iaaddr rest
      else if DHCPv6OptionIAADDRGetPreferredLifetime a
              >? DHCPv6OptionIAADDRGetValidLifetime a then None
      else Some a
  end.

(** What the scan accepts, as a decomposition of the list of IAADDR values. *)
Definition iaaddr_skipped (a : list byte) : Prop :=
  DHCPv6OptionIAADDR_MIN_LENGTH <= option_len a /\
  DHCPv6OptionIAADDRGetValidLifetime a = 0.

Definition iaaddr_accepted (a : list byte) : Prop :=
  DHCPv6OptionIAADDR_MIN_LENGTH <= option_len a /\
  DHCPv6OptionIAADDRGetValidLifetime a <> 0 /\
  DHCPv6OptionIAADDRGetPreferredLifetime a
  <= DHCPv6OptionIAADDRGetValidLifetime a.

(** The conditions of the claim, for an IA_NA [na] and an IAADDR [ad] of an
    option list. *)
Definition usable_binding (e : Env) (options : DHCPv6OptionListRef)
    (na ad : list byte) : Prop :=
  get_option options kDHCPv6OPTION_IA_NA = Some na /\
  DHCPv6OptionIA_NA_MIN_LENGTH < option_len na /\
  ~ (DHCPv6OptionIA_NAGetT1 na <> 0 /\ DHCPv6OptionIA_NAGetT2 na <> 0 /\
     DHCPv6OptionIA_NAGetT1 na > DHCPv6OptionIA_NAGetT2 na) /\
  exists nested skipped rest,
    DHCPv6OptionListCreate e (DHCPv6OptionIA_NA_options na) = Some nested /\
    iaaddr_values nested = skipped ++ ad :: rest /\
    Forall iaaddr_skipped skipped /\
    iaaddr_accepted ad.

(** The range of the random factor of RFC 3315 section 14. *)
Definition jitter (u : Q) : Prop := (- (1 # 10) <= u <= 1 # 10)%Q.

(** The same range, widened by what the rounding of the operations of double
    can add: 2 ^ -50. *)
Definition double_slack : Q := 1 # 1125899906842624.

Definition jitter_double (u : Q) : Prop :=
  (- (1 # 10) - double_slack <= u <= (1 # 10) + double_slack)%Q.

(** The same computations with the binary64 numbers of the processor
    (the primitive floats), on which [round_double] can be tried: the random
    factor for the draw [a], and the first and a later interval computed
    from it for whole seconds [IRT] and [RTprev]. *)
Definition binary64_of_Z (z : Z) : PrimFloat.float :=
  PrimFloat.of_uint63 (Uint63.of_Z z).

Definition binary64_value (f : PrimFloat.float) : Q :=
  match FloatOps.Prim2SF f with
  | SpecFloat.S754_finite s m ex =>
      let v := (inject_Z (Zpos m) * 2 ^ ex)%Q in
      if s then (- v)%Q else v
  | _ => 0%Q
  end.

Definition binary64_tenth : PrimFloat.float :=
  PrimFloat.div (binary64_of_Z 1) (binary64_of_Z 10).

Definition binary64_RAND (a : Z) : PrimFloat.float :=
  let bottom := PrimFloat.opp binary64_tenth in
  let top := binary64_tenth in
  let r := PrimFloat.div (binary64_of_Z a) (binary64_of_Z UINT32_MAX) in
  PrimFloat.add bottom (PrimFloat.mul (PrimFloat.sub top bottom) r).

Definition binary64_InitialTimeout (IRT a : Z) : PrimFloat.float :=
  PrimFloat.add (binary64_of_Z IRT)
                (PrimFloat.mul (binary64_RAND a) (binary64_of_Z IRT)).

Definition binary64_SubsequentTimeout (RTprev a : Z) : PrimFloat.float :=
  PrimFloat.add (PrimFloat.mul (binary64_of_Z 2) (binary64_of_Z RTprev))
                (PrimFloat.mul (binary64_RAND a) (binary64_of_Z RTprev)).

Definition example_draws : list Z :=
  [0; 1; 2; 3; 1000; 65535; 16777216; 1431655765; 2147483647; 2147483648;
   2863311530; 3000000000; 4000000000; 4294967293; 4294967294; 4294967295].

(** The first interval as the claim states it: IRT * (1 + u) for some u in
    the range. *)
Definition first_interval_as_stated (IRT RT : Q) : Prop :=
  exists u, jitter u /\ (RT == IRT * (1 + u))%Q.

(** ** The client as a machine

    What can happen to a client between its creation and its release: the
    public operations, the external events, the timer and the socket.  Every
    step is taken in an environment of its own (the clock, the link and the
    other collaborators change between steps).  A client that dereferenced
    NULL takes no further step. *)

Definition DHCPv6ClientSetNotificationCallBack (callback_present : bool)
    (c : DHCPv6Client) : DHCPv6Client :=
  set_callback_rls callback_present (set_callback callback_present c).

Inductive Input : Type :=
  | InSetNotificationCallBack (callback_present : bool)
  | InStart (allocate_address privacy_required : bool)
  | InStop (discard_information : bool)
  | InHandleEvent (event : ClientEvent)
  | InTimer
  | InReceive (data : DHCPv6SocketReceiveData).

Definition step (e : Env) (i : Input) (c : DHCPv6Client) : DHCPv6Client :=
  if fault c then c
  else
    match i with
    | InSetNotificationCallBack cb => DHCPv6ClientSetNotificationCallBack cb c
    | InStart allocate_address privacy_required =>
        DHCPv6ClientStart e allocate_address privacy_required c
    | InStop discard_information => DHCPv6ClientStop e discard_information c
    | InHandleEvent event => DHCPv6ClientHandleEvent e event c
    | InTimer => timer_fire e c
    | InReceive data => socket_receive e data c
    end.

(** The socket layer hands over the option list that it parsed from the
    packet. *)
Definition well_formed_data (e : Env) (data : DHCPv6SocketReceiveData) : Prop :=
  DHCPv6OptionListCreateWithPacket e (data_pkt data)
  = Some (data_options data).

Definition well_formed_input (e : Env) (i : Input) : Prop :=
  match i with
  | InReceive data => well_formed_data e data
  | _ => True
  end.

Inductive reachable : DHCPv6Client -> Prop :=
  | reachable_create : reachable DHCPv6ClientCreate
  | reachable_step (e : Env) (i : Input) (c : DHCPv6Client) :
      reachable c -> well_formed_input e i -> reachable (step e i c).

(** The saved packet backs what points into it: while the IAADDR pointer is
    set or the saved information is trusted, the parsed option list is
    there; and what is saved is nothing, or the bytes of a packet with the
    option list parsed from them. *)
Definition saved_form (i : dhcpv6_info_t) : Prop :=
  i = no_info \/
  exists e p opts,
    DHCPv6OptionListCreateWithPacket e p = Some opts /\
    i = mkInfo (Some p) (Z.of_nat (length p)) (Some opts).

Definition saved_consistent (c : DHCPv6Client) : Prop :=
  fault c = true \/
  ((ia_addr c <> None \/ saved_verified c = true ->
    options (saved c) <> None) /\
   saved_form (saved c)).

(** ** Example runs *)

Definition env_wired : Env := example_env 1000 false None.

(** A fresh client, started for stateful operation, after its first SOLICIT. *)
Definition example_soliciting : DHCPv6Client :=
  step env_wired InTimer
    (step env_wired (InStart true false)
       (step env_wired (InSetNotificationCallBack true) DHCPv6ClientCreate)).

Definition example_advertise : DHCPv6SocketReceiveData :=
  example_message kDHCPv6MessageADVERTISE
                  (transaction_id example_soliciting) 0 0 600 900 [].

(** The same client after an ADVERTISE for it has arrived. *)
Definition example_advertised : DHCPv6Client :=
  step env_wired (InReceive example_advertise) example_soliciting.

(** ** The message matching rules, in the words of the claims *)

(** The DUID that the client presents as its CLIENTID. *)
Definition our_duid (e : Env) (c : DHCPv6Client) : list byte :=
  fst (DHCPv6ClientGetDUID e c).

(** A message fails the matching rules of the receive case of [func]. *)
Definition fails_matching (e : Env) (func : EventFunc)
    (data : DHCPv6SocketReceiveData) (c : DHCPv6Client) : Prop :=
  pkt_msg_type (data_pkt data) <> expected_msg_type func \/
  DHCPv6PacketGetTransactionID (data_pkt data) <> transaction_id c \/
  get_option (data_options data) kDHCPv6OPTION_CLIENTID
    <> Some (our_duid e c) \/
  get_option (data_options data) kDHCPv6OPTION_SERVERID = None \/
  (exists server_id,
     get_option (data_options data) kDHCPv6OPTION_SERVERID = Some server_id /\
     DHCPDUIDIsValid e server_id = false).

(** A message passes them. *)
Definition passes_matching (e : Env) (msg_type : Z)
    (data : DHCPv6SocketReceiveData) (c : DHCPv6Client) : Prop :=
  pkt_msg_type (data_pkt data) = msg_type /\
  DHCPv6PacketGetTransactionID (data_pkt data) = transaction_id c /\
  get_option (data_options data) kDHCPv6OPTION_CLIENTID
    = Some (our_duid e c) /\
  exists server_id,
    get_option (data_options data) kDHCPv6OPTION_SERVERID = Some server_id /\
    DHCPDUIDIsValid e server_id = true.

(** The client with its DUID looked up (the private DUID is cached by the
    lookup; nothing else changes). *)
Definition duid_looked_up (e : Env) (c : DHCPv6Client) : DHCPv6Client :=
  snd (DHCPv6ClientGetDUID e c).

(** A run of received messages. *)
Definition receive_all (e : Env) (msgs : list DHCPv6SocketReceiveData)
    (c : DHCPv6Client) : DHCPv6Client :=
  fold_left (fun c data => socket_receive e data c) msgs c.

(** An ADVERTISE for [example_soliciting] but with another transaction id. *)
Definition example_stray_advertise : DHCPv6SocketReceiveData :=
  example_message kDHCPv6MessageADVERTISE
                  (transaction_id example_soliciting + 1) 0 0 600 900 [].

(** ** Lease times, in the words of the claims *)

(** The normalization as the claim states it: four steps, in order, on T1,
    T2, preferred_lifetime and valid_lifetime. *)
Definition lease_times_as_stated (t1 t2 preferred valid : Z)
  : Z * Z * Z * Z :=
  (* (1) *)
  let preferred := if preferred =? 0 then valid else preferred in
  (* (2) *)
  let '(t1, t2) :=
    if (t1 =? 0) || (t2 =? 0) then
      if preferred =? DHCP_INFINITE_LEASE then (0, 0)
      else (Qfloor (inject_Z preferred * (5 # 10)),
            Qfloor (inject_Z preferred * (8 # 10)))
    else (t1, t2) in
  (* (3) *)
  let '(t1, t2, preferred, valid) :=
    if (t1 =? DHCP_INFINITE_LEASE) || (t2 =? DHCP_INFINITE_LEASE) then
      (0, 0, DHCP_INFINITE_LEASE, DHCP_INFINITE_LEASE)
    else (t1, t2, preferred, valid) in
  (* (4) *)
  let '(t1, t2) :=
    if valid =? DHCP_INFINITE_LEASE then (0, 0) else (t1, t2) in
  (t1, t2, preferred, valid).

(** The same four steps, with what the code does in step (4): an INFINITE
    valid_lifetime also makes preferred_lifetime INFINITE. *)
Definition lease_times_in_order (t1 t2 preferred valid : Z)
  : Z * Z * Z * Z :=
  (* (1) *)
  let preferred := if preferred =? 0 then valid else preferred in
  (* (2) *)
  let '(t1, t2) :=
    if (t1 =? 0) || (t2 =? 0) then
      if preferred =? DHCP_INFINITE_LEASE then (0, 0)
      else (Qfloor (inject_Z preferred * (5 # 10)),
            Qfloor (inject_Z preferred * (8 # 10)))
    else (t1, t2) in
  (* (3) *)
  let '(t1, t2, preferred, valid) :=
    if (t1 =? DHCP_INFINITE_LEASE) || (t2 =? DHCP_INFINITE_LEASE) then
      (0, 0, DHCP_INFINITE_LEASE, DHCP_INFINITE_LEASE)
    else (t1, t2, preferred, valid) in
  (* (4) *)
  let '(t1, t2, preferred) :=
    if valid =? DHCP_INFINITE_LEASE then (0, 0, DHCP_INFINITE_LEASE)
    else (t1, t2, preferred) in
  (t1, t2, preferred, valid).

(** The four times of a stored lease. *)
Definition stored_times (c : DHCPv6Client) : Z * Z * Z * Z :=
  (lease_t1 (lease c), lease_t2 (lease c),
   lease_preferred_lifetime (lease c), lease_valid_lifetime (lease c)).

(** The four times as received: T1 and T2 of the IA_NA and the lifetimes of
    the IAADDR that get_ia_na_addr selects. *)
Definition received_times (na ad : list byte) : Z * Z * Z * Z :=
  (DHCPv6OptionIA_NAGetT1 na, DHCPv6OptionIA_NAGetT2 na,
   DHCPv6OptionIAADDRGetPreferredLifetime ad,
   DHCPv6OptionIAADDRGetValidLifetime ad).

Definition times_as_stated (r : Z * Z * Z * Z) : Z * Z * Z * Z :=
  let '(t1, t2, preferred, valid) := r in
  lease_times_as_stated t1 t2 preferred valid.

Definition times_in_order (r : Z * Z * Z * Z) : Z * Z * Z * Z :=
  let '(t1, t2, preferred, valid) := r in
  lease_times_in_order t1 t2 preferred valid.

(** A REPLY whose address has a finite preferred lifetime (100) and an
    INFINITE valid lifetime, with T1 = 10 and T2 = 20. *)
Definition example_infinite_reply : DHCPv6SocketReceiveData :=
  example_message kDHCPv6MessageREPLY 7 10 20 100 DHCP_INFINITE_LEASE [].

(** ** The Solicit and Request receive cases, in the words of the claims *)

(** A matching message with a usable IA_NA and IAADDR, as the Solicit and
    Request receive cases require it before they look further: it passes the
    matching rules, its top-level STATUS_CODE is well-formed and is [code],
    and the socket layer parsed its options from its bytes. *)
Definition acceptable_message (e : Env) (msg_type : Z)
    (data : DHCPv6SocketReceiveData) (c : DHCPv6Client) (code : Z) : Prop :=
  passes_matching e msg_type data c /\
  DHCPv6OptionListGetStatusCode e (data_options data) = (true, code) /\
  well_formed_data e data.

(** The top-level STATUS_CODE of the message rules it out for Solicit: the
    option is malformed, or the code is NoAddrsAvail. *)
Definition status_rules_out (e : Env) (data : DHCPv6SocketReceiveData)
  : bool :=
  let (ok, code) := DHCPv6OptionListGetStatusCode e (data_options data) in
  negb ok || (code =? kDHCPv6StatusCodeNoAddrsAvail).

(** The new ADVERTISE takes the place of what is saved: nothing is saved, or
    its preference is strictly greater than the saved one's. *)
Definition advertise_is_better (data : DHCPv6SocketReceiveData)
    (c : DHCPv6Client) : bool :=
  match options (saved c) with
  | Some saved_options =>
      get_preference_value_from_options saved_options
      <? get_preference_value_from_options (data_options data)
  | None => true
  end.

(** The rule of the claim for leaving Solicit: at once to Request if and
    only if this is the first try or the preference is 255. *)
Definition to_request_as_stated (e : Env) (data : DHCPv6SocketReceiveData)
    (c : DHCPv6Client) : Prop :=
  cstate (socket_receive e data c) = kDHCPv6ClientStateRequest <->
  (try_ c <= 1 \/
   get_preference_value_from_options (data_options data)
   = kDHCPv6OptionPREFERENCEMaxValue).

(** [example_soliciting] after a second SOLICIT, and an ADVERTISE for it. *)
Definition example_soliciting_again : DHCPv6Client :=
  step env_wired InTimer example_soliciting.

(** An ADVERTISE for it that offers the same address under the top-level
    status NoAddrsAvail. *)
Definition example_advertise_no_addrs : DHCPv6SocketReceiveData :=
  example_message kDHCPv6MessageADVERTISE
                  (transaction_id example_soliciting_again) 0 0 600 900
                  [status_option kDHCPv6StatusCodeNoAddrsAvail].

Definition example_ia_addr : list byte := iaaddr_value example_addr 600 900.

Definition example_ia_na : list byte :=
  ia_na_value 1 0 0 [mkOption kDHCPv6OPTION_IAADDR example_ia_addr].

(** [example_soliciting_again] after the ADVERTISE: the client is in Request;
    and a REPLY for it. *)
Definition example_requesting : DHCPv6Client :=
  step env_wired (InReceive example_advertise) example_soliciting_again.

Definition example_reply : DHCPv6SocketReceiveData :=
  example_message kDHCPv6MessageREPLY (transaction_id example_requesting)
                  0 0 600 900 [].

(** A REPLY for it whose IA_NA holds the status NotOnLink and no address. *)
Definition example_reply_not_on_link : DHCPv6SocketReceiveData :=
  make_data kDHCPv6MessageREPLY (transaction_id example_requesting)
    [mkOption kDHCPv6OPTION_CLIENTID example_duid;
     mkOption kDHCPv6OPTION_SERVERID example_server_duid;
     mkOption kDHCPv6OPTION_IA_NA
       (ia_na_value 1 0 0 [status_option kDHCPv6StatusCodeNotOnLink])].

(** ** Wake, in the words of the specification *)

(** The wake event gives no reason to leave the network: the link is not
    reported inactive; on Wi-Fi the network has not changed; on a wired
    interface the link reports a wake on the same network. *)
Definition wake_on_same_link (e : Env) (link_event : link_event_data_t)
  : Prop :=
  link_status_is_inactive (link_status link_event) = false /\
  (if_is_wireless e = true -> info link_event <> kLinkInfoNetworkChanged) /\
  (if_is_wireless e = false ->
   ls_wake_on_same_network (link_status link_event) = true).

(** The time [the_time] is later than [now], by at least [interval]. *)
Definition later_by_at_least (now the_time interval : Q) : Prop :=
  (now < the_time /\ interval <= the_time - now)%Q.

(** The wired environment at time [now] with the kernel listing the addresses
    [addrs] on the interface. *)
Definition example_env_addrs (now : Q) (addrs : list inet6_addrinfo_t) : Env :=
  mkEnv now now now now now now (fun n => 1000003 * Z.of_nat n + 4242)
        example_create (fun p => example_create (skipn 4 p))
        example_status_code
        (fun d => (2 <=? length d)%nat)
        example_duid example_duid
        false false link_up None
        true true (fun _ => 64) addrs
        30.

(** [example_requesting] after the REPLY, received at time 1000 with the
    kernel listing the new address as usable: the client is Bound and the
    Renew timer is set for T1 = 300 seconds later. *)
Definition example_bound : DHCPv6Client :=
  step (example_env_addrs 1000 [mkAddrInfo example_addr 0])
       (InReceive example_reply) example_requesting.

Definition example_wake_event : link_event_data_t :=
  mkLinkEvent link_up kLinkInfoNone.

(** ** Frame conditions

    The fields of the client by name, so that a routine can be described by
    the fields it may change. *)

Inductive Field : Type :=
  | F_callback_rls | F_callback | F_our_ip | F_our_prefix_length | F_mode
  | F_cstate | F_sock_receive | F_timer | F_transaction_id | F_try
  | F_start_time | F_retransmit_time | F_saved | F_saved_verified
  | F_server_id | F_ia_na | F_ia_addr | F_lease | F_private_address
  | F_duid | F_renew_rebind_time | F_rng | F_trace | F_fault.

Definition Field_type (f : Field) : Type :=
  match f with
  | F_callback_rls | F_callback | F_saved_verified | F_private_address
  | F_fault => bool
  | F_our_ip => list byte
  | F_our_prefix_length | F_transaction_id | F_try => Z
  | F_mode => DHCPv6ClientMode
  | F_cstate => DHCPv6ClientState
  | F_sock_receive => option EventFunc
  | F_timer => option timer_callout_t
  | F_start_time | F_retransmit_time | F_renew_rebind_time => Q
  | F_saved => dhcpv6_info_t
  | F_server_id | F_ia_na | F_ia_addr | F_duid => option (list byte)
  | F_lease => lease_info_t
  | F_rng => nat
  | F_trace => list Effect
  end.

Definition get (f : Field) : DHCPv6Client -> Field_type f :=
  match f with
  | F_callback_rls => callback_rls
  | F_callback => callback
  | F_our_ip => our_ip
  | F_our_prefix_length => our_prefix_length
  | F_mode => mode
  | F_cstate => cstate
  | F_sock_receive => sock_receive
  | F_timer => timer
  | F_transaction_id => transaction_id
  | F_try => try_
  | F_start_time => start_time
  | F_retransmit_time => retransmit_time
  | F_saved => saved
  | F_saved_verified => saved_verified
  | F_server_id => server_id
  | F_ia_na => ia_na
  | F_ia_addr => ia_addr
  | F_lease => lease
  | F_private_address => private_address
  | F_duid => duid
  | F_renew_rebind_time => renew_rebind_time
  | F_rng => rng
  | F_trace => trace
  | F_fault => fault
  end.

Definition Field_index (f : Field) : nat :=
  match f with
  | F_callback_rls => 0 | F_callback => 1 | F_our_ip => 2
  | F_our_prefix_length => 3 | F_mode => 4 | F_cstate => 5
  | F_sock_receive => 6 | F_timer => 7 | F_transaction_id => 8 | F_try => 9
  | F_start_time => 10 | F_retransmit_time => 11 | F_saved => 12
  | F_saved_verified => 13 | F_server_id => 14 | F_ia_na => 15
  | F_ia_addr => 16 | F_lease => 17 | F_private_address => 18 | F_duid => 19
  | F_renew_rebind_time => 20 | F_rng => 21 | F_trace => 22 | F_fault => 23
  end%nat.

Definition Field_eqb (a b : Field) : bool :=
  Nat.eqb (Field_index a) (Field_index b).

(** [f] is one of the fields [fs]. *)
Definition touches (fs : list Field) (f : Field) : bool :=
  existsb (Field_eqb f) fs.

(** Every field of [fs] is one of [gs]. *)
Definition sub (fs gs : list Field) : bool := forallb (touches gs) fs.

(** From [c] to [c'] no field outside [fs] has changed. *)
Definition changes_only (fs : list Field) (c c' : DHCPv6Client) : Prop :=
  forall f, touches fs f = false -> get f c' = get f c.

(** The fields that hold the saved packet and what is derived from it. *)
Definition packet_fields : list Field :=
  [F_lease; F_saved; F_server_id; F_ia_na; F_ia_addr; F_saved_verified].

(** The address put on the interface. *)
Definition address_fields : list Field := [F_our_ip; F_our_prefix_length].

(** The retransmission engine. *)
Definition retransmit_fields : list Field :=
  [F_try; F_retransmit_time; F_rng].

(** What the timer, the socket and the external events work on: every field
    but the four that are set from outside (the notification callback, the
    mode and the privacy setting). *)
Definition session_fields : list Field :=
  [F_our_ip; F_our_prefix_length; F_cstate; F_sock_receive; F_timer;
   F_transaction_id; F_try; F_start_time; F_retransmit_time; F_saved;
   F_saved_verified; F_server_id; F_ia_na; F_ia_addr; F_lease; F_duid;
   F_renew_rebind_time; F_rng; F_trace; F_fault].

(** ** Giving up the address

    The client has given up its address and solicits anew: it is in Solicit
    with nothing saved, no lease and no address, its receive handler is the
    one of Solicit, no SOLICIT has been sent yet, and the timer for the
    first one is set, at most DHCPv6_SOL_MAX_DELAY from now. *)
Definition soliciting_anew (c : DHCPv6Client) : Prop :=
  cstate c = kDHCPv6ClientStateSolicit /\
  our_ip c = in6addr_any /\
  saved c = no_info /\ saved_verified c = false /\
  lease c = lease_zero /\ ia_na c = None /\ ia_addr c = None /\
  server_id c = None /\
  sock_receive c = Some DHCPv6Client_Solicit_fn /\ try_ c = 0 /\
  exists d, timer c = Some (mkTimer d DHCPv6Client_Solicit_fn
                                    IFEventID_timeout_e) /\
            (0 <= d <= DHCPv6_SOL_MAX_DELAY)%Q.

(** [example_bound] when its Renew timer fires, 300 seconds into the lease:
    the client is in Renew and has sent its first RENEW; and a REPLY for
    it, with new lifetimes. *)
Definition example_renewing : DHCPv6Client :=
  step (example_env_addrs 1300 [mkAddrInfo example_addr 0]) InTimer
       example_bound.

Definition example_renew_reply : DHCPv6SocketReceiveData :=
  example_message kDHCPv6MessageREPLY (transaction_id example_renewing)
                  0 0 600 900 [].

(** ** Entering Bound, in words

    What the kernel says of the address [a]: the first entry for it in the
    list of the addresses of the interface decides. *)
Inductive address_report : Type :=
  | address_absent
  | address_duplicated
  | address_tentative
  | address_ready.

Definition has_flag (flag : Z) (scan : inet6_addrinfo_t) : bool :=
  negb (Z.land (addr_flags scan) flag =? 0).

Definition report_in (l : list inet6_addrinfo_t) (a : list byte)
  : address_report :=
  match find (fun scan => IN6_ARE_ADDR_EQUAL a (addr scan)) l with
  | None => address_absent
  | Some scan =>
      if has_flag IN6_IFF_DUPLICATED scan then address_duplicated
      else if has_flag IN6_IFF_TENTATIVE scan then address_tentative
      else address_ready
  end.

Definition kernel_report (e : Env) (a : list byte) : address_report :=
  report_in (inet6_addrlist_copy e) a.

(** The client holds the address [a] already. *)
Definition holds_address (c : DHCPv6Client) (a : list byte) : bool :=
  negb (IN6_IS_ADDR_UNSPECIFIED (our_ip c)) && IN6_ARE_ADDR_EQUAL (our_ip c) a.

(** Bound puts [a] on the interface as a new address of the client: the
    socket for the ioctl can be opened, the address is added, and the client
    did not hold it before. *)
Definition puts_new_address (e : Env) (c : DHCPv6Client) (a : list byte)
  : bool :=
  inet6_dgram_socket_ok e && inet6_aifaddr_ok e && negb (holds_address c a).

(** The lease is finite and, at the reading [now], either starts in the
    future or has lasted its valid lifetime in whole seconds. *)
Definition lease_has_run_out (now : Q) (l : lease_info_t) : bool :=
  negb (lease_valid_lifetime l =? DHCP_INFINITE_LEASE)
  && (Qlt_bool now (lease_start l)
      || (lease_valid_lifetime l <=? double_to_uint32 (now - lease_start l))).

(** The state in which the client is left once Bound has set the address
    [a]: Decline when a new address is reported as a duplicate; Solicit
    (through Unbound) when a new address is reported ready and the clock,
    read once more, is before the start of a finite lease; Bound in every
    other case. *)
Definition address_outcome (e : Env) (c : DHCPv6Client) (a : list byte)
  : DHCPv6ClientState :=
  if puts_new_address e c a then
    match kernel_report e a with
    | address_duplicated => kDHCPv6ClientStateDecline
    | address_ready =>
        if negb (lease_valid_lifetime (lease c) =? DHCP_INFINITE_LEASE)
           && Qlt_bool (time_at_AddressChanged e) (lease_start (lease c))
        then kDHCPv6ClientStateSolicit
        else kDHCPv6ClientStateBound
    | _ => kDHCPv6ClientStateBound
    end
  else kDHCPv6ClientStateBound.

(** The state in which the start case of Bound leaves the client [c] that
    enters it for the address [a]: Solicit (through Unbound) when the lease
    has run out at the reading that Bound takes; else as the address
    decides. *)
Definition Bound_outcome (e : Env) (c : DHCPv6Client) (a : list byte)
  : DHCPv6ClientState :=
  if lease_has_run_out (time_at_Bound e) (lease c)
  then kDHCPv6ClientStateSolicit
  else address_outcome e c a.

(** The lease of [c'] is the lease of [c], marked valid. *)
Definition lease_confirmed (c c' : DHCPv6Client) : Prop :=
  lease_valid (lease c') = true /\
  lease_start (lease c') = lease_start (lease c) /\
  stored_times c' = stored_times c /\
  lease_ssid (lease c') = lease_ssid (lease c).

(** [example_bound] after a roam at time 1100 and the timeout that follows:
    the client is in Confirm and has sent a CONFIRM.  And a REPLY for it
    with the status Success, as a server sends it for a CONFIRM: no IA_NA
    in it. *)
Definition example_confirming : DHCPv6Client :=
  step (example_env_addrs 1100 [mkAddrInfo example_addr 0]) InTimer
    (step (example_env_addrs 1100 [mkAddrInfo example_addr 0])
          (InHandleEvent IFEventID_bssid_changed_e) example_bound).

Definition example_confirm_reply : DHCPv6SocketReceiveData :=
  make_data kDHCPv6MessageREPLY (transaction_id example_confirming)
    [mkOption kDHCPv6OPTION_CLIENTID example_duid;
     mkOption kDHCPv6OPTION_SERVERID example_server_duid;
     status_option kDHCPv6StatusCodeSuccess].

(** A link-status event that reports the link active, and the environment
    at time 2000, when the lease of [example_confirming] (900 seconds from
    time 1000) has run out. *)
Definition example_link_active : link_event_data_t :=
  mkLinkEvent link_up kLinkInfoNone.

Definition example_env_late : Env :=
  example_env_addrs 2000 [mkAddrInfo example_addr 0].

(** The wired environment in which SavePacket, HandleWake and the other
    first readers of the clock read [now], and every later reading of the
    same dispatch is [later]. *)
Definition example_env_readings (now later : Q)
    (addrs : list inet6_addrinfo_t) : Env :=
  mkEnv now later later later later later
        (fun n => 1000003 * Z.of_nat n + 4242)
        example_create (fun p => example_create (skipn 4 p))
        example_status_code
        (fun d => (2 <=? length d)%nat)
        example_duid example_duid
        false false link_up None
        true true (fun _ => 64) addrs
        30.

(** The wired environment at time 1000 in which the kernel flags the
    example address as a duplicate. *)
Definition example_env_duplicate : Env :=
  example_env_addrs 1000 [mkAddrInfo example_addr IN6_IFF_DUPLICATED].

(** ** Stateless operation

    A fresh client started for stateless operation, after its first
    INFORMATION-REQUEST; and a REPLY for it that carries a status other than
    Success. *)
Definition example_informing : DHCPv6Client :=
  step env_wired InTimer
    (step env_wired (InStart false false)
       (step env_wired (InSetNotificationCallBack true) DHCPv6ClientCreate)).

(** Modelled from the spec: RFC 3315 section 24.4. *)
Definition kDHCPv6StatusCodeUnspecFail : Z := 1.

Definition example_inform_reply : DHCPv6SocketReceiveData :=
  make_data kDHCPv6MessageREPLY (transaction_id example_informing)
    [mkOption kDHCPv6OPTION_CLIENTID example_duid;
     mkOption kDHCPv6OPTION_SERVERID example_server_duid;
     status_option kDHCPv6StatusCodeUnspecFail].

(** What DHCPv6ClientRemoveAddress does to the interface: the address is
    taken off when one is set and the socket for the ioctl can be opened. *)
Definition address_removal (e : Env) (c : DHCPv6Client) : list Effect :=
  if IN6_IS_ADDR_UNSPECIFIED (our_ip c) then []
  else if inet6_dgram_socket_ok e then [AddrRemove (our_ip c)] else [].

(** What DHCPv6ClientPostNotification does: the run-loop source of the
    callback is signalled when a callback is registered. *)
Definition notification (c : DHCPv6Client) : list Effect :=
  if callback_rls c then [Notify] else [].

(** ** What an event leaves alone

    The mode, the notification callback and the privacy setting of [c'] are
    those of [c]. *)
Definition same_configuration (c c' : DHCPv6Client) : Prop :=
  mode c' = mode c /\ callback c' = callback c /\
  callback_rls c' = callback_rls c /\
  private_address c' = private_address c.

(** * Properties *)

(** ** Bytes and integers *)

Lemma byte_val_range (b : byte) : 0 <= byte_val b < 256.
Proof. destruct b; unfold byte_val; simpl; lia. Qed.

Lemma nth_byte_range (buf : list byte) (off : nat) : 0 <= nth_byte buf off < 256.
Proof. apply byte_val_range. Qed.

Lemma net_uint32_get_range (buf : list byte) (off : nat) :
  0 <= net_uint32_get buf off <= UINT32_MAX.
Proof.
  unfold net_uint32_get, UINT32_MAX.
  pose proof (nth_byte_range buf off).
  pose proof (nth_byte_range buf (off + 1)).
  pose proof (nth_byte_range buf (off + 2)).
  pose proof (nth_byte_range buf (off + 3)).
  lia.
Qed.

Lemma bytes_eqb_eq (a b : list byte) : bytes_eqb a b = true <-> a = b.
Proof.
  unfold bytes_eqb. destruct (list_eq_dec Byte.byte_eq_dec a b); split; congruence.
Qed.

Lemma bytes_eqb_refl (a : list byte) : bytes_eqb a a = true.
Proof. apply bytes_eqb_eq. reflexivity. Qed.

Lemma Qlt_bool_iff (x y : Q) : Qlt_bool x y = true <-> (x < y)%Q.
Proof.
  unfold Qlt_bool. rewrite negb_true_iff.
  split; intro H.
  - apply Qnot_le_lt. intro Hle. apply Qle_bool_iff in Hle. congruence.
  - destruct (Qle_bool y x) eqn:E; [|reflexivity].
    apply Qle_bool_iff in E. exfalso. apply (Qlt_not_le _ _ H E).
Qed.

Lemma Qlt_bool_false_iff (x y : Q) : Qlt_bool x y = false <-> (y <= x)%Q.
Proof.
  unfold Qlt_bool. rewrite negb_false_iff. apply Qle_bool_iff.
Qed.

Lemma Qle_bool_false_iff (x y : Q) : Qle_bool x y = false <-> (y < x)%Q.
Proof.
  rewrite <- Qlt_bool_iff. unfold Qlt_bool.
  destruct (Qle_bool x y); simpl; split; congruence.
Qed.

(** ** The IAADDR scan of get_ia_na_addr_code *)

Lemma find_option_from_None (code : Z) (l : list DHCPv6Option) (i : nat) :
  find_option_from l code i = None -> option_values code l = [].
Proof.
  revert i. induction l as [|o l IH]; intros i H; simpl in *.
  - reflexivity.
  - unfold option_values in *. simpl.
    destruct (opt_code o =? code); [discriminate|]. eauto.
Qed.

Lemma find_option_from_Some (code : Z) (l : list DHCPv6Option) (i idx : nat)
    (d : list byte) :
  find_option_from l code i = Some (idx, d) ->
  exists k, idx = (i + k)%nat /\ (k < length l)%nat /\
            option_values code l = d :: option_values code (skipn (S k) l).
Proof.
  revert i. induction l as [|o l IH]; intros i H; simpl in H.
  - discriminate.
  - unfold option_values in *. simpl filter.
    destruct (opt_code o =? code) eqn:E.
    + inversion H; subst. exists O. simpl. split; [lia|]. split; [lia|reflexivity].
    + destruct (IH _ H) as (k & Hk & Hlt & Hv).
      exists (S k). simpl length. split; [lia|]. split; [lia|].
      rewrite Hv. reflexivity.
Qed.

Lemma find_ia_addr_scan (opts : DHCPv6OptionListRef) :
  forall (fuel start : nat),
    (length opts - start < fuel)%nat ->
    find_ia_addr fuel opts start
    = first_usable_iaaddr (iaaddr_values (skipn start opts)).
Proof.
  induction fuel as [|fuel IH]; intros start Hfuel; [lia|].
  simpl. unfold DHCPv6OptionListGetOptionDataAndLength.
  destruct (find_option_from (skipn start opts) kDHCPv6OPTION_IAADDR start)
    as [[idx d]|] eqn:E.
  - destruct (find_option_from_Some _ _ _ _ _ E) as (k & Hk & Hlt & Hv).
    unfold iaaddr_values. rewrite Hv. cbn [first_usable_iaaddr].
    destruct (option_len d <? DHCPv6OptionIAADDR_MIN_LENGTH); [reflexivity|].
    destruct (DHCPv6OptionIAADDRGetValidLifetime d =? 0); [|reflexivity].
    rewrite length_skipn in Hlt.
    rewrite IH by lia. subst idx.
    rewrite skipn_skipn. unfold iaaddr_values.
    replace (S k + start)%nat with (S (start + k)) by lia. reflexivity.
  - unfold iaaddr_values. rewrite (find_option_from_None _ _ _ E). reflexivity.
Qed.

(** With the fuel that get_ia_na_addr_code gives it, the loop is the scan:
    it never stops for lack of fuel. *)
Lemma find_ia_addr_total (opts : DHCPv6OptionListRef) :
  find_ia_addr (S (length opts)) opts 0
  = first_usable_iaaddr (iaaddr_values opts).
Proof. rewrite find_ia_addr_scan by lia. reflexivity. Qed.

Lemma first_usable_iaaddr_Some (l : list (list byte)) (ad : list byte) :
  first_usable_iaaddr l = Some ad <->
  exists skipped rest,
    l = skipped ++ ad :: rest /\ Forall iaaddr_skipped skipped /\
    iaaddr_accepted ad.
Proof.
  unfold iaaddr_skipped, iaaddr_accepted.
  induction l as [|a l IH]; simpl.
  - split; [discriminate|]. intros (s & r & H & _). destruct s; discriminate.
  - destruct (Z.ltb_spec (option_len a) DHCPv6OptionIAADDR_MIN_LENGTH) as [Hlen|Hlen].
    + split; [discriminate|]. intros (s & r & H & Hs & Ha).
      destruct s as [|x s]; inversion H; subst.
      * lia.
      * inversion Hs; subst. lia.
    + destruct (Z.eqb_spec (DHCPv6OptionIAADDRGetValidLifetime a) 0) as [Hv|Hv].
      * rewrite IH. split.
        -- intros (s & r & H & Hs & Ha). exists (a :: s), r. subst l.
           split; [reflexivity|]. split; [|exact Ha]. constructor; auto.
        -- intros (s & r & H & Hs & Ha).
           destruct s as [|x s]; inversion H; subst.
           ++ lia.
           ++ inversion Hs; subst. exists s, r. auto.
      * rewrite Z.gtb_ltb.
        destruct (Z.ltb_spec (DHCPv6OptionIAADDRGetValidLifetime a)
                              (DHCPv6OptionIAADDRGetPreferredLifetime a)) as [Hp|Hp].
        -- split; [discriminate|]. intros (s & r & H & Hs & Ha).
           destruct s as [|x s]; inversion H; subst.
           ++ lia.
           ++ inversion Hs; subst. lia.
        -- split.
           ++ intros H. inversion H; subst. exists [], l. simpl. auto.
           ++ intros (s & r & H & Hs & Ha).
              destruct s as [|x s]; inversion H; subst.
              ** reflexivity.
              ** inversion Hs; subst. lia.
Qed.

(** get_ia_na_addr_code, rewritten with the scan in place of the loop. *)
Lemma get_ia_na_addr_code_unfold (e : Env) (options : DHCPv6OptionListRef) :
  get_ia_na_addr_code e options =
  match get_option options kDHCPv6OPTION_IA_NA with
  | None => (None, None, kDHCPv6StatusCodeSuccess)
  | Some na =>
      if option_len na <=? DHCPv6OptionIA_NA_MIN_LENGTH then
        (None, None, kDHCPv6StatusCodeSuccess)
      else if negb (DHCPv6OptionIA_NAGetT1 na =? 0)
              && negb (DHCPv6OptionIA_NAGetT2 na =? 0)
              && (DHCPv6OptionIA_NAGetT1 na >? DHCPv6OptionIA_NAGetT2 na) then
        (None, None, kDHCPv6StatusCodeSuccess)
      else
        match DHCPv6OptionListCreate e (DHCPv6OptionIA_NA_options na) with
        | None => (None, None, kDHCPv6StatusCodeSuccess)
        | Some nested =>
            if negb (fst (DHCPv6OptionListGetStatusCode e nested)) then
              (None, None, snd (DHCPv6OptionListGetStatusCode e nested))
            else
              match first_usable_iaaddr (iaaddr_values nested) with
              | None =>
                  (None, None, snd (DHCPv6OptionListGetStatusCode e nested))
              | Some ad =>
                  (Some na, Some ad,
                   snd (DHCPv6OptionListGetStatusCode e nested))
              end
        end
  end.
Proof.
  unfold get_ia_na_addr_code.
  destruct (get_option options kDHCPv6OPTION_IA_NA) as [na|]; [|reflexivity].
  destruct (option_len na <=? DHCPv6OptionIA_NA_MIN_LENGTH); [reflexivity|].
  destruct (negb (DHCPv6OptionIA_NAGetT1 na =? 0)
            && negb (DHCPv6OptionIA_NAGetT2 na =? 0)
            && (DHCPv6OptionIA_NAGetT1 na >? DHCPv6OptionIA_NAGetT2 na));
    [reflexivity|].
  destruct (DHCPv6OptionListCreate e (DHCPv6OptionIA_NA_options na))
    as [nested|]; [|reflexivity].
  rewrite find_ia_addr_total.
  destruct (DHCPv6OptionListGetStatusCode e nested) as [ok code]. simpl.
  destruct ok; reflexivity.
Qed.

Lemma t1_t2_check (t1 t2 : Z) :
  negb (t1 =? 0) && negb (t2 =? 0) && (t1 >? t2) = false <->
  ~ (t1 <> 0 /\ t2 <> 0 /\ t1 > t2).
Proof.
  rewrite Z.gtb_ltb.
  destruct (Z.eqb_spec t1 0), (Z.eqb_spec t2 0), (Z.ltb_spec t2 t1);
    simpl; split; intros; try reflexivity; try discriminate; try lia.
Qed.

(** The two outcomes of get_ia_na_addr_code. *)
Lemma get_ia_na_addr_code_cases (e : Env)
    (options : DHCPv6OptionListRef) :
  match get_ia_na_addr_code e options with
  | (Some na, Some ad, _) => usable_binding e options na ad
  | (None, None, _) =>
      forall na ad, usable_binding e options na ad ->
        exists nested,
          DHCPv6OptionListCreate e (DHCPv6OptionIA_NA_options na)
          = Some nested /\
          fst (DHCPv6OptionListGetStatusCode e nested) = false
  | _ => False
  end.
Proof.
  rewrite get_ia_na_addr_code_unfold. unfold usable_binding.
  destruct (get_option options kDHCPv6OPTION_IA_NA) as [na|] eqn:Ena.
  2:{ intros na ad (H & _). discriminate. }
  destruct (Z.leb_spec (option_len na) DHCPv6OptionIA_NA_MIN_LENGTH) as [Hlen|Hlen].
  { intros na' ad (H & Hl & _). inversion H; subst. lia. }
  destruct (negb (DHCPv6OptionIA_NAGetT1 na =? 0)
            && negb (DHCPv6OptionIA_NAGetT2 na =? 0)
            && (DHCPv6OptionIA_NAGetT1 na >? DHCPv6OptionIA_NAGetT2 na)) eqn:Et.
  { intros na' ad (H & _ & Hn & _). inversion H; subst.
    apply t1_t2_check in Hn. congruence. }
  apply t1_t2_check in Et.
  destruct (DHCPv6OptionListCreate e (DHCPv6OptionIA_NA_options na))
    as [nested|] eqn:Ec.
  2:{ intros na' ad (H & _ & _ & n & s & r & Hc & _). inversion H; subst.
      congruence. }
  destruct (fst (DHCPv6OptionListGetStatusCode e nested)) eqn:Eok; simpl.
  2:{ intros na' ad (H & _). inversion H; subst. exists nested. auto. }
  destruct (first_usable_iaaddr (iaaddr_values nested)) as [ad|] eqn:Es.
  - apply first_usable_iaaddr_Some in Es. destruct Es as (s & r & Hs).
    repeat split; auto. exists nested, s, r. tauto.
  - intros na' ad (H & _ & _ & n & s & r & Hc & Hd & Hf & Ha).
    inversion H; subst na'. rewrite Ec in Hc. inversion Hc; subst n.
    assert (first_usable_iaaddr (iaaddr_values nested) = Some ad) as Hx.
    { apply first_usable_iaaddr_Some. exists s, r. auto. }
    congruence.
Qed.

Lemma get_ia_na_addr_code_Some (e : Env) (options : DHCPv6OptionListRef)
    (na ad : list byte) (code : Z) :
  get_ia_na_addr_code e options = (Some na, Some ad, code) ->
  usable_binding e options na ad.
Proof.
  intros H. pose proof (get_ia_na_addr_code_cases e options) as Hc.
  rewrite H in Hc. exact Hc.
Qed.

Lemma get_ia_na_addr_Some (e : Env) (options : DHCPv6OptionListRef)
    (na : list byte) (ad : option (list byte)) :
  get_ia_na_addr e options = (Some na, ad) ->
  exists ad', ad = Some ad' /\ usable_binding e options na ad'.
Proof.
  unfold get_ia_na_addr. intros H.
  pose proof (get_ia_na_addr_code_cases e options) as Hc.
  destruct (get_ia_na_addr_code e options) as [[na' ad'] code].
  simpl in H. inversion H; subst.
  destruct ad as [ad|]; [|contradiction].
  exists ad. auto.
Qed.

(** C10.  get_ia_na_addr_code yields an IA_NA and an IAADDR only when the
    IA_NA option is present and longer than its 12-byte header, T1 and T2 are
    not both nonzero with T1 > T2, the nested options parse, and in the scan
    of the nested IAADDR options in order, past those that are well-formed
    with a zero valid lifetime, the first other one is the IAADDR returned,
    is at least 24 bytes long and has preferred_lifetime <= valid_lifetime.
    In every other case both results are NULL (the IA_NA is reported as
    absent); and when the conditions hold and the result is NULL all the
    same, the nested STATUS_CODE option is malformed. *)
Theorem get_ia_na_addr_code_usable_only (e : Env)
    (options : DHCPv6OptionListRef) :
  match get_ia_na_addr_code e options with
  | (Some na, Some ad, _) => usable_binding e options na ad
  | (None, None, _) =>
      forall na ad, usable_binding e options na ad ->
        exists nested,
          DHCPv6OptionListCreate e (DHCPv6OptionIA_NA_options na)
          = Some nested /\
          fst (DHCPv6OptionListGetStatusCode e nested) = false
  | _ => False
  end.
Proof. apply get_ia_na_addr_code_cases. Qed.

(** ** The lease-still-valid test *)

Lemma DHCPv6ClientLeaseStillValid_true (e : Env) (now : Q) (c : DHCPv6Client) :
  fst (DHCPv6ClientLeaseStillValid e now c) = true ->
  DHCPv6ClientLeaseStillValid e now c = (true, c).
Proof.
  unfold DHCPv6ClientLeaseStillValid.
  destruct (lease_valid (lease c)) eqn:Ev; simpl; [|discriminate].
  destruct (lease_valid_lifetime (lease c) =? DHCP_INFINITE_LEASE);
    [reflexivity|].
  destruct (Qlt_bool now (lease_start (lease c))); [simpl; discriminate|].
  destruct (Qle_bool _ _); [simpl; discriminate|].
  reflexivity.
Qed.

(** C4.  The lease-still-valid test returns true exactly when the valid flag
    of the lease is set and either valid_lifetime is INFINITE or
    start <= now and now - start < valid_lifetime; when the flag is set,
    valid_lifetime is finite and now < start, it returns false. *)
Theorem DHCPv6ClientLeaseStillValid_iff (e : Env) (now : Q) (c : DHCPv6Client) :
  (fst (DHCPv6ClientLeaseStillValid e now c) = true <->
   lease_valid (lease c) = true /\
   (lease_valid_lifetime (lease c) = DHCP_INFINITE_LEASE \/
    (lease_start (lease c) <= now /\
     now - lease_start (lease c) < inject_Z (lease_valid_lifetime (lease c)))%Q))
  /\
  (lease_valid (lease c) = true /\
   lease_valid_lifetime (lease c) <> DHCP_INFINITE_LEASE /\
   (now < lease_start (lease c))%Q ->
   fst (DHCPv6ClientLeaseStillValid e now c) = false).
Proof.
  unfold DHCPv6ClientLeaseStillValid.
  destruct (lease_valid (lease c)) eqn:Ev; simpl.
  2:{ split; [split; [discriminate|intros [H _]; discriminate]|].
      intros [H _]; discriminate. }
  destruct (Z.eqb_spec (lease_valid_lifetime (lease c)) DHCP_INFINITE_LEASE)
    as [Hinf|Hfin].
  { simpl. split; [tauto|]. intros (_ & H & _). contradiction. }
  destruct (Qlt_bool now (lease_start (lease c))) eqn:Eback.
  { apply Qlt_bool_iff in Eback. simpl. split; [|reflexivity].
    split; [discriminate|]. intros (_ & [H|[H _]]); [contradiction|].
    exfalso. apply (Qlt_not_le _ _ Eback H). }
  apply Qlt_bool_false_iff in Eback.
  destruct (Qle_bool (inject_Z (lease_valid_lifetime (lease c)))
                     (now - lease_start (lease c))) eqn:Eexp.
  { apply Qle_bool_iff in Eexp. simpl. split.
    - split; [discriminate|]. intros (_ & [H|[_ H]]); [contradiction|].
      exfalso. apply (Qlt_not_le _ _ H Eexp).
    - reflexivity. }
  apply Qle_bool_false_iff in Eexp. simpl. split.
  - split; auto.
  - intros (_ & _ & H). exfalso. apply (Qlt_not_le _ _ H Eback).
Qed.

(** ** The retransmission engine *)

Lemma arc4random_next_range (e : Env) (n : nat) :
  0 <= fst (arc4random_next e n) <= UINT32_MAX.
Proof.
  unfold arc4random_next, UINT32_MAX. simpl.
  pose proof (Z.mod_pos_bound (arc4random e n) 4294967296). lia.
Qed.

(** *** The rounding of double *)

Lemma two_pos (k : Z) : (0 < 2 ^ k)%Q.
Proof. apply Qpower_0_lt. reflexivity. Qed.

Lemma two_nonzero : ~ (2 == 0)%Q.
Proof. discriminate. Qed.

Lemma pow2_ratio (a b : Z) :
  0 <= a -> 0 <= b ->
  (2 ^ (a - b) == inject_Z (2 ^ a) / inject_Z (2 ^ b))%Q.
Proof.
  intros Ha Hb. rewrite Qpower_minus by exact two_nonzero.
  rewrite !Zpower_Qpower by assumption. reflexivity.
Qed.

Lemma ratio_le (A B p : Z) (q : positive) :
  0 < B ->
  ((inject_Z A / inject_Z B <= p # q)%Q <-> A * Zpos q <= p * B).
Proof.
  intros HB. destruct B as [|B|B]; try lia.
  unfold Qle, Qdiv, Qmult, Qinv, inject_Z. cbn. lia.
Qed.

Lemma lt_ratio (A B p : Z) (q : positive) :
  0 < B ->
  ((p # q < inject_Z A / inject_Z B)%Q <-> p * B < A * Zpos q).
Proof.
  intros HB. destruct B as [|B|B]; try lia.
  unfold Qlt, Qdiv, Qmult, Qinv, inject_Z. cbn. lia.
Qed.

Lemma Qlog2_spec (x : Q) :
  (0 < x)%Q -> (2 ^ Qlog2 x <= x /\ x < 2 ^ (Qlog2 x + 1))%Q.
Proof.
  intros Hx. unfold Qlog2.
  destruct x as [p q]. cbn [Qnum Qden].
  assert (0 < p) as Hp by (unfold Qlt in Hx; simpl in Hx; lia).
  pose proof (Z.log2_spec p Hp) as [Hp1 Hp2].
  pose proof (Z.log2_spec (Zpos q) eq_refl) as [Hq1 Hq2].
  pose proof (Z.log2_nonneg p) as Ha.
  pose proof (Z.log2_nonneg (Zpos q)) as Hb.
  set (a := Z.log2 p) in *. set (b := Z.log2 (Zpos q)) in *.
  assert (0 < 2 ^ a) as HA by (apply Z.pow_pos_nonneg; lia).
  assert (0 < 2 ^ b) as HB by (apply Z.pow_pos_nonneg; lia).
  assert (2 ^ Z.succ a = 2 * 2 ^ a) as Ea by (apply Z.pow_succ_r; lia).
  assert (2 ^ Z.succ b = 2 * 2 ^ b) as Eb by (apply Z.pow_succ_r; lia).
  destruct (Qle_bool (2 ^ (a - b)) (p # q)) eqn:E.
  - apply Qle_bool_iff in E. split; [exact E|].
    replace (a - b + 1) with (Z.succ a - b) by lia.
    rewrite pow2_ratio by lia. apply lt_ratio; [lia|]. nia.
  - assert (p # q < 2 ^ (a - b))%Q as Hlt.
    { apply Qnot_le_lt. intro H. apply Qle_bool_iff in H. congruence. }
    replace (a - b - 1 + 1) with (a - b) by lia. split; [|exact Hlt].
    replace (a - b - 1) with (a - Z.succ b) by lia.
    rewrite pow2_ratio by lia. apply ratio_le; [lia|]. nia.
Qed.

Lemma round_nearest_even_spec (m : Q) :
  (Qabs (inject_Z (round_nearest_even m) - m) <= 1 # 2)%Q /\
  Qfloor m <= round_nearest_even m <= Qceiling m.
Proof.
  unfold round_nearest_even.
  pose proof (Qfloor_le m) as Hf. pose proof (Qlt_floor m) as Hl.
  pose proof (Qle_ceiling m) as Hc.
  assert (Qfloor m <= Qceiling m) as Hfc.
  { rewrite Zle_Qle. apply Qle_trans with m; assumption. }
  set (f := Qfloor m) in *.
  rewrite inject_Z_plus in Hl. change (inject_Z 1) with 1%Q in Hl.
  assert (~ (m - inject_Z f == 0)%Q -> f + 1 <= Qceiling m) as Hup.
  { intros Hnz.
    assert (inject_Z f < inject_Z (Qceiling m))%Q as H.
    { apply Qlt_le_trans with m; [|exact Hc].
      apply Qle_lteq in Hf. destruct Hf as [Hf|Hf]; [exact Hf|].
      exfalso. apply Hnz. rewrite <- Hf. ring. }
    rewrite <- Zlt_Qlt in H. lia. }
  destruct (Qcompare_spec (m - inject_Z f) (1 # 2)) as [E|E|E].
  - assert (f + 1 <= Qceiling m) as Hu.
    { apply Hup. rewrite E. discriminate. }
    destruct (Z.even f).
    + split; [|lia]. apply Qabs_Qle_condition. split; lra.
    + split; [|lia]. rewrite inject_Z_plus. change (inject_Z 1) with 1%Q.
      apply Qabs_Qle_condition. split; lra.
  - split; [|lia]. apply Qabs_Qle_condition. split; lra.
  - assert (f + 1 <= Qceiling m) as Hu.
    { apply Hup. intro H. rewrite H in E. discriminate. }
    split; [|lia]. rewrite inject_Z_plus. change (inject_Z 1) with 1%Q.
    apply Qabs_Qle_condition. split; lra.
Qed.

Lemma round_magnitude_facts (a : Q) :
  (0 < a)%Q ->
  exists (n : Z) (s : Q),
    (0 < s)%Q /\ (round_magnitude a == inject_Z n / s)%Q /\
    (inject_Z (2 ^ 52) <= a * s)%Q /\
    (Qabs (inject_Z n - a * s) <= 1 # 2)%Q /\
    Qfloor (a * s) <= n <= Qceiling (a * s) /\
    s = (2 ^ (52 - Qlog2 a))%Q.
Proof.
  intros Ha. unfold round_magnitude.
  destruct (Qlog2_spec a Ha) as [Hlo _].
  set (s := (2 ^ (52 - Qlog2 a))%Q).
  exists (round_nearest_even (a * s)), s.
  pose proof (round_nearest_even_spec (a * s)) as [Hn Hb].
  split; [apply two_pos|]. split; [apply Qred_correct|].
  split; [|split; [exact Hn|split; [exact Hb|reflexivity]]].
  assert (2 ^ Qlog2 a * s == inject_Z (2 ^ 52))%Q as E.
  { unfold s. rewrite <- Qpower_plus by exact two_nonzero.
    replace (Qlog2 a + (52 - Qlog2 a)) with 52 by lia. reflexivity. }
  rewrite <- E. apply Qmult_le_compat_r; [exact Hlo|].
  apply Qlt_le_weak, two_pos.
Qed.

Lemma round_magnitude_error (a : Q) :
  (0 < a)%Q -> (Qabs (round_magnitude a - a) <= double_epsilon * a)%Q.
Proof.
  intros Ha.
  destruct (round_magnitude_facts a Ha) as (n & s & Hs & E & Hm & Hn & _).
  rewrite E.
  assert (inject_Z n / s - a == (inject_Z n - a * s) / s)%Q as E2
    by (field; lra).
  rewrite E2. unfold Qdiv at 1. rewrite Qabs_Qmult.
  rewrite (Qabs_pos (/ s))
    by (apply Qlt_le_weak, Qinv_lt_0_compat; exact Hs).
  apply Qle_shift_div_r; [exact Hs|].
  apply Qle_trans with (1 # 2)%Q; [exact Hn|].
  rewrite <- Qmult_assoc. set (m := (a * s)%Q) in *.
  change (inject_Z (2 ^ 52)) with (4503599627370496 # 1)%Q in Hm.
  unfold double_epsilon. lra.
Qed.

Lemma round_magnitude_unit (a : Q) :
  (0 < a)%Q -> (0 <= round_magnitude a)%Q /\
  (a <= 1 -> round_magnitude a <= 1)%Q.
Proof.
  intros Ha.
  destruct (round_magnitude_facts a Ha) as (n & s & Hs & E & Hm & _ & Hb & Es).
  assert (0 <= a * s)%Q as Hms.
  { apply Qmult_le_0_compat; apply Qlt_le_weak; assumption. }
  split.
  - rewrite E. apply Qle_shift_div_l; [exact Hs|]. rewrite Qmult_0_l.
    change 0%Q with (inject_Z 0). rewrite <- Zle_Qle.
    apply Z.le_trans with (Qfloor (a * s)); [|apply Hb].
    change 0 with (Qfloor 0). apply Qfloor_resp_le. exact Hms.
  - intros H1. rewrite E. apply Qle_shift_div_r; [exact Hs|].
    rewrite Qmult_1_l.
    destruct (Qlog2_spec a Ha) as [Hlo _].
    assert (Qlog2 a <= 0) as He.
    { apply Qpower_le_compat_l_inv with (q := 2%Q); [|reflexivity].
      rewrite Qpower_0_r. apply Qle_trans with a; assumption. }
    assert (s == inject_Z (2 ^ (52 - Qlog2 a)))%Q as Ez.
    { rewrite Es. rewrite Zpower_Qpower by lia. reflexivity. }
    rewrite Ez. rewrite <- Zle_Qle.
    apply Z.le_trans with (Qceiling (a * s)); [apply Hb|].
    rewrite <- (Qceiling_Z (2 ^ (52 - Qlog2 a))).
    apply Qceiling_resp_le. rewrite <- Ez.
    rewrite <- (Qmult_1_l s) at 2.
    apply Qmult_le_compat_r; [exact H1|apply Qlt_le_weak; exact Hs].
Qed.

Lemma round_double_error (x : Q) :
  (Qabs (round_double x - x) <= double_epsilon * Qabs x)%Q.
Proof.
  unfold round_double. destruct x as [p q]. cbn [Qnum].
  destruct p as [|p|p].
  - unfold Qle. simpl. lia.
  - rewrite (Qabs_pos (Zpos p # q)) by discriminate.
    apply round_magnitude_error. reflexivity.
  - assert (0 < - (Zneg p # q))%Q as H by reflexivity.
    pose proof (round_magnitude_error _ H) as Hr.
    rewrite (Qabs_neg (Zneg p # q)) by discriminate.
    rewrite <- Qabs_opp.
    assert (- (- round_magnitude (- (Z.neg p # q)) - (Z.neg p # q))
            == round_magnitude (- (Z.neg p # q)) - - (Z.neg p # q))%Q as E
      by ring.
    rewrite E. exact Hr.
Qed.

Lemma round_double_unit (x : Q) :
  (0 <= x <= 1)%Q -> (0 <= round_double x <= 1)%Q.
Proof.
  intros [H0 H1]. unfold round_double. destruct x as [p q]. cbn [Qnum].
  destruct p as [|p|p].
  - split; discriminate.
  - destruct (round_magnitude_unit (Zpos p # q) eq_refl) as [Ha Hb].
    split; [exact Ha|apply Hb; exact H1].
  - exfalso. apply (Qle_not_lt _ _ H0). reflexivity.
Qed.

Lemma round_double_near (x B : Q) :
  (Qabs x <= B)%Q ->
  (Qabs (round_double x - x) <= double_epsilon * B)%Q /\
  (Qabs (round_double x) <= B * (1 + double_epsilon))%Q.
Proof.
  intros HB. pose proof (round_double_error x) as He.
  pose proof (Qabs_nonneg x) as Hx.
  assert (Qabs (round_double x - x) <= double_epsilon * B)%Q as H1.
  { apply Qle_trans with (double_epsilon * Qabs x)%Q; [exact He|].
    unfold double_epsilon in *. lra. }
  split; [exact H1|].
  assert (round_double x == (round_double x - x) + x)%Q as E by ring.
  rewrite E.
  apply Qle_trans
    with (Qabs (round_double x - x) + Qabs x)%Q;
    [apply Qabs_triangle|].
  unfold double_epsilon in *. lra.
Qed.

Lemma Qabs_scale (r x R : Q) :
  (Qabs r <= R)%Q -> (Qabs (r * x) <= R * Qabs x)%Q.
Proof.
  intros H. rewrite Qabs_Qmult.
  apply Qmult_le_compat_r; [exact H|apply Qabs_nonneg].
Qed.

Lemma Qabs_sum (x y X Y : Q) :
  (Qabs x <= X)%Q -> (Qabs y <= Y)%Q -> (Qabs (x + y) <= X + Y)%Q.
Proof.
  intros Hx Hy.
  apply Qle_trans with (Qabs x + Qabs y)%Q; [apply Qabs_triangle|lra].
Qed.

(** A value within [c] times |x| of [x] is [x * (1 + u)] with |u| <= c; and
    the same around [2 * x]. *)
Lemma relative_offset (x y c : Q) :
  (0 <= c)%Q -> (Qabs (y - x) <= c * Qabs x)%Q ->
  exists u, (Qabs u <= c)%Q /\ (y == x * (1 + u))%Q.
Proof.
  intros Hc H. destruct (Qeq_dec x 0) as [Hz|Hnz].
  - exists 0%Q. split; [exact Hc|].
    rewrite Hz in H. change (Qabs 0) with 0%Q in H.
    apply Qabs_Qle_condition in H. rewrite Hz. lra.
  - exists ((y - x) / x)%Q. split; [|field; exact Hnz].
    unfold Qdiv. rewrite Qabs_Qmult.
    assert (0 < Qabs x)%Q as Hpos.
    { destruct (Qlt_le_dec 0 x) as [Hp|Hn].
      - rewrite Qabs_pos; lra.
      - rewrite Qabs_neg by exact Hn.
        destruct (Qle_lt_or_eq _ _ Hn) as [Hlt|Heq]; [lra|contradiction]. }
    rewrite Qabs_Qinv. apply Qle_shift_div_r; [exact Hpos|exact H].
Qed.

Lemma relative_offset_doubled (x y c : Q) :
  (0 <= c)%Q -> (Qabs (y - 2 * x) <= c * Qabs x)%Q ->
  exists u, (Qabs u <= c)%Q /\ (y == 2 * x + u * x)%Q.
Proof.
  intros Hc H.
  destruct (relative_offset x (y - x) c Hc) as (u & Hu & E).
  { assert (y - x - x == y - 2 * x)%Q as E by ring. rewrite E. exact H. }
  exists u. split; [exact Hu|]. lra.
Qed.

(** *** The random numbers *)

Lemma double_div_unit (a M : Z) :
  0 <= a <= M -> 0 < M ->
  (0 <= double_div (inject_Z a) (inject_Z M) <= 1)%Q.
Proof.
  intros Ha HM. unfold double_div. apply round_double_unit.
  assert (0 < inject_Z M)%Q as HMq.
  { change 0%Q with (inject_Z 0). rewrite <- Zlt_Qlt. exact HM. }
  split.
  - apply Qle_shift_div_l; [exact HMq|]. rewrite Qmult_0_l.
    change 0%Q with (inject_Z 0). rewrite <- Zle_Qle. lia.
  - apply Qle_shift_div_r; [exact HMq|]. rewrite Qmult_1_l.
    rewrite <- Zle_Qle. lia.
Qed.

(** A delay drawn between 0 and 1 second lies between 0 and 1 second. *)
Lemma random_double_in_range_unit (e : Env) (n : nat) :
  (0 <= fst (random_double_in_range e 0 1 n) <= 1)%Q.
Proof.
  unfold random_double_in_range.
  pose proof (arc4random_next_range e n) as Hr.
  destruct (arc4random_next e n) as [a n']. cbn [fst] in *.
  assert (0 <= double_div (inject_Z a) (inject_Z UINT32_MAX) <= 1)%Q
    as Hq by (apply double_div_unit; [exact Hr|reflexivity]).
  set (r := double_div (inject_Z a) (inject_Z UINT32_MAX)) in *.
  clearbody r.
  assert (0 <= double_sub 1 0 <= 1)%Q as Hw.
  { unfold double_sub. apply round_double_unit. lra. }
  set (w := double_sub 1 0) in *. clearbody w.
  assert (0 <= double_mul w r <= 1)%Q as Hp.
  { unfold double_mul. apply round_double_unit. nra. }
  set (p := double_mul w r) in *. clearbody p.
  unfold double_add. apply round_double_unit. lra.
Qed.

Lemma double_tenth_value :
  double_tenth = (3602879701896397 # 36028797018963968)%Q.
Proof. vm_compute. reflexivity. Qed.

Lemma DHCPv6_RAND_range (e : Env) (n : nat) :
  (Qabs (fst (DHCPv6_RAND e n)) <= (1 # 10) + (1 # 18014398509481984))%Q.
Proof.
  unfold DHCPv6_RAND, random_double_in_range.
  pose proof (arc4random_next_range e n) as Hr.
  destruct (arc4random_next e n) as [a n']. cbn [fst] in *.
  assert (0 <= double_div (inject_Z a) (inject_Z UINT32_MAX) <= 1)%Q
    as Hq by (apply double_div_unit; [exact Hr|reflexivity]).
  set (r := double_div (inject_Z a) (inject_Z UINT32_MAX)) in *.
  clearbody r.
  assert (double_sub double_tenth (- double_tenth)
          = (3602879701896397 # 18014398509481984)%Q) as Ew
      by (vm_compute; reflexivity).
  rewrite Ew. rewrite double_tenth_value.
  set (w := (3602879701896397 # 18014398509481984)%Q).
  set (t := (3602879701896397 # 36028797018963968)%Q).
  assert (Qabs (w * r) <= w)%Q as Hwr.
  { rewrite Qabs_pos by (unfold w; nra). unfold w. nra. }
  destruct (round_double_near (w * r) w Hwr) as [_ Hp].
  pose proof (round_double_error (w * r)) as Hp0.
  rewrite (Qabs_pos (w * r)) in Hp0 by (unfold w; nra).
  fold (double_mul w r) in Hp, Hp0.
  set (p := double_mul w r) in *. clearbody p.
  apply Qabs_Qle_condition in Hp. apply Qabs_Qle_condition in Hp0.
  assert (0 <= p)%Q as Hpos by (unfold w, double_epsilon in *; nra).
  assert (Qabs (- t + p) <= t * (1 + 2 * double_epsilon))%Q as Hs.
  { apply Qabs_Qle_condition. unfold t, w, double_epsilon in *. lra. }
  destruct (round_double_near (- t + p) _ Hs) as [_ HR].
  fold (double_add (- t) p) in HR.
  apply Qle_trans with (1 := HR).
  unfold t, w, double_epsilon. lra.
Qed.

(** [round_double] gives the numbers that the processor gives: the random
    factor and the intervals computed from it agree with those computed in
    the primitive binary64 numbers, for the draws at both ends of the range
    and a sample in between. *)
Lemma round_double_agrees_with_binary64 :
  forallb
    (fun a =>
       let e := example_env_draw a in
       Qeq_bool (binary64_value (binary64_RAND a)) (fst (DHCPv6_RAND e 0))
       && Qeq_bool (binary64_value (binary64_InitialTimeout 1 a))
                   (fst (DHCPv6InitialTimeout e 1 0))
       && Qeq_bool (binary64_value (binary64_InitialTimeout 10 a))
                   (fst (DHCPv6InitialTimeout e 10 0))
       && Qeq_bool (binary64_value (binary64_SubsequentTimeout 1 a))
                   (fst (DHCPv6SubsequentTimeout e 1 0 0))
       && Qeq_bool (binary64_value (binary64_SubsequentTimeout 37 a))
                   (fst (DHCPv6SubsequentTimeout e 37 0 0)))
    example_draws = true.
Proof. vm_compute. reflexivity. Qed.

(** *** The intervals *)

Lemma jitter_double_intro (u : Q) :
  (Qabs u <= (1 # 10) + double_slack)%Q -> jitter_double u.
Proof.
  intros H. unfold jitter_double. apply Qabs_Qle_condition in H.
  unfold double_slack in *. lra.
Qed.

(** The interval computed around [X]: within a tenth of |X|, up to the
    rounding of the three operations. *)
Lemma jittered_interval (r X : Q) :
  (Qabs r <= (1 # 10) + (1 # 18014398509481984))%Q ->
  (Qabs (double_add X (double_mul r X) - X)
   <= ((1 # 10) + double_slack) * Qabs X)%Q.
Proof.
  intros Hr. pose proof (Qabs_nonneg X) as HA.
  pose proof (Qabs_scale r X _ Hr) as Hrx.
  destruct (round_double_near (r * X) _ Hrx) as [_ Hq].
  fold (double_mul r X) in Hq.
  set (q := double_mul r X) in *. clearbody q.
  assert (Qabs (X + q)
          <= Qabs X
             + ((1 # 10) + (1 # 18014398509481984)) * Qabs X
               * (1 + double_epsilon))%Q as Hv.
  { apply Qabs_sum; [apply Qle_refl|exact Hq]. }
  destruct (round_double_near (X + q) _ Hv) as [He _].
  fold (double_add X q) in He.
  assert (double_add X q - X == (double_add X q - (X + q)) + q)%Q as E
    by ring.
  rewrite E.
  eapply Qle_trans; [apply Qabs_sum; [exact He|exact Hq]|].
  set (A := Qabs X) in *. clearbody A.
  unfold double_epsilon, double_slack. lra.
Qed.

(** The candidate of a later interval: within a tenth of |RTprev| of
    2 * RTprev, up to the rounding of the four operations. *)
Lemma doubled_interval (r X : Q) :
  (Qabs r <= (1 # 10) + (1 # 18014398509481984))%Q ->
  (Qabs (double_add (double_mul 2 X) (double_mul r X) - 2 * X)
   <= ((1 # 10) + double_slack) * Qabs X)%Q.
Proof.
  intros Hr. pose proof (Qabs_nonneg X) as HA.
  pose proof (Qabs_scale r X _ Hr) as Hrx.
  destruct (round_double_near (r * X) _ Hrx) as [_ Hq].
  fold (double_mul r X) in Hq.
  set (q := double_mul r X) in *. clearbody q.
  assert (Qabs (2 * X) <= 2 * Qabs X)%Q as H2.
  { rewrite Qabs_Qmult. rewrite (Qabs_pos 2) by discriminate.
    apply Qle_refl. }
  destruct (round_double_near (2 * X) _ H2) as [Hd1 Hd2].
  fold (double_mul 2 X) in Hd1, Hd2.
  set (d := double_mul 2 X) in *. clearbody d.
  pose proof (Qabs_sum d q _ _ Hd2 Hq) as Hv.
  destruct (round_double_near (d + q) _ Hv) as [He _].
  fold (double_add d q) in He.
  assert (double_add d q - 2 * X
          == (double_add d q - (d + q)) + ((d - 2 * X) + q))%Q as E by ring.
  rewrite E.
  eapply Qle_trans;
    [apply Qabs_sum; [exact He|apply Qabs_sum; [exact Hd1|exact Hq]]|].
  set (A := Qabs X) in *. clearbody A.
  unfold double_epsilon, double_slack. lra.
Qed.

Lemma double_slack_bound : (0 <= (1 # 10) + double_slack)%Q.
Proof. discriminate. Qed.

Lemma DHCPv6InitialTimeout_interval (e : Env) (IRT : Q) (n : nat) :
  let RT := fst (DHCPv6InitialTimeout e IRT n) in
  (Qabs (RT - IRT) <= ((1 # 10) + double_slack) * Qabs IRT)%Q /\
  exists u, jitter_double u /\ (RT == IRT * (1 + u))%Q.
Proof.
  cbv zeta. unfold DHCPv6InitialTimeout.
  pose proof (DHCPv6_RAND_range e n) as Hr.
  destruct (DHCPv6_RAND e n) as [r n']. cbn [fst] in *.
  pose proof (jittered_interval r IRT Hr) as H.
  split; [exact H|].
  destruct (relative_offset _ _ _ double_slack_bound H) as (u & Hu & E).
  exists u. split; [apply jitter_double_intro; exact Hu|exact E].
Qed.

Lemma DHCPv6SubsequentTimeout_interval (e : Env) (RTprev MRT : Q) (n : nat) :
  let RT := fst (DHCPv6SubsequentTimeout e RTprev MRT n) in
  exists cand u,
    jitter_double u /\ (cand == 2 * RTprev + u * RTprev)%Q /\
    (Qabs (cand - 2 * RTprev) <= ((1 # 10) + double_slack) * Qabs RTprev)%Q /\
    (((MRT == 0 \/ cand <= MRT)%Q /\ RT = cand)
     \/
     ((~ MRT == 0 /\ MRT < cand)%Q /\
      (Qabs (RT - MRT) <= ((1 # 10) + double_slack) * Qabs MRT)%Q /\
      exists u', jitter_double u' /\ (RT == MRT * (1 + u'))%Q)).
Proof.
  cbv zeta. unfold DHCPv6SubsequentTimeout.
  pose proof (DHCPv6_RAND_range e n) as Hr.
  destruct (DHCPv6_RAND e n) as [r n']. cbn [fst] in Hr.
  pose proof (doubled_interval r RTprev Hr) as H.
  set (cand := double_add (double_mul 2 RTprev) (double_mul r RTprev)) in *.
  clearbody cand.
  destruct (relative_offset_doubled _ _ _ double_slack_bound H)
    as (u & Hu & E).
  exists cand, u. split; [apply jitter_double_intro; exact Hu|].
  split; [exact E|]. split; [exact H|].
  destruct (Qeq_bool MRT 0) eqn:Ez; cbn [negb andb fst].
  - apply Qeq_bool_iff in Ez. left. split; [left; exact Ez|reflexivity].
  - assert (~ MRT == 0)%Q as Hnz.
    { intro Hm. apply Qeq_bool_iff in Hm. congruence. }
    destruct (Qlt_bool MRT cand) eqn:El.
    + apply Qlt_bool_iff in El. right. split; [split; assumption|].
      pose proof (DHCPv6_RAND_range e n') as Hr'.
      destruct (DHCPv6_RAND e n') as [r' n'']. cbn [fst] in *.
      pose proof (jittered_interval r' MRT Hr') as H'.
      split; [exact H'|].
      destruct (relative_offset _ _ _ double_slack_bound H')
        as (u' & Hu' & E').
      exists u'. split; [apply jitter_double_intro; exact Hu'|exact E'].
    + apply Qlt_bool_false_iff in El. left. cbn [fst].
      split; [right; exact El|reflexivity].
Qed.

(** C6.  Each interval that DHCPv6ClientNextRetransmit produces is kept as the
    client's retransmit_time.  The intervals are computed in double, and the
    bounds hold with 0.1 + 2 ^ -50 in the place of 0.1.  The first interval
    of a phase (try was 0) is IRT * (1 + u) for some u with
    |u| <= 0.1 + 2 ^ -50.  Every later one starts from a candidate
    2 * RTprev + u * RTprev for some such u, with RTprev the interval before
    it, and |candidate - 2 * RTprev| <= (0.1 + 2 ^ -50) * |RTprev|: when MRT
    is 0 or the candidate does not exceed MRT, the candidate is the interval;
    when MRT is not 0 and the candidate exceeds MRT, the interval is
    MRT * (1 + u') for some u' with |u'| <= 0.1 + 2 ^ -50, and
    |RT - MRT| <= (0.1 + 2 ^ -50) * |MRT|. *)
Theorem DHCPv6ClientNextRetransmit_interval (e : Env) (IRT MRT : Q)
    (c : DHCPv6Client) :
  let RT := fst (DHCPv6ClientNextRetransmit e IRT MRT c) in
  let c' := snd (DHCPv6ClientNextRetransmit e IRT MRT c) in
  let RTprev := retransmit_time c in
  let tenth := ((1 # 10) + double_slack)%Q in
  retransmit_time c' = RT /\ try_ c' = try_ c + 1 /\
  ((try_ c = 0 /\
    (Qabs (RT - IRT) <= tenth * Qabs IRT)%Q /\
    exists u, jitter_double u /\ (RT == IRT * (1 + u))%Q)
   \/
   (try_ c <> 0 /\
    exists cand u,
      jitter_double u /\ (cand == 2 * RTprev + u * RTprev)%Q /\
      (Qabs (cand - 2 * RTprev) <= tenth * Qabs RTprev)%Q /\
      (((MRT == 0 \/ cand <= MRT)%Q /\ RT = cand)
       \/
       ((~ MRT == 0 /\ MRT < cand)%Q /\
        (Qabs (RT - MRT) <= tenth * Qabs MRT)%Q /\
        exists u', jitter_double u' /\ (RT == MRT * (1 + u'))%Q)))).
Proof.
  unfold DHCPv6ClientNextRetransmit. cbn [try_ set_try_ rng retransmit_time].
  destruct (Z.eqb_spec (try_ c + 1) 1) as [H1|H1].
  - pose proof (DHCPv6InitialTimeout_interval e IRT (rng c)) as Hi.
    destruct (DHCPv6InitialTimeout e IRT (rng c)) as [rt n]. simpl in *.
    split; [reflexivity|]. split; [reflexivity|].
    left. split; [lia|exact Hi].
  - pose proof (DHCPv6SubsequentTimeout_interval e (retransmit_time c) MRT
                  (rng c)) as Hs.
    destruct (DHCPv6SubsequentTimeout e (retransmit_time c) MRT (rng c))
      as [rt n]. simpl in *.
    split; [reflexivity|]. split; [reflexivity|].
    right. split; [lia|exact Hs].
Qed.

(** C6 as stated fails: the bound 0.1 itself is not kept.  With IRT = 1 and
    the draw 0xFFFFFFFF the random factor is the double nearest to 0.1,
    which is greater than 1/10, and the first interval is the double next
    above 11/10, 1.100000000000000088817841970012523: no u in [-0.1, 0.1]
    gives it as IRT * (1 + u). *)
Lemma first_interval_as_stated_counterexample :
  let e := example_env_draw 4294967295 in
  let RT := fst (DHCPv6ClientNextRetransmit e 1 0 DHCPv6ClientCreate) in
  try_ DHCPv6ClientCreate = 0 /\
  arc4random e (rng DHCPv6ClientCreate) = 4294967295 /\
  fst (DHCPv6_RAND e (rng DHCPv6ClientCreate))
  = (3602879701896397 # 36028797018963968)%Q /\
  RT = (2476979795053773 # 2251799813685248)%Q /\
  ~ first_interval_as_stated 1 RT.
Proof.
  cbv zeta.
  assert (fst (DHCPv6ClientNextRetransmit (example_env_draw 4294967295) 1 0
                 DHCPv6ClientCreate)
          = (2476979795053773 # 2251799813685248)%Q) as E
      by (vm_compute; reflexivity).
  rewrite E. split; [reflexivity|]. split; [reflexivity|].
  split; [vm_compute; reflexivity|]. split; [reflexivity|].
  intros (u & [Hl Hu] & Hrt). lra.
Qed.

(** ** An invariant of the client: the saved packet backs what is trusted *)

Create HintDb sc discriminated.

Ltac sc_prim :=
  intros; unfold saved_consistent in *; simpl in *; tauto.

Lemma sc_set_callback_rls v c :
  saved_consistent c -> saved_consistent (set_callback_rls v c).
Proof. sc_prim. Qed.
Lemma sc_set_callback v c :
  saved_consistent c -> saved_consistent (set_callback v c).
Proof. sc_prim. Qed.
Lemma sc_set_our_ip v c :
  saved_consistent c -> saved_consistent (set_our_ip v c).
Proof. sc_prim. Qed.
Lemma sc_set_our_prefix_length v c :
  saved_consistent c -> saved_consistent (set_our_prefix_length v c).
Proof. sc_prim. Qed.
Lemma sc_set_mode v c :
  saved_consistent c -> saved_consistent (set_mode v c).
Proof. sc_prim. Qed.
Lemma sc_set_cstate v c :
  saved_consistent c -> saved_consistent (set_cstate v c).
Proof. sc_prim. Qed.
Lemma sc_set_sock_receive v c :
  saved_consistent c -> saved_consistent (set_sock_receive v c).
Proof. sc_prim. Qed.
Lemma sc_set_timer v c :
  saved_consistent c -> saved_consistent (set_timer v c).
Proof. sc_prim. Qed.
Lemma sc_set_transaction_id v c :
  saved_consistent c -> saved_consistent (set_transaction_id v c).
Proof. sc_prim. Qed.
Lemma sc_set_try_ v c :
  saved_consistent c -> saved_consistent (set_try_ v c).
Proof. sc_prim. Qed.
Lemma sc_set_start_time v c :
  saved_consistent c -> saved_consistent (set_start_time v c).
Proof. sc_prim. Qed.
Lemma sc_set_retransmit_time v c :
  saved_consistent c -> saved_consistent (set_retransmit_time v c).
Proof. sc_prim. Qed.
Lemma sc_set_lease v c :
  saved_consistent c -> saved_consistent (set_lease v c).
Proof. sc_prim. Qed.
Lemma sc_set_private_address v c :
  saved_consistent c -> saved_consistent (set_private_address v c).
Proof. sc_prim. Qed.
Lemma sc_set_duid v c :
  saved_consistent c -> saved_consistent (set_duid v c).
Proof. sc_prim. Qed.
Lemma sc_set_renew_rebind_time v c :
  saved_consistent c -> saved_consistent (set_renew_rebind_time v c).
Proof. sc_prim. Qed.
Lemma sc_set_rng v c :
  saved_consistent c -> saved_consistent (set_rng v c).
Proof. sc_prim. Qed.
Lemma sc_set_trace v c :
  saved_consistent c -> saved_consistent (set_trace v c).
Proof. sc_prim. Qed.
Lemma sc_set_saved_verified_false c :
  saved_consistent c -> saved_consistent (set_saved_verified false c).
Proof.
  intros; unfold saved_consistent in *; simpl in *.
  destruct H as [H|[H Hf]]; [tauto|]. right. split; [|exact Hf].
  intros [Ha|Hv]; [tauto|discriminate].
Qed.
Lemma sc_set_fault_true c : saved_consistent (set_fault true c).
Proof. left. reflexivity. Qed.

#[local] Hint Resolve sc_set_callback_rls sc_set_callback sc_set_our_ip
  sc_set_our_prefix_length sc_set_mode sc_set_cstate sc_set_sock_receive
  sc_set_timer sc_set_transaction_id sc_set_try_ sc_set_start_time
  sc_set_retransmit_time sc_set_lease sc_set_private_address sc_set_duid
  sc_set_renew_rebind_time sc_set_rng sc_set_trace sc_set_saved_verified_false
  sc_set_fault_true : sc.

(** One step through the body of a routine: a branch is split, a call that
    returns a pair is named by its second component, and a call on the client
    is handled by the lemma of the callee. *)
Ltac sc_pair :=
  match goal with
  | |- context [let (_, _) := ?x in _] =>
      let a := fresh "a" in
      let b := fresh "b" in
      let E := fresh "E" in
      destruct x as [a b] eqn:E;
      apply (f_equal snd) in E; cbn [snd] in E; subst b
  end.

Ltac sc_go :=
  repeat first
    [ assumption
    | progress cbv zeta
    | sc_pair
    | match goal with
      | |- saved_consistent (if ?b then _ else _) => destruct b
      | |- saved_consistent (match ?x with _ => _ end) => destruct x eqn:?
      | |- context [if ?b then _ else _] => destruct b
      end
    | solve [auto 40 with sc] ].

Ltac sc_unfold f := intros; unfold f; sc_go.

Lemma sc_emit ef c : saved_consistent c -> saved_consistent (emit ef c).
Proof. sc_unfold emit. Qed.
Lemma sc_timer_callout_set d f a c :
  saved_consistent c -> saved_consistent (timer_callout_set d f a c).
Proof. sc_unfold timer_callout_set. Qed.
Lemma sc_timer_cancel c :
  saved_consistent c -> saved_consistent (timer_cancel c).
Proof. sc_unfold timer_cancel. Qed.
Lemma sc_EnableReceive f c :
  saved_consistent c -> saved_consistent (DHCPv6SocketEnableReceive f c).
Proof. sc_unfold DHCPv6SocketEnableReceive. Qed.
Lemma sc_DisableReceive c :
  saved_consistent c -> saved_consistent (DHCPv6SocketDisableReceive c).
Proof. sc_unfold DHCPv6SocketDisableReceive. Qed.
#[local] Hint Resolve sc_emit sc_timer_callout_set sc_timer_cancel
  sc_EnableReceive sc_DisableReceive : sc.

Lemma sc_ClearRetransmit c :
  saved_consistent c -> saved_consistent (DHCPv6ClientClearRetransmit c).
Proof. sc_unfold DHCPv6ClientClearRetransmit. Qed.
Lemma sc_NextRetransmit e IRT MRT c :
  saved_consistent c ->
  saved_consistent (snd (DHCPv6ClientNextRetransmit e IRT MRT c)).
Proof.
  intros. unfold DHCPv6ClientNextRetransmit.
  destruct (if try_ (set_try_ (try_ c + 1) c) =? 1 then _ else _) as [rt n].
  cbn [snd]. sc_go.
Qed.
Lemma sc_new_transaction_id e c :
  saved_consistent c -> saved_consistent (new_transaction_id e c).
Proof.
  intros. unfold new_transaction_id.
  destruct (get_new_transaction_id e (rng c)). sc_go.
Qed.
Lemma sc_SetSSID s c :
  saved_consistent c -> saved_consistent (DHCPv6ClientSetSSID s c).
Proof. sc_unfold DHCPv6ClientSetSSID. Qed.
Lemma sc_set_lease_valid v c :
  saved_consistent c -> saved_consistent (set_lease_valid v c).
Proof. sc_unfold set_lease_valid. Qed.
Lemma sc_GetDUID e c :
  saved_consistent c -> saved_consistent (snd (DHCPv6ClientGetDUID e c)).
Proof.
  intros. unfold DHCPv6ClientGetDUID.
  destruct (private_address c); [destruct (duid c)|]; cbn [snd]; sc_go.
Qed.
#[local] Hint Resolve sc_ClearRetransmit sc_NextRetransmit
  sc_new_transaction_id sc_SetSSID sc_set_lease_valid sc_GetDUID : sc.

Lemma sc_S_duid_matches e o c :
  saved_consistent c -> saved_consistent (snd (S_duid_matches e o c)).
Proof.
  intros. unfold S_duid_matches.
  pose proof (sc_GetDUID e c H) as Hd.
  destruct (DHCPv6ClientGetDUID e c) as [d c1]. cbn [snd] in Hd.
  destruct (get_option o kDHCPv6OPTION_CLIENTID); [|exact Hd].
  destruct (negb _); [exact Hd|]. destruct (negb _); exact Hd.
Qed.
Lemma sc_SetState s c :
  saved_consistent c -> saved_consistent (DHCPv6ClientSetState s c).
Proof. sc_unfold DHCPv6ClientSetState. Qed.
Lemma sc_RemoveAddress e c :
  saved_consistent c -> saved_consistent (DHCPv6ClientRemoveAddress e c).
Proof. sc_unfold DHCPv6ClientRemoveAddress. Qed.
Lemma sc_PostNotification c :
  saved_consistent c -> saved_consistent (DHCPv6ClientPostNotification c).
Proof. sc_unfold DHCPv6ClientPostNotification. Qed.
Lemma sc_CancelPendingEvents c :
  saved_consistent c -> saved_consistent (DHCPv6ClientCancelPendingEvents c).
Proof. sc_unfold DHCPv6ClientCancelPendingEvents. Qed.
Lemma sc_ClearLease c :
  saved_consistent c -> saved_consistent (DHCPv6ClientClearLease c).
Proof. sc_unfold DHCPv6ClientClearLease. Qed.
Lemma sc_ClearPacket c :
  saved_consistent c -> saved_consistent (DHCPv6ClientClearPacket c).
Proof.
  intros. unfold saved_consistent in *. simpl.
  destruct H as [H|H]; [tauto|]. right. split.
  - intros [Ha|Hv]; congruence.
  - left. reflexivity.
Qed.
#[local] Hint Resolve sc_S_duid_matches sc_SetState sc_RemoveAddress
  sc_PostNotification sc_CancelPendingEvents sc_ClearLease sc_ClearPacket : sc.

Lemma sc_Inactive e c :
  saved_consistent c -> saved_consistent (DHCPv6ClientInactive e c).
Proof. sc_unfold DHCPv6ClientInactive. Qed.
Lemma sc_LeaseStillValid e now c :
  saved_consistent c ->
  saved_consistent (snd (DHCPv6ClientLeaseStillValid e now c)).
Proof.
  intros. unfold DHCPv6ClientLeaseStillValid.
  repeat match goal with
         | |- context [if ?b then _ else _] => destruct b
         end; cbn [snd]; sc_go.
Qed.
Lemma sc_SavePacket e data c :
  saved_consistent (DHCPv6ClientSavePacket e data c).
Proof.
  unfold DHCPv6ClientSavePacket. cbv zeta.
  cbn [saved options set_saved].
  destruct (DHCPv6OptionListCreateWithPacket e (data_pkt data)) as [opts|] eqn:Ep;
    [|apply sc_set_fault_true].
  destruct (get_ia_na_addr e opts) as [na ad].
  cbn [ia_na ia_addr set_ia_na set_ia_addr].
  assert (forall x, saved x = mkInfo (Some (data_pkt data)) (data_pkt_len data)
                                     (Some opts) ->
                    saved_consistent (set_saved_verified true x)) as Hs.
  { intros x Hx. right.
    replace (saved (set_saved_verified true x)) with (saved x)
      by (destruct x; reflexivity).
    rewrite Hx. split.
    - intros _. simpl. discriminate.
    - right. exists e, (data_pkt data), opts. auto. }
  destruct na as [na|]; [destruct ad as [ad|]|].
  - destruct (lease_times _ _ _ _) as [[[t1 t2] p] v].
    apply Hs. reflexivity.
  - apply sc_set_fault_true.
  - apply Hs. reflexivity.
Qed.
Lemma sc_MakePacket e c :
  saved_consistent c -> saved_consistent (DHCPv6ClientMakePacket e c).
Proof. sc_unfold DHCPv6ClientMakePacket. Qed.
#[local] Hint Resolve sc_Inactive sc_LeaseStillValid sc_SavePacket
  sc_MakePacket : sc.

Lemma sc_SendInform e c :
  saved_consistent c -> saved_consistent (DHCPv6ClientSendInform e c).
Proof. sc_unfold DHCPv6ClientSendInform. Qed.
Lemma sc_SendSolicit e c :
  saved_consistent c -> saved_consistent (DHCPv6ClientSendSolicit e c).
Proof. sc_unfold DHCPv6ClientSendSolicit. Qed.
Lemma sc_SendPacket e c :
  saved_consistent c -> saved_consistent (DHCPv6ClientSendPacket e c).
Proof. sc_unfold DHCPv6ClientSendPacket. Qed.
#[local] Hint Resolve sc_SendInform sc_SendSolicit sc_SendPacket : sc.

Lemma sc_not_a_match e mt data c :
  saved_consistent c -> saved_consistent (snd (not_a_match e mt data c)).
Proof.
  intros. unfold not_a_match.
  destruct (negb _); [exact H|]. destruct (negb _); [exact H|].
  pose proof (sc_S_duid_matches e (data_options data) c H) as Hd.
  destruct (S_duid_matches e (data_options data) c). exact Hd.
Qed.
#[local] Hint Resolve sc_not_a_match : sc.

Lemma sc_InformComplete_start c :
  saved_consistent c -> saved_consistent (DHCPv6Client_InformComplete_start c).
Proof. sc_unfold DHCPv6Client_InformComplete_start. Qed.
#[local] Hint Resolve sc_InformComplete_start : sc.

Lemma sc_random_timer e lo hi f a c :
  saved_consistent c ->
  saved_consistent
    (let (d, n) := random_double_in_range e lo hi (rng c) in
     timer_callout_set d f a (set_rng n c)).
Proof.
  intros. destruct (random_double_in_range e lo hi (rng c)). sc_go.
Qed.

Lemma sc_Inform_timeout e c :
  saved_consistent c -> saved_consistent (DHCPv6Client_Inform_timeout e c).
Proof. sc_unfold DHCPv6Client_Inform_timeout. Qed.
#[local] Hint Resolve sc_Inform_timeout : sc.

Lemma sc_Inform_start e c :
  saved_consistent c -> saved_consistent (DHCPv6Client_Inform_start e c).
Proof.
  intros. unfold DHCPv6Client_Inform_start. cbv zeta.
  destruct (negb (if_is_cellular e)); [apply sc_random_timer|]; sc_go.
Qed.

Lemma sc_Inform_data e data c :
  saved_consistent c -> saved_consistent (DHCPv6Client_Inform_data e data c).
Proof. sc_unfold DHCPv6Client_Inform_data. Qed.

Lemma sc_Release_start e c :
  saved_consistent c -> saved_consistent (DHCPv6Client_Release_start e c).
Proof. sc_unfold DHCPv6Client_Release_start. Qed.

Lemma sc_Solicit_start e c :
  saved_consistent c -> saved_consistent (DHCPv6Client_Solicit_start e c).
Proof.
  intros. unfold DHCPv6Client_Solicit_start. cbv zeta.
  apply sc_random_timer. sc_go.
Qed.
#[local] Hint Resolve sc_Inform_start sc_Inform_data sc_Release_start
  sc_Solicit_start : sc.

Lemma sc_Request_timeout e c :
  saved_consistent c -> saved_consistent (DHCPv6Client_Request_timeout e c).
Proof. sc_unfold DHCPv6Client_Request_timeout. Qed.
#[local] Hint Resolve sc_Request_timeout : sc.

Lemma sc_Request_start e c :
  saved_consistent c -> saved_consistent (DHCPv6Client_Request_start e c).
Proof. sc_unfold DHCPv6Client_Request_start. Qed.
#[local] Hint Resolve sc_Request_start : sc.

Lemma sc_Solicit_timeout e c :
  saved_consistent c -> saved_consistent (DHCPv6Client_Solicit_timeout e c).
Proof. sc_unfold DHCPv6Client_Solicit_timeout. Qed.

Lemma sc_Decline_timeout e c :
  saved_consistent c -> saved_consistent (DHCPv6Client_Decline_timeout e c).
Proof. sc_unfold DHCPv6Client_Decline_timeout. Qed.
#[local] Hint Resolve sc_Solicit_timeout sc_Decline_timeout : sc.

Lemma sc_Decline_start e c :
  saved_consistent c -> saved_consistent (DHCPv6Client_Decline_start e c).
Proof. sc_unfold DHCPv6Client_Decline_start. Qed.

Lemma sc_Decline_data e data c :
  saved_consistent c -> saved_consistent (DHCPv6Client_Decline_data e data c).
Proof. sc_unfold DHCPv6Client_Decline_data. Qed.

Lemma sc_Unbound_start e c :
  saved_consistent c -> saved_consistent (DHCPv6Client_Unbound_start e c).
Proof. sc_unfold DHCPv6Client_Unbound_start. Qed.
#[local] Hint Resolve sc_Decline_start sc_Decline_data sc_Unbound_start : sc.

Lemma sc_RenewRebind_timeout e c :
  saved_consistent c ->
  saved_consistent (DHCPv6Client_RenewRebind_timeout e c).
Proof.
  intros. unfold DHCPv6Client_RenewRebind_timeout. cbv zeta.
  pose proof (sc_LeaseStillValid e (time_at_RenewRebind e) c H) as Hl.
  destruct (DHCPv6ClientLeaseStillValid e (time_at_RenewRebind e) c)
    as [ok c1]. cbn [snd] in Hl.
  destruct (negb ok); [sc_go|].
  match goal with
  | |- context [let (_, _) := ?x in _] =>
      assert (saved_consistent (snd x)) as Hw; [|destruct x as [w c2]]
  end.
  { destruct (double_to_uint32 _ <? lease_t2 (lease c1)).
    - sc_pair. cbn [snd]. sc_go.
    - sc_pair. cbn [snd]. sc_go. }
  cbn [snd] in Hw. sc_go.
Qed.
#[local] Hint Resolve sc_RenewRebind_timeout : sc.

Lemma sc_RenewRebind_start e c :
  saved_consistent c -> saved_consistent (DHCPv6Client_RenewRebind_start e c).
Proof. sc_unfold DHCPv6Client_RenewRebind_start. Qed.

Lemma sc_schedule_renew now tss c :
  saved_consistent c -> saved_consistent (schedule_renew now tss c).
Proof. sc_unfold schedule_renew. Qed.
#[local] Hint Resolve sc_RenewRebind_start sc_schedule_renew : sc.

Lemma sc_address_scan e l c :
  saved_consistent c -> saved_consistent (address_scan e l c).
Proof.
  revert c. induction l as [|scan rest IH]; intros c H; simpl; [exact H|].
  destruct (IN6_ARE_ADDR_EQUAL _ _); [|apply IH; exact H]. sc_go.
Qed.
#[local] Hint Resolve sc_address_scan : sc.

Lemma sc_HandleAddressChanged e l c :
  saved_consistent c ->
  saved_consistent (DHCPv6ClientHandleAddressChanged e l c).
Proof.
  intros. unfold DHCPv6ClientHandleAddressChanged.
  destruct l; [exact H|]. destruct (negb _); sc_go.
Qed.
#[local] Hint Resolve sc_HandleAddressChanged : sc.

Lemma sc_SimulateAddressChanged e c :
  saved_consistent c ->
  saved_consistent (DHCPv6ClientSimulateAddressChanged e c).
Proof. sc_unfold DHCPv6ClientSimulateAddressChanged. Qed.
#[local] Hint Resolve sc_SimulateAddressChanged : sc.

Lemma sc_Bound_set_address e ip tss v p c :
  saved_consistent c -> saved_consistent (Bound_set_address e ip tss v p c).
Proof. sc_unfold Bound_set_address. Qed.
#[local] Hint Resolve sc_Bound_set_address : sc.

Lemma sc_Bound_start e c :
  saved_consistent c -> saved_consistent (DHCPv6Client_Bound_start e c).
Proof.
  intros H. unfold DHCPv6Client_Bound_start.
  destruct (ia_addr c) as [ia|] eqn:Eia; [|apply sc_set_fault_true].
  cbv zeta.
  set (c1 := DHCPv6ClientCancelPendingEvents
               (set_saved_verified true
                  (set_lease_valid true
                     (DHCPv6ClientSetState kDHCPv6ClientStateBound c)))).
  assert (saved_consistent c1) as H1.
  { unfold saved_consistent in *. subst c1. simpl.
    destruct H as [H|[H Hf]]; [tauto|]. right. split; [|exact Hf].
    intros _. apply H. left. congruence. }
  clearbody c1. sc_go.
Qed.
#[local] Hint Resolve sc_Bound_start : sc.

Lemma sc_RenewRebind_data e data c :
  saved_consistent c ->
  saved_consistent (DHCPv6Client_RenewRebind_data e data c).
Proof. sc_unfold DHCPv6Client_RenewRebind_data. Qed.

Lemma sc_Confirm_start e c :
  saved_consistent c -> saved_consistent (DHCPv6Client_Confirm_start e c).
Proof.
  intros. unfold DHCPv6Client_Confirm_start. cbv zeta.
  apply sc_random_timer. sc_go.
Qed.
#[local] Hint Resolve sc_RenewRebind_data sc_Confirm_start : sc.

Lemma sc_Confirm_timeout e c :
  saved_consistent c -> saved_consistent (DHCPv6Client_Confirm_timeout e c).
Proof. sc_unfold DHCPv6Client_Confirm_timeout. Qed.

Lemma sc_Confirm_data e data c :
  saved_consistent c -> saved_consistent (DHCPv6Client_Confirm_data e data c).
Proof. sc_unfold DHCPv6Client_Confirm_data. Qed.

Lemma sc_Request_data e data c :
  saved_consistent c -> saved_consistent (DHCPv6Client_Request_data e data c).
Proof.
  intros. unfold DHCPv6Client_Request_data.
  sc_pair.
  match goal with |- context [if ?b then _ else _] => destruct b end; [sc_go|].
  destruct (server_id_missing_or_invalid e data); [sc_go|].
  destruct (DHCPv6OptionListGetStatusCode e (data_options data)) as [ok code].
  destruct (negb ok); [sc_go|].
  destruct (code =? kDHCPv6StatusCodeNoAddrsAvail); [sc_go|].
  destruct (get_ia_na_addr_code e (data_options data)) as [[na ad] code2].
  sc_go.
Qed.

Lemma sc_Solicit_data e data c :
  saved_consistent c -> saved_consistent (DHCPv6Client_Solicit_data e data c).
Proof. sc_unfold DHCPv6Client_Solicit_data. Qed.
#[local] Hint Resolve sc_Confirm_timeout sc_Confirm_data sc_Request_data
  sc_Solicit_data : sc.

Lemma sc_call_event_func e f ev d c :
  saved_consistent c -> saved_consistent (call_event_func e f ev d c).
Proof.
  intros. destruct f; simpl;
    [ unfold DHCPv6Client_Inform | unfold DHCPv6Client_Decline
    | unfold DHCPv6Client_RenewRebind | unfold DHCPv6Client_Confirm
    | unfold DHCPv6Client_Request | unfold DHCPv6Client_Solicit ];
    destruct ev; unfold with_data; try destruct d; sc_go.
Qed.
#[local] Hint Resolve sc_call_event_func : sc.

Lemma sc_HandleWake e le c :
  saved_consistent c -> saved_consistent (DHCPv6ClientHandleWake e le c).
Proof. sc_unfold DHCPv6ClientHandleWake. Qed.

Lemma sc_Start e a p c :
  saved_consistent c -> saved_consistent (DHCPv6ClientStart e a p c).
Proof. sc_unfold DHCPv6ClientStart. Qed.

Lemma sc_Stop e d c :
  saved_consistent c -> saved_consistent (DHCPv6ClientStop e d c).
Proof. sc_unfold DHCPv6ClientStop. Qed.

Lemma sc_confirm_if_bound e c :
  saved_consistent c -> saved_consistent (confirm_if_bound e c).
Proof. sc_unfold confirm_if_bound. Qed.
#[local] Hint Resolve sc_HandleWake sc_Start sc_Stop sc_confirm_if_bound : sc.

Lemma sc_HandleEvent e ev c :
  saved_consistent c -> saved_consistent (DHCPv6ClientHandleEvent e ev c).
Proof.
  intros. unfold DHCPv6ClientHandleEvent.
  destruct (mode c); try exact H. destruct ev; sc_go.
Qed.

Lemma sc_step e i c : saved_consistent c -> saved_consistent (step e i c).
Proof.
  intros. unfold step. destruct (fault c); [exact H|].
  destruct i; simpl.
  - unfold DHCPv6ClientSetNotificationCallBack. sc_go.
  - apply sc_Start; exact H.
  - apply sc_Stop; exact H.
  - apply sc_HandleEvent; exact H.
  - unfold timer_fire. destruct (timer c); sc_go.
  - unfold socket_receive. destruct (sock_receive c); sc_go.
Qed.

(** Every client that can arise satisfies the invariant. *)
Lemma reachable_saved_consistent c : reachable c -> saved_consistent c.
Proof.
  induction 1.
  - right. simpl. split.
    + intros [H|H]; [congruence|discriminate].
    + left. reflexivity.
  - apply sc_step. assumption.
Qed.

(** ** get_info *)

Lemma DHCPv6ClientSavePacket_saved (e : Env) (data : DHCPv6SocketReceiveData)
    (c : DHCPv6Client) :
  saved (DHCPv6ClientSavePacket e data c)
  = mkInfo (Some (data_pkt data)) (data_pkt_len data)
           (DHCPv6OptionListCreateWithPacket e (data_pkt data)).
Proof.
  unfold DHCPv6ClientSavePacket. cbv zeta. cbn [saved options set_saved].
  destruct (DHCPv6OptionListCreateWithPacket e (data_pkt data)) as [opts|];
    [|reflexivity].
  destruct (get_ia_na_addr e opts) as [na ad].
  cbn [ia_na ia_addr set_ia_na set_ia_addr].
  destruct na as [na|]; [destruct ad as [ad|]|]; try reflexivity.
  destruct (lease_times _ _ _ _) as [[[t1 t2] p] v]. reflexivity.
Qed.

(** C7.  For every client that can arise (and has not crashed): get_info
    returns no info (NULL packet, zero length, NULL options) when
    saved_verified is false; when saved_verified is true it returns true with
    exactly what is saved, which is the bytes of the packet that
    DHCPv6ClientSavePacket last stored together with the option list parsed
    from them; so its result is non-empty if and only if saved_verified is
    true. *)
Theorem DHCPv6ClientGetInfo_iff_saved_verified (c : DHCPv6Client) :
  reachable c -> fault c = false ->
  (saved_verified c = false -> DHCPv6ClientGetInfo c = (false, no_info)) /\
  (saved_verified c = true ->
   DHCPv6ClientGetInfo c = (true, saved c) /\
   exists e p opts,
     DHCPv6OptionListCreateWithPacket e p = Some opts /\
     saved c = mkInfo (Some p) (Z.of_nat (length p)) (Some opts)) /\
  (fst (DHCPv6ClientGetInfo c) = true <-> saved_verified c = true).
Proof.
  intros Hr Hf. apply reachable_saved_consistent in Hr.
  destruct Hr as [Hr|[Hr Hform]]; [congruence|].
  unfold DHCPv6ClientGetInfo.
  destruct (saved_verified c) eqn:Ev.
  - assert (options (saved c) <> None) as Ho by (apply Hr; right; reflexivity).
    destruct (saved c) as [p l o] eqn:Es. simpl in *.
    destruct o as [opts|]; [|congruence]. simpl.
    split; [discriminate|]. split; [|tauto].
    intros _. split; [reflexivity|].
    destruct Hform as [Hn|(e & p' & o' & Hp & Hs)]; [discriminate|].
    exists e, p', o'. auto.
  - split.
    + intros _. destruct (options (saved c)); reflexivity.
    + split; [discriminate|].
      destruct (options (saved c)); simpl; split; discriminate.
Qed.

Lemma example_advertised_reachable : reachable example_advertised.
Proof.
  unfold example_advertised, example_soliciting.
  repeat (apply reachable_step || apply reachable_create); try exact I.
  vm_compute. reflexivity.
Qed.

Lemma DHCPv6ClientGetInfo_witness :
  reachable example_advertised /\
  fault example_advertised = false /\
  saved_verified example_advertised = true /\
  DHCPv6ClientGetInfo example_advertised = (true, saved example_advertised) /\
  (fst (DHCPv6ClientGetInfo example_advertised) = true <->
   saved_verified example_advertised = true).
Proof.
  split; [exact example_advertised_reachable|].
  split; [reflexivity|]. split; [reflexivity|].
  destruct (DHCPv6ClientGetInfo_iff_saved_verified example_advertised
              example_advertised_reachable eq_refl) as (_ & H & Hiff).
  split; [apply H; reflexivity|exact Hiff].
Defined.

(** ** Message matching *)

Lemma S_duid_matches_spec (e : Env) (o : DHCPv6OptionListRef)
    (c : DHCPv6Client) :
  snd (S_duid_matches e o c) = duid_looked_up e c /\
  (fst (S_duid_matches e o c) = true <->
   get_option o kDHCPv6OPTION_CLIENTID = Some (our_duid e c)).
Proof.
  unfold S_duid_matches, duid_looked_up, our_duid.
  destruct (DHCPv6ClientGetDUID e c) as [d c1]. cbn [fst snd].
  destruct (get_option o kDHCPv6OPTION_CLIENTID) as [duid|].
  2:{ split; [reflexivity|]. simpl. split; discriminate. }
  destruct (Z.eqb_spec (option_len d) (option_len duid)) as [Hl|Hl];
    cbn [negb].
  - destruct (bytes_eqb duid d) eqn:Eb; cbn [negb fst snd].
    + apply bytes_eqb_eq in Eb. subst. split; [reflexivity|tauto].
    + split; [reflexivity|]. split; [discriminate|].
      intros H. inversion H; subst. rewrite bytes_eqb_refl in Eb. discriminate.
  - split; [reflexivity|]. simpl. split; [discriminate|].
    intros H. inversion H; subst. contradiction.
Qed.

Lemma duid_looked_up_fields (e : Env) (c : DHCPv6Client) :
  duid_looked_up e c = c \/
  duid_looked_up e c = set_duid (Some (DHCPDUIDCopy e)) c.
Proof.
  unfold duid_looked_up, DHCPv6ClientGetDUID.
  destruct (private_address c); [destruct (duid c)|]; simpl; auto.
Qed.

Lemma our_duid_looked_up (e : Env) (c : DHCPv6Client) :
  our_duid e (duid_looked_up e c) = our_duid e c.
Proof.
  unfold our_duid, duid_looked_up, DHCPv6ClientGetDUID.
  destruct (private_address c) eqn:Ep.
  - destruct (duid c) eqn:Ed; simpl; rewrite Ep; [rewrite Ed|]; reflexivity.
  - simpl. rewrite Ep. reflexivity.
Qed.

Lemma not_a_match_spec (e : Env) (mt : Z) (data : DHCPv6SocketReceiveData)
    (c : DHCPv6Client) :
  (snd (not_a_match e mt data c) = c \/
   snd (not_a_match e mt data c) = duid_looked_up e c) /\
  (fst (not_a_match e mt data c) = false <->
   pkt_msg_type (data_pkt data) = mt /\
   DHCPv6PacketGetTransactionID (data_pkt data) = transaction_id c /\
   get_option (data_options data) kDHCPv6OPTION_CLIENTID
   = Some (our_duid e c)) /\
  (fst (not_a_match e mt data c) = false ->
   snd (not_a_match e mt data c) = duid_looked_up e c).
Proof.
  unfold not_a_match.
  destruct (Z.eqb_spec (pkt_msg_type (data_pkt data)) mt) as [Ht|Ht];
    cbn [negb].
  2:{ simpl. split; [auto|]. split; [|discriminate].
      split; [discriminate|tauto]. }
  destruct (Z.eqb_spec (DHCPv6PacketGetTransactionID (data_pkt data))
                       (transaction_id c)) as [Hx|Hx]; cbn [negb].
  2:{ simpl. split; [auto|]. split; [|discriminate].
      split; [discriminate|tauto]. }
  destruct (S_duid_matches_spec e (data_options data) c) as [Hs Hm].
  destruct (S_duid_matches e (data_options data) c) as [m c1].
  cbn [fst snd] in *. split; [auto|]. split; [|auto].
  rewrite negb_false_iff. rewrite Hm. tauto.
Qed.

Lemma server_id_missing_or_invalid_spec (e : Env)
    (data : DHCPv6SocketReceiveData) :
  server_id_missing_or_invalid e data = false <->
  exists server_id,
    get_option (data_options data) kDHCPv6OPTION_SERVERID = Some server_id /\
    DHCPDUIDIsValid e server_id = true.
Proof.
  unfold server_id_missing_or_invalid.
  destruct (get_option (data_options data) kDHCPv6OPTION_SERVERID) as [sid|].
  - rewrite negb_false_iff. split.
    + intros H. exists sid. auto.
    + intros (s & Hs & Hv). inversion Hs; subst. exact Hv.
  - split; [discriminate|]. intros (s & Hs & _). discriminate.
Qed.

(** Either test of the receive prologue fails exactly when the message
    fails the matching rules. *)
Lemma prologue_rejects (e : Env) (func : EventFunc)
    (data : DHCPv6SocketReceiveData) (c : DHCPv6Client) :
  fails_matching e func data c ->
  fst (not_a_match e (expected_msg_type func) data c) = true \/
  server_id_missing_or_invalid e data = true.
Proof.
  intros Hf.
  destruct (fst (not_a_match e (expected_msg_type func) data c)) eqn:En;
    [auto|].
  destruct (server_id_missing_or_invalid e data) eqn:Es; [auto|].
  exfalso.
  apply (proj1 (proj2 (not_a_match_spec e _ data c))) in En.
  destruct En as (Ht & Hx & Hc).
  apply server_id_missing_or_invalid_spec in Es.
  destruct Es as (sid & Hs & Hv).
  destruct Hf as [H|[H|[H|[H|(s & H & Hi)]]]]; try contradiction;
    congruence.
Qed.

Lemma data_case_ignores (e : Env) (func : EventFunc)
    (data : DHCPv6SocketReceiveData) (c : DHCPv6Client) :
  fails_matching e func data c ->
  call_event_func e func IFEventID_data_e (Some data) c
  = snd (not_a_match e (expected_msg_type func) data c).
Proof.
  intros Hf. apply prologue_rejects in Hf.
  destruct func; simpl in *;
    [ unfold DHCPv6Client_Inform_data | unfold DHCPv6Client_Decline_data
    | unfold DHCPv6Client_RenewRebind_data | unfold DHCPv6Client_Confirm_data
    | unfold DHCPv6Client_Request_data | unfold DHCPv6Client_Solicit_data ];
    match goal with
    | |- context [not_a_match e ?mt data c] =>
        destruct (not_a_match e mt data c) as [nm c1]
    end; cbn [fst snd] in *;
    (destruct nm; [reflexivity|]);
    (destruct Hf as [Hf|Hf]; [discriminate|]); rewrite Hf; reflexivity.
Qed.

(** C2.  A received message that fails the matching rules of the receive
    handler in force (message type other than the one it accepts, transaction
    id other than the client's, CLIENTID option absent or not equal to the
    client's DUID, SERVERID option absent or not a valid DUID) leaves the
    state, the lease, the saved packet and the assigned address as they
    were, with the rest of the client apart from the cached DUID; no state
    is entered, no timer touched and nothing sent.  In a state with no
    receive handler no message is delivered at all. *)
Theorem unmatched_message_ignored (e : Env) (data : DHCPv6SocketReceiveData)
    (c : DHCPv6Client) :
  (forall func, sock_receive c = Some func -> fails_matching e func data c) ->
  let c' := socket_receive e data c in
  cstate c' = cstate c /\ lease c' = lease c /\ saved c' = saved c /\
  saved_verified c' = saved_verified c /\ our_ip c' = our_ip c /\
  our_prefix_length c' = our_prefix_length c /\
  trace c' = trace c /\ timer c' = timer c /\
  sock_receive c' = sock_receive c /\
  transaction_id c' = transaction_id c /\ fault c' = fault c /\
  (c' = c \/ c' = duid_looked_up e c).
Proof.
  intros Hf. unfold socket_receive. cbv zeta.
  assert (forall x, x = c \/ x = duid_looked_up e c ->
            cstate x = cstate c /\ lease x = lease c /\ saved x = saved c /\
            saved_verified x = saved_verified c /\ our_ip x = our_ip c /\
            our_prefix_length x = our_prefix_length c /\
            trace x = trace c /\ timer x = timer c /\
            sock_receive x = sock_receive c /\
            transaction_id x = transaction_id c /\ fault x = fault c /\
            (x = c \/ x = duid_looked_up e c)) as Hsame.
  { intros x Hx.
    assert (x = c \/ x = set_duid (Some (DHCPDUIDCopy e)) c) as Hx'.
    { destruct Hx as [Hx|Hx]; [auto|].
      destruct (duid_looked_up_fields e c) as [H|H]; rewrite H in Hx; auto. }
    destruct Hx' as [Hx'|Hx']; subst x; simpl; repeat split; auto;
      rewrite <- Hx'; auto. }
  destruct (sock_receive c) as [func|] eqn:Er.
  - rewrite (data_case_ignores e func data c (Hf func eq_refl)).
    apply Hsame. apply (proj1 (not_a_match_spec e _ data c)).
  - apply Hsame. auto.
Qed.

Lemma unmatched_message_ignored_witness :
  let c' := socket_receive env_wired example_stray_advertise
                           example_soliciting in
  cstate c' = kDHCPv6ClientStateSolicit /\
  cstate c' = cstate example_soliciting /\
  lease c' = lease example_soliciting /\
  saved c' = saved example_soliciting /\
  our_ip c' = our_ip example_soliciting.
Proof.
  assert (forall func, sock_receive example_soliciting = Some func ->
            fails_matching env_wired func example_stray_advertise
                           example_soliciting) as Hf.
  { intros func H. vm_compute in H. inversion H; subst func.
    right. left. vm_compute. discriminate. }
  destruct (unmatched_message_ignored env_wired example_stray_advertise
              example_soliciting Hf) as (Hs & Hl & Hp & _ & Hip & _).
  cbv zeta. split; [|tauto].
  rewrite Hs. reflexivity.
Defined.

(** No run of messages that all fail the matching rules moves the client. *)
Lemma unmatched_messages_ignored (e : Env)
    (msgs : list DHCPv6SocketReceiveData) (c : DHCPv6Client) :
  Forall (fun data => forall func, sock_receive c = Some func ->
                                   fails_matching e func data c) msgs ->
  let c' := receive_all e msgs c in
  cstate c' = cstate c /\ lease c' = lease c /\ saved c' = saved c /\
  our_ip c' = our_ip c /\ trace c' = trace c.
Proof.
  unfold receive_all. revert c.
  induction msgs as [|data msgs IH]; intros c Hall; simpl.
  - auto.
  - inversion Hall as [|? ? Hd Hrest]; subst.
    destruct (unmatched_message_ignored e data c Hd)
      as (Hs & Hl & Hp & _ & Hip & _ & Htr & _ & Hr & Hx & _ & Hc).
    cbv zeta in *.
    set (c1 := socket_receive e data c) in *.
    assert (our_duid e c1 = our_duid e c) as Hduid.
    { destruct Hc as [Hc|Hc]; rewrite Hc;
        [reflexivity|apply our_duid_looked_up]. }
    assert (Forall (fun data => forall func, sock_receive c1 = Some func ->
                                   fails_matching e func data c1) msgs) as Hall1.
    { eapply Forall_impl; [|exact Hrest]. cbv beta. intros d Hd' func Hfunc.
      rewrite Hr in Hfunc. specialize (Hd' func Hfunc).
      unfold fails_matching in *. rewrite Hx, Hduid. exact Hd'. }
    destruct (IH c1 Hall1) as (Hs' & Hl' & Hp' & Hip' & Htr').
    repeat split; congruence.
Qed.

(** ** Lease times *)

Lemma Qfloor_half (p : Z) : Qfloor (inject_Z p * (5 # 10)) = p * 5 / 10.
Proof. reflexivity. Qed.

Lemma Qfloor_four_fifths (p : Z) : Qfloor (inject_Z p * (8 # 10)) = p * 8 / 10.
Proof. reflexivity. Qed.

Lemma double_to_uint32_scaled (p : Z) (q : Q) :
  0 <= p -> (0 <= q <= 1)%Q -> p <= UINT32_MAX ->
  double_to_uint32 (inject_Z p * q) = Qfloor (inject_Z p * q).
Proof.
  intros Hp [Hq0 Hq1] Hmax. unfold double_to_uint32, UINT32_MAX in *.
  assert (0 <= inject_Z p)%Q as Hp'.
  { change (inject_Z 0 <= inject_Z p)%Q. rewrite <- Zle_Qle. exact Hp. }
  assert (0 <= inject_Z p * q)%Q as Hpos by (apply Qmult_le_0_compat; auto).
  assert (inject_Z p * q <= inject_Z p)%Q as Hle.
  { rewrite <- (Qmult_1_r (inject_Z p)) at 2.
    rewrite (Qmult_comm (inject_Z p) q), (Qmult_comm (inject_Z p) 1).
    apply Qmult_le_compat_r; auto. }
  apply Qle_bool_iff in Hpos as Hb. rewrite Hb.
  apply Z.mod_small. split.
  - change 0 with (Qfloor 0). apply Qfloor_resp_le. exact Hpos.
  - apply Qfloor_resp_le in Hle. rewrite Qfloor_Z in Hle. lia.
Qed.

(** The computation of DHCPv6ClientSavePacket is the four steps in order. *)
Lemma lease_times_is_in_order (t1 t2 preferred valid : Z) :
  0 <= preferred <= UINT32_MAX -> 0 <= valid <= UINT32_MAX ->
  lease_times t1 t2 preferred valid
  = lease_times_in_order t1 t2 preferred valid.
Proof.
  intros Hp Hv. unfold lease_times, lease_times_in_order.
  set (p := if preferred =? 0 then valid else preferred).
  assert (0 <= p <= UINT32_MAX) as Hp'
      by (subst p; destruct (preferred =? 0); assumption).
  clearbody p.
  assert (double_to_uint32 (inject_Z p * (5 # 10))
          = Qfloor (inject_Z p * (5 # 10))) as H5.
  { apply double_to_uint32_scaled; try lia. split; discriminate. }
  assert (double_to_uint32 (inject_Z p * (8 # 10))
          = Qfloor (inject_Z p * (8 # 10))) as H8.
  { apply double_to_uint32_scaled; try lia. split; discriminate. }
  rewrite H5, H8. rewrite Qfloor_half, Qfloor_four_fifths.
  unfold UINT32_MAX, DHCP_INFINITE_LEASE in *.
  destruct ((t1 =? 0) || (t2 =? 0)) eqn:Ez.
  - destruct (Z.eqb_spec p 4294967295) as [Hi|Hi].
    + simpl. destruct (valid =? 4294967295); reflexivity.
    + assert (p * 5 / 10 <> 4294967295 /\ p * 8 / 10 <> 4294967295) as [Ha Hb]
        by (split; Z.to_euclidean_division_equations; lia).
      apply Z.eqb_neq in Ha, Hb. rewrite Ha, Hb. simpl.
      destruct (valid =? 4294967295); reflexivity.
  - destruct ((t1 =? 4294967295) || (t2 =? 4294967295)); simpl.
    + reflexivity.
    + destruct (valid =? 4294967295); reflexivity.
Qed.

(** The consequences for the times of a lease: T1 <= T2 when both are
    nonzero, and an INFINITE valid lifetime has T1 = T2 = 0. *)
Lemma lease_times_in_order_bounds (t1 t2 preferred valid : Z) :
  ~ (t1 <> 0 /\ t2 <> 0 /\ t1 > t2) ->
  0 <= preferred <= UINT32_MAX -> 0 <= valid <= UINT32_MAX ->
  let '(t1', t2', _, valid') :=
    lease_times_in_order t1 t2 preferred valid in
  (t1' <> 0 -> t2' <> 0 -> t1' <= t2') /\
  (valid' = DHCP_INFINITE_LEASE -> t1' = 0 /\ t2' = 0).
Proof.
  intros Hs Hp Hv. unfold lease_times_in_order.
  set (p := if preferred =? 0 then valid else preferred).
  assert (0 <= p <= UINT32_MAX) as Hp'
      by (subst p; destruct (preferred =? 0); assumption).
  clearbody p. rewrite Qfloor_half, Qfloor_four_fifths.
  unfold UINT32_MAX, DHCP_INFINITE_LEASE in *.
  destruct ((t1 =? 0) || (t2 =? 0)) eqn:Ez.
  - destruct (Z.eqb_spec p 4294967295) as [Hi|Hi].
    + simpl. destruct (Z.eqb_spec valid 4294967295); split; intros; lia.
    + assert (p * 5 / 10 <> 4294967295 /\ p * 8 / 10 <> 4294967295) as [Ha Hb]
        by (split; Z.to_euclidean_division_equations; lia).
      apply Z.eqb_neq in Ha, Hb. rewrite Ha, Hb. simpl.
      destruct (Z.eqb_spec valid 4294967295); split; intros; try lia.
      Z.to_euclidean_division_equations; lia.
  - apply orb_false_iff in Ez. destruct Ez as [E1 E2].
    apply Z.eqb_neq in E1, E2.
    destruct ((t1 =? 4294967295) || (t2 =? 4294967295)); simpl.
    + split; intros; lia.
    + destruct (Z.eqb_spec valid 4294967295); split; intros; lia.
Qed.

Lemma DHCPv6ClientSavePacket_lease (e : Env) (data : DHCPv6SocketReceiveData)
    (c : DHCPv6Client) (opts : DHCPv6OptionListRef) (na ad : list byte) :
  DHCPv6OptionListCreateWithPacket e (data_pkt data) = Some opts ->
  get_ia_na_addr e opts = (Some na, Some ad) ->
  let c' := DHCPv6ClientSavePacket e data c in
  stored_times c' = lease_times (DHCPv6OptionIA_NAGetT1 na)
                                (DHCPv6OptionIA_NAGetT2 na)
                                (DHCPv6OptionIAADDRGetPreferredLifetime ad)
                                (DHCPv6OptionIAADDRGetValidLifetime ad) /\
  lease_start (lease c') = timer_get_current_time e /\
  lease_valid (lease c') = false /\
  lease_ssid (lease c') = ServiceGetSSID e /\
  saved_verified c' = true /\ fault c' = fault c /\
  ia_na c' = Some na /\ ia_addr c' = Some ad /\
  server_id c' = get_option opts kDHCPv6OPTION_SERVERID /\
  cstate c' = cstate c /\ try_ c' = try_ c /\ trace c' = trace c /\
  our_ip c' = our_ip c /\ transaction_id c' = transaction_id c /\
  timer c' = timer c /\ sock_receive c' = sock_receive c.
Proof.
  intros Hp Hg. unfold DHCPv6ClientSavePacket, stored_times. cbv zeta.
  cbn [saved options set_saved]. rewrite Hp. rewrite Hg.
  cbn [ia_na ia_addr set_ia_na set_ia_addr].
  destruct (lease_times _ _ _ _) as [[[t1 t2] p] v].
  simpl. repeat split; reflexivity.
Qed.

(** C3 (amended).  When a packet whose options hold a usable IA_NA and
    IAADDR is saved, the stored T1, T2, preferred_lifetime and valid_lifetime
    are the received ones after, in order: (1) a preferred_lifetime of 0
    becomes valid_lifetime; (2) if T1 or T2 is 0, both become 0 when
    preferred_lifetime is INFINITE and otherwise floor(preferred * 0.5) and
    floor(preferred * 0.8); (3) if T1 or T2 is INFINITE, T1 = T2 = 0 and
    preferred = valid = INFINITE; (4) if valid_lifetime is INFINITE,
    T1 = T2 = 0 and preferred_lifetime = INFINITE.  The lease starts at the
    current time.  The stored T1 <= T2 when both are nonzero, and an INFINITE
    stored valid_lifetime has T1 = T2 = 0. *)
Theorem DHCPv6ClientSavePacket_lease_times (e : Env)
    (data : DHCPv6SocketReceiveData) (c : DHCPv6Client)
    (opts : DHCPv6OptionListRef) (na ad : list byte) :
  DHCPv6OptionListCreateWithPacket e (data_pkt data) = Some opts ->
  get_ia_na_addr e opts = (Some na, Some ad) ->
  let c' := DHCPv6ClientSavePacket e data c in
  stored_times c' = times_in_order (received_times na ad) /\
  lease_start (lease c') = timer_get_current_time e /\
  saved_verified c' = true /\
  (lease_t1 (lease c') <> 0 -> lease_t2 (lease c') <> 0 ->
   lease_t1 (lease c') <= lease_t2 (lease c')) /\
  (lease_valid_lifetime (lease c') = DHCP_INFINITE_LEASE ->
   lease_t1 (lease c') = 0 /\ lease_t2 (lease c') = 0).
Proof.
  intros Hp Hg.
  destruct (DHCPv6ClientSavePacket_lease e data c opts na ad Hp Hg)
    as (Ht & Hs & _ & _ & Hv & _).
  cbv zeta in *.
  destruct (get_ia_na_addr_Some e opts na (Some ad) Hg) as (ad' & Had & Hu).
  inversion Had; subst ad'. destruct Hu as (_ & _ & Hsane & _).
  pose proof (net_uint32_get_range ad 16) as Rp.
  pose proof (net_uint32_get_range ad 20) as Rv.
  fold (DHCPv6OptionIAADDRGetPreferredLifetime ad) in Rp.
  fold (DHCPv6OptionIAADDRGetValidLifetime ad) in Rv.
  rewrite lease_times_is_in_order in Ht by assumption.
  pose proof (lease_times_in_order_bounds _ _ _ _ Hsane Rp Rv) as Hb.
  unfold times_in_order, received_times.
  rewrite <- Ht in Hb. unfold stored_times in *. cbv beta iota in Hb.
  destruct Hb as [Hb1 Hb2].
  repeat split; auto; apply Hb2; assumption.
Qed.

Lemma DHCPv6ClientSavePacket_lease_times_witness :
  let c' := DHCPv6ClientSavePacket env_wired example_infinite_reply
                                   DHCPv6ClientCreate in
  stored_times c'
  = (0, 0, DHCP_INFINITE_LEASE, DHCP_INFINITE_LEASE) /\
  stored_times c'
  = times_in_order (10, 20, 100, DHCP_INFINITE_LEASE) /\
  saved_verified c' = true.
Proof.
  destruct (DHCPv6ClientSavePacket_lease_times env_wired
              example_infinite_reply DHCPv6ClientCreate
              (data_options example_infinite_reply)
              (ia_na_value 1 10 20
                 [mkOption kDHCPv6OPTION_IAADDR
                    (iaaddr_value example_addr 100 DHCP_INFINITE_LEASE)])
              (iaaddr_value example_addr 100 DHCP_INFINITE_LEASE))
    as (Ht & _ & Hv & _).
  - vm_compute. reflexivity.
  - vm_compute. reflexivity.
  - cbv zeta. split; [|split; [|exact Hv]].
    + rewrite Ht. vm_compute. reflexivity.
    + rewrite Ht. vm_compute. reflexivity.
Defined.

(** C3 as stated fails: for T1 = 10, T2 = 20, preferred = 100 and an
    INFINITE valid lifetime the four steps of the claim keep preferred = 100,
    and the stored preferred_lifetime is INFINITE. *)
Lemma lease_times_as_stated_counterexample :
  let c' := DHCPv6ClientSavePacket env_wired example_infinite_reply
                                   DHCPv6ClientCreate in
  get_ia_na_addr env_wired (data_options example_infinite_reply)
  = (Some (ia_na_value 1 10 20
             [mkOption kDHCPv6OPTION_IAADDR
                (iaaddr_value example_addr 100 DHCP_INFINITE_LEASE)]),
     Some (iaaddr_value example_addr 100 DHCP_INFINITE_LEASE)) /\
  received_times
    (ia_na_value 1 10 20
       [mkOption kDHCPv6OPTION_IAADDR
          (iaaddr_value example_addr 100 DHCP_INFINITE_LEASE)])
    (iaaddr_value example_addr 100 DHCP_INFINITE_LEASE)
  = (10, 20, 100, DHCP_INFINITE_LEASE) /\
  times_as_stated (10, 20, 100, DHCP_INFINITE_LEASE)
  = (0, 0, 100, DHCP_INFINITE_LEASE) /\
  stored_times c' = (0, 0, DHCP_INFINITE_LEASE, DHCP_INFINITE_LEASE) /\
  stored_times c' <> times_as_stated (10, 20, 100, DHCP_INFINITE_LEASE).
Proof.
  cbv zeta. repeat split; try (vm_compute; reflexivity).
  vm_compute. discriminate.
Qed.

(** ** Fields that a routine leaves alone *)

Ltac same_field :=
  intros;
  repeat match goal with
         | |- context [let (_, _) := ?x in _] => destruct x
         | |- context [if ?b then _ else _] => destruct b
         | |- context [match ?x with _ => _ end] => destruct x
         end;
  reflexivity.

Lemma NextRetransmit_fields (e : Env) (IRT MRT : Q) (c : DHCPv6Client) :
  let c' := snd (DHCPv6ClientNextRetransmit e IRT MRT c) in
  cstate c' = cstate c /\ ia_na c' = ia_na c /\ server_id c' = server_id c /\
  saved c' = saved c /\ lease c' = lease c /\ fault c' = fault c /\
  trace c' = trace c /\ try_ c' = try_ c + 1 /\
  saved_verified c' = saved_verified c /\ our_ip c' = our_ip c /\
  ia_addr c' = ia_addr c /\ timer c' = timer c /\
  sock_receive c' = sock_receive c.
Proof.
  unfold DHCPv6ClientNextRetransmit. cbv zeta.
  destruct (if try_ (set_try_ (try_ c + 1) c) =? 1 then _ else _) as [rt n].
  simpl. repeat split; reflexivity.
Qed.

Lemma cstate_MakePacket (e : Env) (c : DHCPv6Client) :
  cstate (DHCPv6ClientMakePacket e c) = cstate c.
Proof. unfold DHCPv6ClientMakePacket, DHCPv6ClientGetDUID. same_field. Qed.

Lemma cstate_SendPacket (e : Env) (c : DHCPv6Client) :
  cstate (DHCPv6ClientSendPacket e c) = cstate c.
Proof.
  unfold DHCPv6ClientSendPacket.
  destruct (ia_na c); [|reflexivity]. destruct (server_id c); [|reflexivity].
  match goal with
  | |- cstate (match ?m with Some _ => _ | None => _ end) = _ => destruct m
  end; [|reflexivity].
  unfold emit. cbn [cstate set_trace]. apply cstate_MakePacket.
Qed.

Lemma new_transaction_id_fields (e : Env) (c : DHCPv6Client) :
  let c' := new_transaction_id e c in
  cstate c' = cstate c /\ try_ c' = try_ c /\ lease c' = lease c /\
  saved c' = saved c /\ fault c' = fault c /\ trace c' = trace c /\
  our_ip c' = our_ip c /\ ia_na c' = ia_na c /\ server_id c' = server_id c /\
  saved_verified c' = saved_verified c /\ ia_addr c' = ia_addr c /\
  timer c' = timer c /\ sock_receive c' = sock_receive c.
Proof.
  unfold new_transaction_id. destruct (get_new_transaction_id e (rng c)).
  simpl. repeat split; reflexivity.
Qed.

Lemma cstate_Request_start (e : Env) (c : DHCPv6Client) :
  cstate (DHCPv6Client_Request_start e c) = kDHCPv6ClientStateRequest.
Proof.
  unfold DHCPv6Client_Request_start. cbv zeta.
  set (c1 := DHCPv6SocketEnableReceive _ _).
  assert (cstate c1 = kDHCPv6ClientStateRequest /\ try_ c1 = 0) as [Hs Ht].
  { subst c1. unfold DHCPv6SocketEnableReceive.
    cbn [cstate try_ set_sock_receive set_start_time].
    destruct (new_transaction_id_fields e
                (DHCPv6ClientClearRetransmit
                   (DHCPv6ClientSetState kDHCPv6ClientStateRequest c)))
      as (H1 & H2 & _).
    cbv zeta in *. rewrite H1, H2. split; reflexivity. }
  clearbody c1. unfold DHCPv6Client_Request_timeout. rewrite Ht.
  change (0 >=? DHCPv6_REQ_MAX_RC) with false. cbv iota.
  destruct (NextRetransmit_fields e DHCPv6_REQ_TIMEOUT DHCPv6_REQ_MAX_RT c1)
    as (H1 & _).
  destruct (DHCPv6ClientNextRetransmit e DHCPv6_REQ_TIMEOUT DHCPv6_REQ_MAX_RT c1)
    as [rt c2]. cbn [snd] in H1.
  rewrite cstate_SendPacket. unfold timer_callout_set. simpl. congruence.
Qed.

Lemma duid_looked_up_same (e : Env) (c : DHCPv6Client) :
  let c' := duid_looked_up e c in
  cstate c' = cstate c /\ try_ c' = try_ c /\ saved c' = saved c /\
  fault c' = fault c /\ lease c' = lease c /\ trace c' = trace c /\
  our_ip c' = our_ip c /\ saved_verified c' = saved_verified c /\
  transaction_id c' = transaction_id c /\ ia_addr c' = ia_addr c.
Proof.
  cbv zeta. destruct (duid_looked_up_fields e c) as [H|H]; rewrite H;
    simpl; repeat split; reflexivity.
Qed.

(** The prologue of a receive case lets a message through exactly when it
    passes the matching rules; the client then has its DUID looked up. *)
Lemma prologue_accepts (e : Env) (mt : Z) (data : DHCPv6SocketReceiveData)
    (c : DHCPv6Client) :
  passes_matching e mt data c ->
  not_a_match e mt data c = (false, duid_looked_up e c) /\
  server_id_missing_or_invalid e data = false.
Proof.
  intros (Ht & Hx & Hc & Hs).
  destruct (not_a_match_spec e mt data c) as (_ & Hiff & Hsnd).
  assert (fst (not_a_match e mt data c) = false) as Hf by (apply Hiff; auto).
  specialize (Hsnd Hf).
  destruct (not_a_match e mt data c) as [nm c1]. cbn [fst snd] in *.
  subst. split; [reflexivity|].
  apply server_id_missing_or_invalid_spec. exact Hs.
Qed.

Lemma SendPacket_fields (e : Env) (c : DHCPv6Client) :
  let c' := DHCPv6ClientSendPacket e c in
  saved c' = saved c /\ saved_verified c' = saved_verified c /\
  lease c' = lease c /\ fault c' = fault c /\ our_ip c' = our_ip c /\
  ia_addr c' = ia_addr c /\ try_ c' = try_ c.
Proof.
  cbv zeta. unfold DHCPv6ClientSendPacket.
  destruct (ia_na c); [|repeat split; reflexivity].
  destruct (server_id c); [|repeat split; reflexivity].
  match goal with
  | |- context [match ?m with Some _ => _ | None => _ end] => destruct m
  end; [|repeat split; reflexivity].
  unfold emit. cbn [saved saved_verified lease fault our_ip ia_addr try_ set_trace].
  change (DHCPv6ClientMakePacket e c) with (duid_looked_up e c).
  destruct (duid_looked_up_same e c) as (_ & ? & ? & ? & ? & _ & ? & ? & _ & ?).
  repeat split; assumption.
Qed.

Lemma Request_start_fields (e : Env) (c : DHCPv6Client) :
  let c' := DHCPv6Client_Request_start e c in
  saved c' = saved c /\ saved_verified c' = saved_verified c /\
  lease c' = lease c /\ fault c' = fault c /\ our_ip c' = our_ip c.
Proof.
  cbv zeta. unfold DHCPv6Client_Request_start. cbv zeta.
  set (c0 := DHCPv6ClientClearRetransmit
               (DHCPv6ClientSetState kDHCPv6ClientStateRequest c)).
  set (c1 := DHCPv6SocketEnableReceive _ _).
  assert (saved c1 = saved c /\ saved_verified c1 = saved_verified c /\
          lease c1 = lease c /\ fault c1 = fault c /\ our_ip c1 = our_ip c /\
          try_ c1 = 0) as (H1 & H2 & H3 & H4 & H5 & Ht).
  { subst c1. unfold DHCPv6SocketEnableReceive.
    cbn [saved saved_verified lease fault our_ip try_ set_sock_receive
         set_start_time].
    destruct (new_transaction_id_fields e c0)
      as (_ & E2 & E3 & E4 & E5 & _ & E7 & _ & _ & E10 & _).
    cbv zeta in *. rewrite E2, E3, E4, E5, E7, E10. subst c0.
    repeat split; reflexivity. }
  clearbody c1. clear c0. unfold DHCPv6Client_Request_timeout. rewrite Ht.
  change (0 >=? DHCPv6_REQ_MAX_RC) with false. cbv iota.
  destruct (NextRetransmit_fields e DHCPv6_REQ_TIMEOUT DHCPv6_REQ_MAX_RT c1)
    as (_ & _ & _ & E4 & E5 & E6 & _ & _ & E9 & E10 & _).
  destruct (DHCPv6ClientNextRetransmit e DHCPv6_REQ_TIMEOUT DHCPv6_REQ_MAX_RT c1)
    as [rt c2]. cbn [snd] in *.
  destruct (SendPacket_fields e
              (timer_callout_set rt DHCPv6Client_Request_fn
                                 IFEventID_timeout_e c2))
    as (F1 & F2 & F3 & F4 & F5 & _).
  cbv zeta in *. rewrite F1, F2, F3, F4, F5.
  unfold timer_callout_set. cbn [saved saved_verified lease fault our_ip set_timer].
  repeat split; congruence.
Qed.

(** C1 (amended).  In the Solicit state, for a matching ADVERTISE that holds
    a usable IA_NA and IAADDR.  When its top-level STATUS_CODE is malformed
    or is NoAddrsAvail, the message is ignored: nothing is saved and the
    client stays in Solicit.  Otherwise the message is saved if and only if
    none is saved yet or its PREFERENCE value (0 when absent) is strictly
    greater than that of the saved one, and when it is not saved the client
    is left as it is; the client goes to Request at once if and only if the
    message was saved and the client has retransmitted already (try > 1) or
    the preference is 255; in every other case it stays in Solicit. *)
Theorem DHCPv6Client_Solicit_advertise (e : Env)
    (data : DHCPv6SocketReceiveData) (c : DHCPv6Client) (na ad : list byte) :
  cstate c = kDHCPv6ClientStateSolicit -> fault c = false ->
  passes_matching e kDHCPv6MessageADVERTISE data c ->
  well_formed_data e data ->
  get_ia_na_addr e (data_options data) = (Some na, Some ad) ->
  let pref := get_preference_value_from_options (data_options data) in
  let c' := DHCPv6Client_Solicit_data e data c in
  (status_rules_out e data = true ->
   c' = duid_looked_up e c /\ saved c' = saved c /\
   cstate c' = kDHCPv6ClientStateSolicit) /\
  (status_rules_out e data = false ->
   (advertise_is_better data c = true ->
    saved c' = mkInfo (Some (data_pkt data)) (data_pkt_len data)
                      (Some (data_options data)) /\
    saved_verified c' = true) /\
   (advertise_is_better data c = false ->
    c' = duid_looked_up e c /\ saved c' = saved c) /\
   (cstate c' = kDHCPv6ClientStateRequest <->
    advertise_is_better data c = true /\
    (1 < try_ c \/ pref = kDHCPv6OptionPREFERENCEMaxValue)) /\
   (cstate c' <> kDHCPv6ClientStateRequest ->
    cstate c' = kDHCPv6ClientStateSolicit)).
Proof.
  intros Hst Hfault Hm Hwf Hg. cbv zeta.
  unfold DHCPv6Client_Solicit_data, status_rules_out.
  destruct (prologue_accepts e _ data c Hm) as [Hn Hs].
  rewrite Hn, Hs.
  destruct (duid_looked_up_same e c)
    as (D1 & D2 & D3 & D4 & _ & _ & _ & D8 & _).
  cbv zeta in D1, D2, D3, D4, D8.
  set (c1 := duid_looked_up e c) in *.
  destruct (DHCPv6OptionListGetStatusCode e (data_options data))
    as [ok code].
  destruct ok; cbn [negb orb].
  2:{ split; [|discriminate]. intros _. split; [reflexivity|].
      split; congruence. }
  destruct (code =? kDHCPv6StatusCodeNoAddrsAvail).
  { split; [|discriminate]. intros _. split; [reflexivity|].
    split; congruence. }
  split; [discriminate|]. intros _.
  rewrite Hg.
  unfold advertise_is_better. rewrite D3.
  set (pref := get_preference_value_from_options (data_options data)).
  assert (match options (saved c) with
          | Some so => get_preference_value_from_options so >=? pref
          | None => false
          end
          = negb match options (saved c) with
                 | Some so => get_preference_value_from_options so <? pref
                 | None => true
                 end) as Hneg.
  { destruct (options (saved c)); [|reflexivity].
    rewrite Z.geb_leb, Z.ltb_antisym, negb_involutive. reflexivity. }
  rewrite Hneg. clear Hneg.
  destruct (match options (saved c) with
            | Some so => get_preference_value_from_options so <? pref
            | None => true
            end) eqn:Eb; cbn [negb].
  - (* saved *)
    destruct (DHCPv6ClientSavePacket_lease e data c1 _ na ad Hwf Hg)
      as (_ & _ & _ & _ & Sv & Sf & _ & _ & _ & Ss & St & _).
    cbv zeta in Sv, Sf, Ss, St.
    pose proof (DHCPv6ClientSavePacket_saved e data c1) as Hsaved.
    rewrite Hwf in Hsaved.
    set (c2 := DHCPv6ClientSavePacket e data c1) in *.
    rewrite Sf, D4, Hfault. rewrite St, D2.
    destruct ((try_ c >? 1) || (pref =? kDHCPv6OptionPREFERENCEMaxValue))
      eqn:Ego.
    + destruct (Request_start_fields e c2) as (R1 & R2 & _).
      cbv zeta in R1, R2. rewrite cstate_Request_start, R1, R2.
      split; [auto|]. split; [discriminate|]. split; [|congruence].
      split; [|reflexivity]. intros _. split; [reflexivity|].
      apply orb_true_iff in Ego. rewrite Z.gtb_ltb, Z.ltb_lt, Z.eqb_eq in Ego.
      exact Ego.
    + split; [auto|]. split; [discriminate|].
      rewrite Ss, D1, Hst. split; [|reflexivity].
      split; [discriminate|]. intros (_ & Hgo). exfalso.
      apply orb_false_iff in Ego. rewrite Z.gtb_ltb, Z.ltb_ge, Z.eqb_neq in Ego.
      destruct Ego as [E1 E2]. destruct Hgo; [lia|contradiction].
  - (* the saved packet is still better *)
    split; [discriminate|]. split; [auto|].
    rewrite D1, Hst. split; [|reflexivity].
    split; [discriminate|]. intros (H & _). discriminate.
Qed.

Lemma example_advertise_acceptable :
  acceptable_message env_wired kDHCPv6MessageADVERTISE example_advertise
                     example_soliciting kDHCPv6StatusCodeSuccess.
Proof.
  split; [|split]; try (vm_compute; reflexivity).
  split; [|split; [|split]]; try (vm_compute; reflexivity).
  exists example_server_duid. split; vm_compute; reflexivity.
Qed.

Lemma DHCPv6Client_Solicit_advertise_witness :
  let c' := DHCPv6Client_Solicit_data env_wired example_advertise
                                      example_soliciting in
  status_rules_out env_wired example_advertise = false /\
  advertise_is_better example_advertise example_soliciting = true /\
  try_ example_soliciting = 1 /\
  saved c' = mkInfo (Some (data_pkt example_advertise))
                    (data_pkt_len example_advertise)
                    (Some (data_options example_advertise)) /\
  saved_verified c' = true /\
  cstate c' = kDHCPv6ClientStateSolicit.
Proof.
  destruct (DHCPv6Client_Solicit_advertise env_wired example_advertise
              example_soliciting example_ia_na example_ia_addr)
    as (_ & Hgo).
  - vm_compute. reflexivity.
  - vm_compute. reflexivity.
  - exact (proj1 example_advertise_acceptable).
  - vm_compute. reflexivity.
  - vm_compute. reflexivity.
  - destruct Hgo as (Hsave & _ & Hreq & Hsol); [vm_compute; reflexivity|].
    cbv zeta in *. split; [vm_compute; reflexivity|].
    split; [vm_compute; reflexivity|].
    split; [vm_compute; reflexivity|].
    destruct Hsave as [Hs Hv]; [vm_compute; reflexivity|].
    split; [exact Hs|]. split; [exact Hv|].
    apply Hsol. intro Hr. apply Hreq in Hr. destruct Hr as (_ & [H|H]).
    + vm_compute in H. discriminate.
    + vm_compute in H. discriminate.
Defined.

(** An ADVERTISE for [example_soliciting_again] (try = 2) that offers a
    usable address under the top-level status NoAddrsAvail is ignored: the
    client stays in Solicit with nothing saved. *)
Example advertise_with_NoAddrsAvail_ignored :
  let c' := socket_receive env_wired example_advertise_no_addrs
                           example_soliciting_again in
  try_ example_soliciting_again = 2 /\
  get_ia_na_addr env_wired (data_options example_advertise_no_addrs)
  = (Some example_ia_na, Some example_ia_addr) /\
  status_rules_out env_wired example_advertise_no_addrs = true /\
  c' = example_soliciting_again /\
  cstate c' = kDHCPv6ClientStateSolicit /\ saved c' = no_info.
Proof. cbv zeta. repeat split; vm_compute; reflexivity. Qed.

(** C1 as stated fails in both directions.  On the first try (one SOLICIT
    sent) a matching ADVERTISE with a usable address and preference 0 is
    saved and the client stays in Solicit; after a retransmission (try = 2)
    the same ADVERTISE takes the client to Request at once. *)
Lemma to_request_as_stated_counterexample :
  (try_ example_soliciting = 1 /\
   get_preference_value_from_options (data_options example_advertise) = 0 /\
   get_ia_na_addr env_wired (data_options example_advertise)
   = (Some example_ia_na, Some example_ia_addr) /\
   cstate (socket_receive env_wired example_advertise example_soliciting)
   = kDHCPv6ClientStateSolicit /\
   ~ to_request_as_stated env_wired example_advertise example_soliciting)
  /\
  (try_ example_soliciting_again = 2 /\
   transaction_id example_soliciting_again
   = transaction_id example_soliciting /\
   cstate (socket_receive env_wired example_advertise
                          example_soliciting_again)
   = kDHCPv6ClientStateRequest /\
   ~ to_request_as_stated env_wired example_advertise
                          example_soliciting_again).
Proof.
  assert (cstate (socket_receive env_wired example_advertise
                                 example_soliciting)
          = kDHCPv6ClientStateSolicit) as H1 by (vm_compute; reflexivity).
  assert (cstate (socket_receive env_wired example_advertise
                                 example_soliciting_again)
          = kDHCPv6ClientStateRequest) as H2 by (vm_compute; reflexivity).
  split.
  - split; [vm_compute; reflexivity|].
    split; [vm_compute; reflexivity|].
    split; [vm_compute; reflexivity|].
    split; [exact H1|].
    unfold to_request_as_stated. rewrite H1. intros [_ H].
    assert (kDHCPv6ClientStateSolicit = kDHCPv6ClientStateRequest) as Hx.
    { apply H. left. vm_compute. discriminate. }
    discriminate.
  - split; [vm_compute; reflexivity|].
    split; [vm_compute; reflexivity|].
    split; [exact H2|].
    unfold to_request_as_stated. rewrite H2. intros [H _].
    destruct (H eq_refl) as [Ht|Hp].
    + vm_compute in Ht. apply Ht. reflexivity.
    + vm_compute in Hp. discriminate.
Qed.

(** ** Where the start cases end up *)

Ltac is_setter s :=
  lazymatch s with
  | set_callback_rls => idtac | set_callback => idtac | set_our_ip => idtac
  | set_our_prefix_length => idtac | set_mode => idtac | set_cstate => idtac
  | set_sock_receive => idtac | set_timer => idtac
  | set_transaction_id => idtac | set_try_ => idtac | set_start_time => idtac
  | set_retransmit_time => idtac | set_saved => idtac
  | set_saved_verified => idtac | set_server_id => idtac | set_ia_na => idtac
  | set_ia_addr => idtac | set_lease => idtac | set_private_address => idtac
  | set_duid => idtac | set_renew_rebind_time => idtac | set_rng => idtac
  | set_trace => idtac | set_fault => idtac
  end.

(** A field of an updated client is rewritten by an equation that holds for
    every client, so that the client terms themselves are never compared. *)
Ltac field_of p :=
  lazymatch p with
  | callback_rls => constr:(F_callback_rls)
  | callback => constr:(F_callback)
  | our_ip => constr:(F_our_ip)
  | our_prefix_length => constr:(F_our_prefix_length)
  | mode => constr:(F_mode)
  | cstate => constr:(F_cstate)
  | sock_receive => constr:(F_sock_receive)
  | timer => constr:(F_timer)
  | transaction_id => constr:(F_transaction_id)
  | try_ => constr:(F_try)
  | start_time => constr:(F_start_time)
  | retransmit_time => constr:(F_retransmit_time)
  | saved => constr:(F_saved)
  | saved_verified => constr:(F_saved_verified)
  | server_id => constr:(F_server_id)
  | ia_na => constr:(F_ia_na)
  | ia_addr => constr:(F_ia_addr)
  | lease => constr:(F_lease)
  | private_address => constr:(F_private_address)
  | duid => constr:(F_duid)
  | renew_rebind_time => constr:(F_renew_rebind_time)
  | rng => constr:(F_rng)
  | trace => constr:(F_trace)
  | fault => constr:(F_fault)
  end.

Ltac proj_set :=
  match goal with
  | |- context [?p (?s ?v ?x)] =>
      is_setter s;
      let F := field_of p in
      let H := fresh "H" in
      first
        [ assert (H : forall y, p (s v y) = p y) by (intro; reflexivity)
        | assert (H : forall y, p (s v y) = v) by (intro; reflexivity) ];
      rewrite (H x); clear H
  end.

(** The routines that are a fixed sequence of field updates. *)
Ltac unfold_updates :=
  unfold DHCPv6ClientClearPacket, DHCPv6ClientClearLease,
    DHCPv6ClientCancelPendingEvents, DHCPv6ClientSetState,
    DHCPv6ClientClearRetransmit, DHCPv6ClientSetSSID, set_lease_valid,
    DHCPv6SocketEnableReceive, DHCPv6SocketDisableReceive,
    timer_callout_set, timer_cancel, emit.

Ltac fields := cbv zeta; unfold_updates; cbv zeta; repeat proj_set.

Lemma cstate_Solicit_start (e : Env) (c : DHCPv6Client) :
  cstate (DHCPv6Client_Solicit_start e c) = kDHCPv6ClientStateSolicit /\
  our_ip (DHCPv6Client_Solicit_start e c) = our_ip c /\
  saved (DHCPv6Client_Solicit_start e c) = no_info /\
  saved_verified (DHCPv6Client_Solicit_start e c) = false /\
  try_ (DHCPv6Client_Solicit_start e c) = 0 /\
  fault (DHCPv6Client_Solicit_start e c) = fault c /\
  mode (DHCPv6Client_Solicit_start e c) = mode c.
Proof.
  unfold DHCPv6Client_Solicit_start. cbv zeta.
  unfold new_transaction_id.
  destruct (get_new_transaction_id e _) as [xid n].
  destruct (random_double_in_range e 0 DHCPv6_SOL_MAX_DELAY _) as [d n'].
  fields. repeat split; reflexivity.
Qed.

Lemma RemoveAddress_fields (e : Env) (c : DHCPv6Client) :
  let c' := DHCPv6ClientRemoveAddress e c in
  our_ip c' = in6addr_any /\ cstate c' = cstate c /\ saved c' = saved c /\
  saved_verified c' = saved_verified c /\ lease c' = lease c /\
  fault c' = fault c /\ try_ c' = try_ c /\ ia_addr c' = ia_addr c /\
  ia_na c' = ia_na c /\ server_id c' = server_id c /\ mode c' = mode c /\
  renew_rebind_time c' = renew_rebind_time c.
Proof.
  cbv zeta. unfold DHCPv6ClientRemoveAddress.
  destruct (IN6_IS_ADDR_UNSPECIFIED (our_ip c)) eqn:E.
  - apply bytes_eqb_eq in E. repeat split; auto.
  - destruct (inet6_dgram_socket_ok e); fields; repeat split; reflexivity.
Qed.

Lemma PostNotification_fields (c : DHCPv6Client) :
  let c' := DHCPv6ClientPostNotification c in
  our_ip c' = our_ip c /\ cstate c' = cstate c /\ saved c' = saved c /\
  saved_verified c' = saved_verified c /\ lease c' = lease c /\
  fault c' = fault c /\ try_ c' = try_ c /\ ia_addr c' = ia_addr c /\
  ia_na c' = ia_na c /\ server_id c' = server_id c /\ mode c' = mode c /\
  timer c' = timer c /\ sock_receive c' = sock_receive c.
Proof.
  cbv zeta. unfold DHCPv6ClientPostNotification.
  destruct (callback_rls c); fields; repeat split; reflexivity.
Qed.

Lemma schedule_renew_fields (now tss : Q) (c : DHCPv6Client) :
  let c' := schedule_renew now tss c in
  cstate c' = cstate c /\ saved c' = saved c /\
  saved_verified c' = saved_verified c /\ fault c' = fault c /\
  our_ip c' = our_ip c /\ lease c' = lease c.
Proof.
  cbv zeta. unfold schedule_renew. fields. repeat split; reflexivity.
Qed.

Lemma CancelPendingEvents_fields (c : DHCPv6Client) :
  let c' := DHCPv6ClientCancelPendingEvents c in
  cstate c' = cstate c /\ saved c' = saved c /\
  saved_verified c' = saved_verified c /\ fault c' = fault c /\
  our_ip c' = our_ip c /\ lease c' = lease c /\ ia_addr c' = ia_addr c /\
  timer c' = None /\ sock_receive c' = None /\ trace c' = trace c /\
  mode c' = mode c /\ try_ c' = try_ c /\
  our_prefix_length c' = our_prefix_length c.
Proof. fields. repeat split; reflexivity. Qed.

Lemma example_reply_acceptable :
  acceptable_message env_wired kDHCPv6MessageREPLY example_reply
                     example_requesting kDHCPv6StatusCodeSuccess.
Proof.
  split; [|split]; try (vm_compute; reflexivity).
  split; [|split; [|split]]; try (vm_compute; reflexivity).
  exists example_server_duid. split; vm_compute; reflexivity.
Qed.

(** Scenario 3 of the specification: a REPLY whose IA_NA carries NotOnLink
    takes the client from Request back to Solicit, with a new transaction
    id. *)
Example request_not_on_link :
  let c' := socket_receive env_wired example_reply_not_on_link
                           example_requesting in
  cstate c' = kDHCPv6ClientStateSolicit /\
  transaction_id c' <> transaction_id example_requesting /\
  saved c' = no_info.
Proof.
  cbv zeta. repeat split; try (vm_compute; reflexivity).
  vm_compute. discriminate.
Qed.

(** ** start *)

Lemma ClearPacket_fields (c : DHCPv6Client) :
  saved (DHCPv6ClientClearPacket c) = no_info /\
  saved_verified (DHCPv6ClientClearPacket c) = false /\
  our_ip (DHCPv6ClientClearPacket c) = our_ip c /\
  cstate (DHCPv6ClientClearPacket c) = cstate c /\
  lease (DHCPv6ClientClearPacket c) = lease_zero /\
  fault (DHCPv6ClientClearPacket c) = fault c /\
  mode (DHCPv6ClientClearPacket c) = mode c.
Proof.
  fields. repeat split; reflexivity.
Qed.

Lemma DHCPv6ClientLeaseStillValid_fst (e : Env) (now : Q) (c : DHCPv6Client) :
  fst (DHCPv6ClientLeaseStillValid e now c)
  = lease_valid (lease c)
    && ((lease_valid_lifetime (lease c) =? DHCP_INFINITE_LEASE)
        || (negb (Qlt_bool now (lease_start (lease c)))
            && negb (Qle_bool (inject_Z (lease_valid_lifetime (lease c)))
                              (now - lease_start (lease c))))).
Proof.
  unfold DHCPv6ClientLeaseStillValid.
  destruct (lease_valid (lease c)) eqn:Ev; cbn [negb andb]; [|reflexivity].
  destruct (lease_valid_lifetime (lease c) =? DHCP_INFINITE_LEASE);
    cbn [orb fst]; [reflexivity|].
  destruct (Qlt_bool now (lease_start (lease c))); cbn [negb andb fst];
    [reflexivity|].
  destruct (Qle_bool _ _); cbn [negb fst]; reflexivity.
Qed.

Lemma DHCPv6ClientLeaseOnSameNetwork_iff (e : Env) (c : DHCPv6Client) :
  DHCPv6ClientLeaseOnSameNetwork e c = true <->
  if_is_wireless e = false \/
  exists ssid, ServiceGetSSID e = Some ssid /\
               lease_ssid (lease c) = Some ssid.
Proof.
  unfold DHCPv6ClientLeaseOnSameNetwork, CFEqual.
  destruct (if_is_wireless e); cbn [negb].
  - destruct (ServiceGetSSID e) as [s|], (lease_ssid (lease c)) as [l|].
    + rewrite String.eqb_eq. split.
      * intros ->. right. exists l. auto.
      * intros [H|(x & H1 & H2)]; [discriminate|congruence].
    + split; [discriminate|]. intros [H|(x & _ & H)]; discriminate.
    + split; [discriminate|]. intros [H|(x & H & _)]; discriminate.
    + split; [discriminate|]. intros [H|(x & H & _)]; discriminate.
  - split; auto.
Qed.

Lemma Confirm_start_fields (e : Env) (c : DHCPv6Client) :
  let c' := DHCPv6Client_Confirm_start e c in
  cstate c' = kDHCPv6ClientStateConfirm /\ saved c' = saved c /\
  lease c' = lease c /\ our_ip c' = our_ip c /\ mode c' = mode c /\
  fault c' = fault c /\ saved_verified c' = false.
Proof.
  cbv zeta. unfold DHCPv6Client_Confirm_start. cbv zeta.
  unfold new_transaction_id.
  destruct (get_new_transaction_id e _) as [xid n].
  destruct (random_double_in_range e 0 DHCPv6_CNF_MAX_DELAY _) as [d n'].
  fields. repeat split; reflexivity.
Qed.

Lemma Start_stateful_outcome (e : Env) (privacy_required : bool)
    (c : DHCPv6Client) :
  let c' := DHCPv6ClientStart e true privacy_required c in
  let c0 := set_mode kDHCPv6ClientModeStateful
              (set_private_address privacy_required c) in
  let still_valid :=
    fst (DHCPv6ClientLeaseStillValid e (timer_get_current_time e) c) in
  let same_network := DHCPv6ClientLeaseOnSameNetwork e c in
  mode c' = kDHCPv6ClientModeStateful /\
  (same_network = true <->
   if_is_wireless e = false \/
   exists ssid, ServiceGetSSID e = Some ssid /\
                lease_ssid (lease c) = Some ssid) /\
  (cstate c' = kDHCPv6ClientStateConfirm <->
   still_valid = true /\ same_network = true) /\
  (still_valid = true /\ same_network = true ->
   c' = DHCPv6Client_Confirm_start e c0 /\
   our_ip c' = our_ip c /\ saved c' = saved c /\ lease c' = lease c) /\
  (~ (still_valid = true /\ same_network = true) ->
   c' = DHCPv6Client_Solicit_start e
          (DHCPv6ClientClearPacket
             (DHCPv6ClientRemoveAddress e
                (snd (DHCPv6ClientLeaseStillValid
                        e (timer_get_current_time e) c0)))) /\
   cstate c' = kDHCPv6ClientStateSolicit /\
   our_ip c' = in6addr_any /\ saved c' = no_info /\
   saved_verified c' = false).
Proof.
  cbv zeta. unfold DHCPv6ClientStart.
  set (c0 := set_mode kDHCPv6ClientModeStateful
               (set_private_address privacy_required c)).
  set (now := timer_get_current_time e).
  assert (fst (DHCPv6ClientLeaseStillValid e now c0)
          = fst (DHCPv6ClientLeaseStillValid e now c)) as Hfst.
  { rewrite !DHCPv6ClientLeaseStillValid_fst. reflexivity. }
  assert (mode (snd (DHCPv6ClientLeaseStillValid e now c0))
          = kDHCPv6ClientModeStateful) as Hmode.
  { unfold DHCPv6ClientLeaseStillValid.
    repeat match goal with
           | |- context [if ?b then _ else _] => destruct b
           end; reflexivity. }
  pose proof (DHCPv6ClientLeaseStillValid_true e now c0) as Htrue.
  destruct (DHCPv6ClientLeaseStillValid e now c0) as [sv c1].
  cbn [fst snd] in *. rewrite <- Hfst.
  split.
  { destruct (sv && DHCPv6ClientLeaseOnSameNetwork e c1).
    - destruct (Confirm_start_fields e c1) as (_ & _ & _ & _ & M & _).
      cbv zeta in M. congruence.
    - destruct (cstate_Solicit_start e
                  (DHCPv6ClientClearPacket (DHCPv6ClientRemoveAddress e c1)))
        as (_ & _ & _ & _ & _ & _ & M).
      rewrite M.
      destruct (RemoveAddress_fields e c1)
        as (_ & _ & _ & _ & _ & _ & _ & _ & _ & _ & M' & _).
      cbv zeta in M'.
      destruct (ClearPacket_fields (DHCPv6ClientRemoveAddress e c1))
        as (_ & _ & _ & _ & _ & _ & M'').
      congruence. }
  split; [apply DHCPv6ClientLeaseOnSameNetwork_iff|].
  destruct sv.
  - specialize (Htrue eq_refl). inversion Htrue; subst c1.
    assert (DHCPv6ClientLeaseOnSameNetwork e c0
            = DHCPv6ClientLeaseOnSameNetwork e c) as Hsame by reflexivity.
    rewrite Hsame. cbn [andb].
    destruct (DHCPv6ClientLeaseOnSameNetwork e c) eqn:Es.
    + destruct (Confirm_start_fields e c0) as (F1 & F2 & F3 & F4 & _).
      cbv zeta in *. split; [tauto|]. split.
      * intros _. repeat split; auto.
      * intros H. exfalso. apply H. auto.
    + destruct (cstate_Solicit_start e
                  (DHCPv6ClientClearPacket (DHCPv6ClientRemoveAddress e c0)))
        as (S1 & S2 & S3 & S4 & _).
      split.
      { rewrite S1. split; [discriminate|]. intros [_ H]. discriminate. }
      split; [intros [_ H]; discriminate|].
      intros _. split; [reflexivity|]. split; [exact S1|].
      split; [|split; assumption].
      rewrite S2.
      destruct (RemoveAddress_fields e c0) as (R1 & _). cbv zeta in R1.
      destruct (ClearPacket_fields (DHCPv6ClientRemoveAddress e c0))
        as (_ & _ & R2 & _).
      congruence.
  - cbn [andb].
    destruct (cstate_Solicit_start e
                (DHCPv6ClientClearPacket (DHCPv6ClientRemoveAddress e c1)))
      as (S1 & S2 & S3 & S4 & _).
    split.
    { rewrite S1. split; [discriminate|]. intros [H _]. discriminate. }
    split; [intros [H _]; discriminate|].
    intros _. split; [reflexivity|]. split; [exact S1|].
    split; [|split; assumption].
    rewrite S2.
    destruct (RemoveAddress_fields e c1) as (R1 & _). cbv zeta in R1.
    destruct (ClearPacket_fields (DHCPv6ClientRemoveAddress e c1))
      as (_ & _ & R2 & _).
    congruence.
Qed.

(** X2.  start with allocate_address = true makes the client Stateful.  It
    enters Confirm if and only if the stored lease is still valid at the
    current time and the lease is on the same network; same network means:
    the interface is not wireless, or the current SSID and the SSID recorded
    on the lease are both present and equal.  In every other case start
    removes the assigned address, clears the saved packet and enters
    Solicit. *)
Theorem DHCPv6ClientStart_stateful (e : Env) (privacy_required : bool)
    (c : DHCPv6Client) :
  let c' := DHCPv6ClientStart e true privacy_required c in
  let c0 := set_mode kDHCPv6ClientModeStateful
              (set_private_address privacy_required c) in
  let still_valid :=
    fst (DHCPv6ClientLeaseStillValid e (timer_get_current_time e) c) in
  let same_network := DHCPv6ClientLeaseOnSameNetwork e c in
  mode c' = kDHCPv6ClientModeStateful /\
  (same_network = true <->
   if_is_wireless e = false \/
   exists ssid, ServiceGetSSID e = Some ssid /\
                lease_ssid (lease c) = Some ssid) /\
  (cstate c' = kDHCPv6ClientStateConfirm <->
   still_valid = true /\ same_network = true) /\
  (still_valid = true /\ same_network = true ->
   c' = DHCPv6Client_Confirm_start e c0 /\
   our_ip c' = our_ip c /\ saved c' = saved c /\ lease c' = lease c) /\
  (~ (still_valid = true /\ same_network = true) ->
   c' = DHCPv6Client_Solicit_start e
          (DHCPv6ClientClearPacket
             (DHCPv6ClientRemoveAddress e
                (snd (DHCPv6ClientLeaseStillValid
                        e (timer_get_current_time e) c0)))) /\
   cstate c' = kDHCPv6ClientStateSolicit /\
   our_ip c' = in6addr_any /\ saved c' = no_info /\
   saved_verified c' = false).
Proof. exact (Start_stateful_outcome e privacy_required c). Qed.


(** ** wake *)

Lemma SendPacket_trace (e : Env) (c : DHCPv6Client) :
  exists pre, trace (DHCPv6ClientSendPacket e c) = pre ++ trace c.
Proof.
  unfold DHCPv6ClientSendPacket.
  destruct (ia_na c); [|exists []; reflexivity].
  destruct (server_id c); [|exists []; reflexivity].
  match goal with
  | |- context [match ?m with Some _ => _ | None => _ end] => destruct m as [mt|]
  end; [|exists []; reflexivity].
  exists [SocketTransmit mt]. unfold emit. repeat proj_set.
  change (DHCPv6ClientMakePacket e c) with (duid_looked_up e c).
  destruct (duid_looked_up_same e c) as (_ & _ & _ & _ & _ & H & _).
  cbv zeta in H. rewrite H. reflexivity.
Qed.

(** The tail of the timeout case of Renew/Rebind: the timer is set and the
    packet sent. *)
Lemma RenewRebind_transmit_fields (e : Env) (now wait_time : Q)
    (c : DHCPv6Client) :
  let c' := DHCPv6ClientSendPacket e
              (timer_callout_set wait_time DHCPv6Client_RenewRebind_fn
                 IFEventID_timeout_e
                 (set_renew_rebind_time (now + wait_time)%Q c)) in
  cstate c' = cstate c /\ lease c' = lease c /\ saved c' = saved c /\
  our_ip c' = our_ip c /\ exists pre, trace c' = pre ++ trace c.
Proof.
  cbv zeta.
  set (c1 := timer_callout_set _ _ _ _).
  assert (cstate c1 = cstate c /\ lease c1 = lease c /\ saved c1 = saved c /\
          our_ip c1 = our_ip c /\ trace c1 = trace c)
    as (A1 & A2 & A3 & A4 & A5).
  { subst c1. fields. repeat split; reflexivity. }
  clearbody c1.
  destruct (SendPacket_fields e c1) as (F1 & _ & F3 & _ & F5 & _).
  destruct (SendPacket_trace e c1) as (pre & Ht).
  cbv zeta in F1, F3, F5. rewrite cstate_SendPacket, F1, F3, F5.
  split; [exact A1|]. split; [exact A2|]. split; [exact A3|].
  split; [exact A4|]. exists pre. congruence.
Qed.

(** Entering Renew with a lease that is still valid: Renew is entered, and
    the client goes on to Rebind in the same step when T2 has passed. *)
Lemma RenewRebind_start_outcome (e : Env) (c : DHCPv6Client) :
  fst (DHCPv6ClientLeaseStillValid e (time_at_RenewRebind e) c) = true ->
  let c' := DHCPv6Client_RenewRebind_start e c in
  (exists pre,
     trace c' = pre ++ LogState kDHCPv6ClientStateRenew :: trace c) /\
  cstate c'
  = (if double_to_uint32 (time_at_RenewRebind e - lease_start (lease c))
        <? lease_t2 (lease c)
     then kDHCPv6ClientStateRenew else kDHCPv6ClientStateRebind) /\
  lease c' = lease c /\ saved c' = saved c /\ our_ip c' = our_ip c.
Proof.
  intros Hvalid. cbv zeta. unfold DHCPv6Client_RenewRebind_start. cbv zeta.
  set (now := time_at_RenewRebind e) in *.
  set (c1 := DHCPv6SocketEnableReceive DHCPv6Client_RenewRebind_fn _).
  assert (cstate c1 = kDHCPv6ClientStateRenew /\ lease c1 = lease c /\
          saved c1 = saved c /\ our_ip c1 = our_ip c /\
          trace c1 = LogState kDHCPv6ClientStateRenew :: trace c)
    as (C1 & C2 & C3 & C4 & C5).
  { subst c1. unfold DHCPv6SocketEnableReceive. repeat proj_set.
    match goal with
    | |- context [new_transaction_id e ?x] =>
        destruct (new_transaction_id_fields e x)
          as (N1 & _ & N3 & N4 & _ & N6 & N7 & _)
    end.
    cbv zeta in N1, N3, N4, N6, N7. rewrite N1, N3, N4, N6, N7. fields.
    repeat split; reflexivity. }
  clearbody c1. unfold DHCPv6Client_RenewRebind_timeout. cbv zeta.
  fold now.
  assert (fst (DHCPv6ClientLeaseStillValid e now c1) = true) as Hv1.
  { rewrite DHCPv6ClientLeaseStillValid_fst, C2,
      <- (DHCPv6ClientLeaseStillValid_fst e now c). exact Hvalid. }
  rewrite (DHCPv6ClientLeaseStillValid_true e now c1 Hv1). cbn [negb].
  rewrite C2.
  destruct (double_to_uint32 (now - lease_start (lease c))
            <? lease_t2 (lease c)).
  - (* Renew (before T2) *)
    destruct (NextRetransmit_fields e DHCPv6_REN_TIMEOUT DHCPv6_REN_MAX_RT c1)
      as (X1 & _ & _ & X4 & X5 & _ & X7 & _ & _ & X10 & _).
    destruct (DHCPv6ClientNextRetransmit e DHCPv6_REN_TIMEOUT
                                         DHCPv6_REN_MAX_RT c1) as [w c2].
    cbn [snd] in X1, X4, X5, X7, X10.
    match goal with
    | |- context [timer_callout_set ?w _ _ _] =>
        destruct (RenewRebind_transmit_fields e now w c2)
          as (T1 & T2 & T3 & T4 & pre & T5)
    end.
    cbv zeta in T1, T2, T3, T4, T5. rewrite T1, T2, T3, T4, T5.
    split; [exists pre; congruence|]. repeat split; congruence.
  - (* Rebind (T2 or later) *)
    rewrite C1. cbn [DHCPv6ClientState_eqb negb].
    set (c2 := DHCPv6ClientClearRetransmit _).
    assert (cstate c2 = kDHCPv6ClientStateRebind /\ lease c2 = lease c /\
            saved c2 = saved c /\ our_ip c2 = our_ip c /\
            trace c2 = LogState kDHCPv6ClientStateRebind
                       :: LogState kDHCPv6ClientStateRenew :: trace c)
      as (E1 & E2 & E3 & E4 & E5).
    { subst c2. fields.
      destruct (new_transaction_id_fields e c1)
        as (_ & _ & N3 & N4 & _ & N6 & N7 & _).
      cbv zeta in N3, N4, N6, N7. rewrite N3, N4, N6, N7.
      repeat split; congruence. }
    clearbody c2.
    destruct (NextRetransmit_fields e DHCPv6_REB_TIMEOUT DHCPv6_REB_MAX_RT c2)
      as (X1 & _ & _ & X4 & X5 & _ & X7 & _ & _ & X10 & _).
    destruct (DHCPv6ClientNextRetransmit e DHCPv6_REB_TIMEOUT
                                         DHCPv6_REB_MAX_RT c2) as [w c3].
    cbn [snd] in X1, X4, X5, X7, X10.
    match goal with
    | |- context [timer_callout_set ?w _ _ _] =>
        destruct (RenewRebind_transmit_fields e now w c3)
          as (T1 & T2 & T3 & T4 & pre & T5)
    end.
    cbv zeta in T1, T2, T3, T4, T5. rewrite T1, T2, T3, T4, T5.
    split.
    + exists (pre ++ [LogState kDHCPv6ClientStateRebind]).
      rewrite X7, E5, <- app_assoc. reflexivity.
    + repeat split; congruence.
Qed.

Lemma S_time_in_future_iff (now the_time interval : Q) :
  S_time_in_future now the_time interval = true <->
  later_by_at_least now the_time interval.
Proof.
  unfold S_time_in_future, later_by_at_least.
  rewrite andb_true_iff, Qlt_bool_iff, Qle_bool_iff. tauto.
Qed.

Lemma wake_on_same_link_test (e : Env) (link_event : link_event_data_t) :
  wake_on_same_link e link_event ->
  link_status_is_inactive (link_status link_event)
  || (if_is_wireless e
      && link_info_eqb (info link_event) kLinkInfoNetworkChanged)
  || (negb (if_is_wireless e)
      && negb (ls_wake_on_same_network (link_status link_event))) = false.
Proof.
  intros (Hi & Hw & Hn). rewrite Hi. cbn [orb].
  destruct (if_is_wireless e); cbn [negb andb orb].
  - destruct (info link_event); cbn; try reflexivity.
    exfalso. apply (Hw eq_refl). reflexivity.
  - rewrite (Hn eq_refl). reflexivity.
Qed.

(** ** Frame conditions of the routines *)

Lemma changes_only_refl (fs : list Field) (c : DHCPv6Client) :
  changes_only fs c c.
Proof. intros f _. reflexivity. Qed.

Lemma touches_sub (fs gs : list Field) (f : Field) :
  sub fs gs = true -> touches gs f = false -> touches fs f = false.
Proof.
  unfold sub. intros Hs Hf.
  destruct (touches fs f) eqn:E; [|reflexivity].
  unfold touches in E. apply existsb_exists in E. destruct E as (x & Hx & Hex).
  rewrite forallb_forall in Hs. specialize (Hs x Hx).
  assert (x = f) as ->.
  { unfold Field_eqb in Hex. apply Nat.eqb_eq in Hex.
    destruct x, f; try reflexivity; discriminate Hex. }
  congruence.
Qed.

(** One more routine at the end of a sequence. *)
Lemma changes_only_step (fs gs : list Field) (c0 c1 c2 : DHCPv6Client) :
  changes_only fs c1 c2 -> sub fs gs = true -> changes_only gs c0 c1 ->
  changes_only gs c0 c2.
Proof.
  intros H12 Hs H01 f Hf.
  rewrite (H12 f (touches_sub fs gs f Hs Hf)). apply H01. exact Hf.
Qed.

Lemma changes_only_weaken (fs gs : list Field) (c c' : DHCPv6Client) :
  changes_only fs c c' -> sub fs gs = true -> changes_only gs c c'.
Proof.
  intros H Hs. apply (changes_only_step fs gs c c c' H Hs).
  apply changes_only_refl.
Qed.

Create HintDb frame discriminated.

(** A single field update changes that field. *)
Ltac frame_setter :=
  intros; intros f Hf; destruct f; solve [reflexivity | discriminate Hf].

Lemma frame_set_callback_rls v c :
  changes_only [F_callback_rls] c (set_callback_rls v c).
Proof. frame_setter. Qed.
Lemma frame_set_callback v c :
  changes_only [F_callback] c (set_callback v c).
Proof. frame_setter. Qed.
Lemma frame_set_our_ip v c : changes_only [F_our_ip] c (set_our_ip v c).
Proof. frame_setter. Qed.
Lemma frame_set_our_prefix_length v c :
  changes_only [F_our_prefix_length] c (set_our_prefix_length v c).
Proof. frame_setter. Qed.
Lemma frame_set_mode v c : changes_only [F_mode] c (set_mode v c).
Proof. frame_setter. Qed.
Lemma frame_set_cstate v c : changes_only [F_cstate] c (set_cstate v c).
Proof. frame_setter. Qed.
Lemma frame_set_sock_receive v c :
  changes_only [F_sock_receive] c (set_sock_receive v c).
Proof. frame_setter. Qed.
Lemma frame_set_timer v c : changes_only [F_timer] c (set_timer v c).
Proof. frame_setter. Qed.
Lemma frame_set_transaction_id v c :
  changes_only [F_transaction_id] c (set_transaction_id v c).
Proof. frame_setter. Qed.
Lemma frame_set_try_ v c : changes_only [F_try] c (set_try_ v c).
Proof. frame_setter. Qed.
Lemma frame_set_start_time v c :
  changes_only [F_start_time] c (set_start_time v c).
Proof. frame_setter. Qed.
Lemma frame_set_retransmit_time v c :
  changes_only [F_retransmit_time] c (set_retransmit_time v c).
Proof. frame_setter. Qed.
Lemma frame_set_saved v c : changes_only [F_saved] c (set_saved v c).
Proof. frame_setter. Qed.
Lemma frame_set_saved_verified v c :
  changes_only [F_saved_verified] c (set_saved_verified v c).
Proof. frame_setter. Qed.
Lemma frame_set_server_id v c :
  changes_only [F_server_id] c (set_server_id v c).
Proof. frame_setter. Qed.
Lemma frame_set_ia_na v c : changes_only [F_ia_na] c (set_ia_na v c).
Proof. frame_setter. Qed.
Lemma frame_set_ia_addr v c : changes_only [F_ia_addr] c (set_ia_addr v c).
Proof. frame_setter. Qed.
Lemma frame_set_lease v c : changes_only [F_lease] c (set_lease v c).
Proof. frame_setter. Qed.
Lemma frame_set_private_address v c :
  changes_only [F_private_address] c (set_private_address v c).
Proof. frame_setter. Qed.
Lemma frame_set_duid v c : changes_only [F_duid] c (set_duid v c).
Proof. frame_setter. Qed.
Lemma frame_set_renew_rebind_time v c :
  changes_only [F_renew_rebind_time] c (set_renew_rebind_time v c).
Proof. frame_setter. Qed.
Lemma frame_set_rng v c : changes_only [F_rng] c (set_rng v c).
Proof. frame_setter. Qed.
Lemma frame_set_trace v c : changes_only [F_trace] c (set_trace v c).
Proof. frame_setter. Qed.
Lemma frame_set_fault v c : changes_only [F_fault] c (set_fault v c).
Proof. frame_setter. Qed.

#[local] Hint Extern 0 (changes_only _ _ (set_callback_rls _ _)) =>
  simple apply frame_set_callback_rls : frame.
#[local] Hint Extern 0 (changes_only _ _ (set_callback _ _)) =>
  simple apply frame_set_callback : frame.
#[local] Hint Extern 0 (changes_only _ _ (set_our_ip _ _)) =>
  simple apply frame_set_our_ip : frame.
#[local] Hint Extern 0 (changes_only _ _ (set_our_prefix_length _ _)) =>
  simple apply frame_set_our_prefix_length : frame.
#[local] Hint Extern 0 (changes_only _ _ (set_mode _ _)) =>
  simple apply frame_set_mode : frame.
#[local] Hint Extern 0 (changes_only _ _ (set_cstate _ _)) =>
  simple apply frame_set_cstate : frame.
#[local] Hint Extern 0 (changes_only _ _ (set_sock_receive _ _)) =>
  simple apply frame_set_sock_receive : frame.
#[local] Hint Extern 0 (changes_only _ _ (set_timer _ _)) =>
  simple apply frame_set_timer : frame.
#[local] Hint Extern 0 (changes_only _ _ (set_transaction_id _ _)) =>
  simple apply frame_set_transaction_id : frame.
#[local] Hint Extern 0 (changes_only _ _ (set_try_ _ _)) =>
  simple apply frame_set_try_ : frame.
#[local] Hint Extern 0 (changes_only _ _ (set_start_time _ _)) =>
  simple apply frame_set_start_time : frame.
#[local] Hint Extern 0 (changes_only _ _ (set_retransmit_time _ _)) =>
  simple apply frame_set_retransmit_time : frame.
#[local] Hint Extern 0 (changes_only _ _ (set_saved _ _)) =>
  simple apply frame_set_saved : frame.
#[local] Hint Extern 0 (changes_only _ _ (set_saved_verified _ _)) =>
  simple apply frame_set_saved_verified : frame.
#[local] Hint Extern 0 (changes_only _ _ (set_server_id _ _)) =>
  simple apply frame_set_server_id : frame.
#[local] Hint Extern 0 (changes_only _ _ (set_ia_na _ _)) =>
  simple apply frame_set_ia_na : frame.
#[local] Hint Extern 0 (changes_only _ _ (set_ia_addr _ _)) =>
  simple apply frame_set_ia_addr : frame.
#[local] Hint Extern 0 (changes_only _ _ (set_lease _ _)) =>
  simple apply frame_set_lease : frame.
#[local] Hint Extern 0 (changes_only _ _ (set_private_address _ _)) =>
  simple apply frame_set_private_address : frame.
#[local] Hint Extern 0 (changes_only _ _ (set_duid _ _)) =>
  simple apply frame_set_duid : frame.
#[local] Hint Extern 0 (changes_only _ _ (set_renew_rebind_time _ _)) =>
  simple apply frame_set_renew_rebind_time : frame.
#[local] Hint Extern 0 (changes_only _ _ (set_rng _ _)) =>
  simple apply frame_set_rng : frame.
#[local] Hint Extern 0 (changes_only _ _ (set_trace _ _)) =>
  simple apply frame_set_trace : frame.
#[local] Hint Extern 0 (changes_only _ _ (set_fault _ _)) =>
  simple apply frame_set_fault : frame.

(** A call that returns a pair is named by its second component. *)
Ltac frame_pair :=
  match goal with
  | |- context [let (_, _) := ?x in _] =>
      lazymatch x with
      | (let (_, _) := _ in _) => fail
      | (if _ then _ else _) => fail
      | _ => idtac
      end;
      let a := fresh "a" in
      let b := fresh "b" in
      let E := fresh "E" in
      destruct x as [a b] eqn:E;
      apply (f_equal snd) in E; cbn [snd] in E; subst b
  | |- context [let (_, _) := (if ?b then _ else _) in _] => destruct b
  end.

(** The frame of a routine from the frames of the routines it calls, last
    call first. *)
Ltac frame :=
  repeat first
    [ match goal with
      | |- changes_only _ ?c ?c => apply changes_only_refl
      end
    | progress cbv zeta
    | frame_pair
    | match goal with
      | |- changes_only _ _ (if ?b then _ else _) => destruct b
      | |- changes_only _ _ (match ?x with _ => _ end) => destruct x eqn:?
      end
    | eapply changes_only_step;
      [ solve [eauto with frame] | reflexivity | ] ].

Ltac frame_of f := intros; unfold f; frame.

Lemma frame_emit ef c : changes_only [F_trace] c (emit ef c).
Proof. frame_of emit. Qed.
Lemma frame_timer_callout_set d f a c :
  changes_only [F_timer] c (timer_callout_set d f a c).
Proof. frame_of timer_callout_set. Qed.
Lemma frame_timer_cancel c : changes_only [F_timer] c (timer_cancel c).
Proof. frame_of timer_cancel. Qed.
Lemma frame_EnableReceive f c :
  changes_only [F_sock_receive] c (DHCPv6SocketEnableReceive f c).
Proof. frame_of DHCPv6SocketEnableReceive. Qed.
Lemma frame_DisableReceive c :
  changes_only [F_sock_receive] c (DHCPv6SocketDisableReceive c).
Proof. frame_of DHCPv6SocketDisableReceive. Qed.
#[local] Hint Extern 0 (changes_only _ _ (emit _ _)) =>
  simple apply frame_emit : frame.
#[local] Hint Extern 0 (changes_only _ _ (timer_callout_set _ _ _ _)) =>
  simple apply frame_timer_callout_set : frame.
#[local] Hint Extern 0 (changes_only _ _ (timer_cancel _)) =>
  simple apply frame_timer_cancel : frame.
#[local] Hint Extern 0 (changes_only _ _ (DHCPv6SocketEnableReceive _ _)) =>
  simple apply frame_EnableReceive : frame.
#[local] Hint Extern 0 (changes_only _ _ (DHCPv6SocketDisableReceive _)) =>
  simple apply frame_DisableReceive : frame.

Lemma frame_ClearRetransmit c :
  changes_only [F_try] c (DHCPv6ClientClearRetransmit c).
Proof. frame_of DHCPv6ClientClearRetransmit. Qed.
Lemma frame_NextRetransmit e IRT MRT c :
  changes_only retransmit_fields c
               (snd (DHCPv6ClientNextRetransmit e IRT MRT c)).
Proof.
  intros. unfold DHCPv6ClientNextRetransmit. cbv zeta.
  destruct (if try_ (set_try_ (try_ c + 1) c) =? 1 then _ else _) as [rt n].
  cbn [snd]. frame.
Qed.
Lemma frame_new_transaction_id e c :
  changes_only [F_transaction_id; F_rng] c (new_transaction_id e c).
Proof.
  intros. unfold new_transaction_id.
  destruct (get_new_transaction_id e (rng c)). frame.
Qed.
Lemma frame_SetSSID s c : changes_only [F_lease] c (DHCPv6ClientSetSSID s c).
Proof. frame_of DHCPv6ClientSetSSID. Qed.
Lemma frame_set_lease_valid v c :
  changes_only [F_lease] c (set_lease_valid v c).
Proof. frame_of set_lease_valid. Qed.
Lemma frame_GetDUID e c :
  changes_only [F_duid] c (snd (DHCPv6ClientGetDUID e c)).
Proof.
  intros. unfold DHCPv6ClientGetDUID.
  destruct (private_address c); [destruct (duid c)|]; cbn [snd]; frame.
Qed.
#[local] Hint Extern 0 (changes_only _ _ (DHCPv6ClientClearRetransmit _)) =>
  simple apply frame_ClearRetransmit : frame.
#[local] Hint Extern 0 (changes_only _ _ (snd (DHCPv6ClientNextRetransmit _ _ _ _))) =>
  simple apply frame_NextRetransmit : frame.
#[local] Hint Extern 0 (changes_only _ _ (new_transaction_id _ _)) =>
  simple apply frame_new_transaction_id : frame.
#[local] Hint Extern 0 (changes_only _ _ (DHCPv6ClientSetSSID _ _)) =>
  simple apply frame_SetSSID : frame.
#[local] Hint Extern 0 (changes_only _ _ (set_lease_valid _ _)) =>
  simple apply frame_set_lease_valid : frame.
#[local] Hint Extern 0 (changes_only _ _ (snd (DHCPv6ClientGetDUID _ _))) =>
  simple apply frame_GetDUID : frame.

Lemma frame_S_duid_matches e o c :
  changes_only [F_duid] c (snd (S_duid_matches e o c)).
Proof.
  intros. unfold S_duid_matches.
  pose proof (frame_GetDUID e c) as H.
  destruct (DHCPv6ClientGetDUID e c) as [d c1]. cbn [snd] in H.
  repeat match goal with
         | |- context [match ?x with _ => _ end] => destruct x
         end; exact H.
Qed.
Lemma frame_SetState s c :
  changes_only [F_cstate; F_trace] c (DHCPv6ClientSetState s c).
Proof. frame_of DHCPv6ClientSetState. Qed.
Lemma frame_RemoveAddress e c :
  changes_only (F_trace :: address_fields) c (DHCPv6ClientRemoveAddress e c).
Proof. frame_of DHCPv6ClientRemoveAddress. Qed.
Lemma frame_PostNotification c :
  changes_only [F_trace] c (DHCPv6ClientPostNotification c).
Proof. frame_of DHCPv6ClientPostNotification. Qed.
Lemma frame_CancelPendingEvents c :
  changes_only [F_timer; F_sock_receive] c
               (DHCPv6ClientCancelPendingEvents c).
Proof. frame_of DHCPv6ClientCancelPendingEvents. Qed.
Lemma frame_ClearLease c :
  changes_only [F_lease] c (DHCPv6ClientClearLease c).
Proof. frame_of DHCPv6ClientClearLease. Qed.
#[local] Hint Extern 0 (changes_only _ _ (snd (S_duid_matches _ _ _))) =>
  simple apply frame_S_duid_matches : frame.
#[local] Hint Extern 0 (changes_only _ _ (DHCPv6ClientSetState _ _)) =>
  simple apply frame_SetState : frame.
#[local] Hint Extern 0 (changes_only _ _ (DHCPv6ClientRemoveAddress _ _)) =>
  simple apply frame_RemoveAddress : frame.
#[local] Hint Extern 0 (changes_only _ _ (DHCPv6ClientPostNotification _)) =>
  simple apply frame_PostNotification : frame.
#[local] Hint Extern 0 (changes_only _ _ (DHCPv6ClientCancelPendingEvents _)) =>
  simple apply frame_CancelPendingEvents : frame.
#[local] Hint Extern 0 (changes_only _ _ (DHCPv6ClientClearLease _)) =>
  simple apply frame_ClearLease : frame.

Lemma frame_ClearPacket c :
  changes_only packet_fields c (DHCPv6ClientClearPacket c).
Proof. frame_of DHCPv6ClientClearPacket. Qed.
#[local] Hint Extern 0 (changes_only _ _ (DHCPv6ClientClearPacket _)) =>
  simple apply frame_ClearPacket : frame.

Lemma frame_Inactive e c :
  changes_only ([F_timer; F_sock_receive; F_trace]
                ++ address_fields ++ packet_fields)
               c (DHCPv6ClientInactive e c).
Proof. frame_of DHCPv6ClientInactive. Qed.
Lemma frame_LeaseStillValid e now c :
  changes_only packet_fields c (snd (DHCPv6ClientLeaseStillValid e now c)).
Proof.
  intros. unfold DHCPv6ClientLeaseStillValid.
  repeat match goal with
         | |- context [if ?b then _ else _] => destruct b
         end; cbv zeta; cbn [snd]; frame.
Qed.
Lemma frame_SavePacket e data c :
  changes_only (F_fault :: packet_fields) c (DHCPv6ClientSavePacket e data c).
Proof. frame_of DHCPv6ClientSavePacket. Qed.
Lemma frame_MakePacket e c :
  changes_only [F_duid] c (DHCPv6ClientMakePacket e c).
Proof. frame_of DHCPv6ClientMakePacket. Qed.
#[local] Hint Extern 0 (changes_only _ _ (DHCPv6ClientInactive _ _)) =>
  simple apply frame_Inactive : frame.
#[local] Hint Extern 0 (changes_only _ _ (snd (DHCPv6ClientLeaseStillValid _ _ _))) =>
  simple apply frame_LeaseStillValid : frame.
#[local] Hint Extern 0 (changes_only _ _ (DHCPv6ClientSavePacket _ _ _)) =>
  simple apply frame_SavePacket : frame.
#[local] Hint Extern 0 (changes_only _ _ (DHCPv6ClientMakePacket _ _)) =>
  simple apply frame_MakePacket : frame.

Lemma frame_SendInform e c :
  changes_only [F_duid; F_trace] c (DHCPv6ClientSendInform e c).
Proof. frame_of DHCPv6ClientSendInform. Qed.
Lemma frame_SendSolicit e c :
  changes_only [F_duid; F_trace] c (DHCPv6ClientSendSolicit e c).
Proof. frame_of DHCPv6ClientSendSolicit. Qed.
Lemma frame_SendPacket e c :
  changes_only [F_duid; F_trace] c (DHCPv6ClientSendPacket e c).
Proof. frame_of DHCPv6ClientSendPacket. Qed.
Lemma frame_not_a_match e mt data c :
  changes_only [F_duid] c (snd (not_a_match e mt data c)).
Proof.
  intros. unfold not_a_match.
  repeat match goal with
         | |- context [if ?b then _ else _] => destruct b
         end; cbn [snd]; frame; cbn [snd]; frame.
Qed.
Lemma frame_schedule_renew now tss c :
  changes_only [F_renew_rebind_time; F_timer] c (schedule_renew now tss c).
Proof. frame_of schedule_renew. Qed.
#[local] Hint Extern 0 (changes_only _ _ (DHCPv6ClientSendInform _ _)) =>
  simple apply frame_SendInform : frame.
#[local] Hint Extern 0 (changes_only _ _ (DHCPv6ClientSendSolicit _ _)) =>
  simple apply frame_SendSolicit : frame.
#[local] Hint Extern 0 (changes_only _ _ (DHCPv6ClientSendPacket _ _)) =>
  simple apply frame_SendPacket : frame.
#[local] Hint Extern 0 (changes_only _ _ (snd (not_a_match _ _ _ _))) =>
  simple apply frame_not_a_match : frame.
#[local] Hint Extern 0 (changes_only _ _ (schedule_renew _ _ _)) =>
  simple apply frame_schedule_renew : frame.

(** *** The event functions work on the session fields only *)

Lemma session_InformComplete_start c :
  changes_only session_fields c (DHCPv6Client_InformComplete_start c).
Proof. frame_of DHCPv6Client_InformComplete_start. Qed.
#[local] Hint Extern 0 (changes_only _ _ (DHCPv6Client_InformComplete_start _)) =>
  simple apply session_InformComplete_start : frame.

Lemma session_Inform_timeout e c :
  changes_only session_fields c (DHCPv6Client_Inform_timeout e c).
Proof. frame_of DHCPv6Client_Inform_timeout. Qed.
#[local] Hint Extern 0 (changes_only _ _ (DHCPv6Client_Inform_timeout _ _)) =>
  simple apply session_Inform_timeout : frame.

Lemma session_Inform_start e c :
  changes_only session_fields c (DHCPv6Client_Inform_start e c).
Proof. frame_of DHCPv6Client_Inform_start. Qed.
Lemma session_Inform_data e data c :
  changes_only session_fields c (DHCPv6Client_Inform_data e data c).
Proof. frame_of DHCPv6Client_Inform_data. Qed.
Lemma session_Release_start e c :
  changes_only session_fields c (DHCPv6Client_Release_start e c).
Proof. frame_of DHCPv6Client_Release_start. Qed.
Lemma session_Solicit_start e c :
  changes_only session_fields c (DHCPv6Client_Solicit_start e c).
Proof. frame_of DHCPv6Client_Solicit_start. Qed.
#[local] Hint Extern 0 (changes_only _ _ (DHCPv6Client_Inform_start _ _)) =>
  simple apply session_Inform_start : frame.
#[local] Hint Extern 0 (changes_only _ _ (DHCPv6Client_Inform_data _ _ _)) =>
  simple apply session_Inform_data : frame.
#[local] Hint Extern 0 (changes_only _ _ (DHCPv6Client_Release_start _ _)) =>
  simple apply session_Release_start : frame.
#[local] Hint Extern 0 (changes_only _ _ (DHCPv6Client_Solicit_start _ _)) =>
  simple apply session_Solicit_start : frame.

Lemma session_Request_timeout e c :
  changes_only session_fields c (DHCPv6Client_Request_timeout e c).
Proof. frame_of DHCPv6Client_Request_timeout. Qed.
#[local] Hint Extern 0 (changes_only _ _ (DHCPv6Client_Request_timeout _ _)) =>
  simple apply session_Request_timeout : frame.

Lemma session_Request_start e c :
  changes_only session_fields c (DHCPv6Client_Request_start e c).
Proof. frame_of DHCPv6Client_Request_start. Qed.
#[local] Hint Extern 0 (changes_only _ _ (DHCPv6Client_Request_start _ _)) =>
  simple apply session_Request_start : frame.

Lemma session_Solicit_timeout e c :
  changes_only session_fields c (DHCPv6Client_Solicit_timeout e c).
Proof. frame_of DHCPv6Client_Solicit_timeout. Qed.
Lemma session_Decline_timeout e c :
  changes_only session_fields c (DHCPv6Client_Decline_timeout e c).
Proof. frame_of DHCPv6Client_Decline_timeout. Qed.
#[local] Hint Extern 0 (changes_only _ _ (DHCPv6Client_Solicit_timeout _ _)) =>
  simple apply session_Solicit_timeout : frame.
#[local] Hint Extern 0 (changes_only _ _ (DHCPv6Client_Decline_timeout _ _)) =>
  simple apply session_Decline_timeout : frame.

Lemma session_Decline_start e c :
  changes_only session_fields c (DHCPv6Client_Decline_start e c).
Proof. frame_of DHCPv6Client_Decline_start. Qed.
Lemma session_Decline_data e data c :
  changes_only session_fields c (DHCPv6Client_Decline_data e data c).
Proof. frame_of DHCPv6Client_Decline_data. Qed.
Lemma session_Unbound_start e c :
  changes_only session_fields c (DHCPv6Client_Unbound_start e c).
Proof. frame_of DHCPv6Client_Unbound_start. Qed.
#[local] Hint Extern 0 (changes_only _ _ (DHCPv6Client_Decline_start _ _)) =>
  simple apply session_Decline_start : frame.
#[local] Hint Extern 0 (changes_only _ _ (DHCPv6Client_Decline_data _ _ _)) =>
  simple apply session_Decline_data : frame.
#[local] Hint Extern 0 (changes_only _ _ (DHCPv6Client_Unbound_start _ _)) =>
  simple apply session_Unbound_start : frame.

Lemma session_RenewRebind_timeout e c :
  changes_only session_fields c (DHCPv6Client_RenewRebind_timeout e c).
Proof. frame_of DHCPv6Client_RenewRebind_timeout. Qed.
#[local] Hint Extern 0 (changes_only _ _ (DHCPv6Client_RenewRebind_timeout _ _)) =>
  simple apply session_RenewRebind_timeout : frame.

Lemma session_RenewRebind_start e c :
  changes_only session_fields c (DHCPv6Client_RenewRebind_start e c).
Proof. frame_of DHCPv6Client_RenewRebind_start. Qed.
#[local] Hint Extern 0 (changes_only _ _ (DHCPv6Client_RenewRebind_start _ _)) =>
  simple apply session_RenewRebind_start : frame.

Lemma session_address_scan e l c :
  changes_only session_fields c (address_scan e l c).
Proof.
  induction l as [|scan rest IH]; cbn [address_scan]; frame.
Qed.
#[local] Hint Extern 0 (changes_only _ _ (address_scan _ _ _)) =>
  simple apply session_address_scan : frame.

Lemma session_HandleAddressChanged e l c :
  changes_only session_fields c (DHCPv6ClientHandleAddressChanged e l c).
Proof. frame_of DHCPv6ClientHandleAddressChanged. Qed.
#[local] Hint Extern 0 (changes_only _ _ (DHCPv6ClientHandleAddressChanged _ _ _)) =>
  simple apply session_HandleAddressChanged : frame.

Lemma session_SimulateAddressChanged e c :
  changes_only session_fields c (DHCPv6ClientSimulateAddressChanged e c).
Proof. frame_of DHCPv6ClientSimulateAddressChanged. Qed.
#[local] Hint Extern 0 (changes_only _ _ (DHCPv6ClientSimulateAddressChanged _ _)) =>
  simple apply session_SimulateAddressChanged : frame.

Lemma session_Bound_set_address e ip tss v p c :
  changes_only session_fields c (Bound_set_address e ip tss v p c).
Proof. frame_of Bound_set_address. Qed.
#[local] Hint Extern 0 (changes_only _ _ (Bound_set_address _ _ _ _ _ _)) =>
  simple apply session_Bound_set_address : frame.

Lemma session_Bound_start e c :
  changes_only session_fields c (DHCPv6Client_Bound_start e c).
Proof. frame_of DHCPv6Client_Bound_start. Qed.
#[local] Hint Extern 0 (changes_only _ _ (DHCPv6Client_Bound_start _ _)) =>
  simple apply session_Bound_start : frame.

Lemma session_RenewRebind_data e data c :
  changes_only session_fields c (DHCPv6Client_RenewRebind_data e data c).
Proof. frame_of DHCPv6Client_RenewRebind_data. Qed.
Lemma session_Confirm_start e c :
  changes_only session_fields c (DHCPv6Client_Confirm_start e c).
Proof. frame_of DHCPv6Client_Confirm_start. Qed.
#[local] Hint Extern 0 (changes_only _ _ (DHCPv6Client_RenewRebind_data _ _ _)) =>
  simple apply session_RenewRebind_data : frame.
#[local] Hint Extern 0 (changes_only _ _ (DHCPv6Client_Confirm_start _ _)) =>
  simple apply session_Confirm_start : frame.

Lemma session_Confirm_timeout e c :
  changes_only session_fields c (DHCPv6Client_Confirm_timeout e c).
Proof. frame_of DHCPv6Client_Confirm_timeout. Qed.
Lemma session_Confirm_data e data c :
  changes_only session_fields c (DHCPv6Client_Confirm_data e data c).
Proof. frame_of DHCPv6Client_Confirm_data. Qed.
Lemma session_Request_data e data c :
  changes_only session_fields c (DHCPv6Client_Request_data e data c).
Proof. frame_of DHCPv6Client_Request_data. Qed.
Lemma session_Solicit_data e data c :
  changes_only session_fields c (DHCPv6Client_Solicit_data e data c).
Proof. frame_of DHCPv6Client_Solicit_data. Qed.
#[local] Hint Extern 0 (changes_only _ _ (DHCPv6Client_Confirm_timeout _ _)) =>
  simple apply session_Confirm_timeout : frame.
#[local] Hint Extern 0 (changes_only _ _ (DHCPv6Client_Confirm_data _ _ _)) =>
  simple apply session_Confirm_data : frame.
#[local] Hint Extern 0 (changes_only _ _ (DHCPv6Client_Request_data _ _ _)) =>
  simple apply session_Request_data : frame.
#[local] Hint Extern 0 (changes_only _ _ (DHCPv6Client_Solicit_data _ _ _)) =>
  simple apply session_Solicit_data : frame.

Lemma session_call_event_func e f ev d c :
  changes_only session_fields c (call_event_func e f ev d c).
Proof.
  intros. destruct f, ev; cbn [call_event_func DHCPv6Client_Inform
    DHCPv6Client_Decline DHCPv6Client_RenewRebind DHCPv6Client_Confirm
    DHCPv6Client_Request DHCPv6Client_Solicit];
    try (unfold with_data; destruct d); frame.
Qed.
#[local] Hint Extern 0 (changes_only _ _ (call_event_func _ _ _ _ _)) =>
  simple apply session_call_event_func : frame.

Lemma session_socket_receive e data c :
  changes_only session_fields c (socket_receive e data c).
Proof. frame_of socket_receive. Qed.
Lemma session_timer_fire e c :
  changes_only session_fields c (timer_fire e c).
Proof. frame_of timer_fire. Qed.
Lemma session_HandleWake e le c :
  changes_only session_fields c (DHCPv6ClientHandleWake e le c).
Proof. frame_of DHCPv6ClientHandleWake. Qed.
Lemma session_confirm_if_bound e c :
  changes_only session_fields c (confirm_if_bound e c).
Proof. frame_of confirm_if_bound. Qed.
#[local] Hint Extern 0 (changes_only _ _ (socket_receive _ _ _)) =>
  simple apply session_socket_receive : frame.
#[local] Hint Extern 0 (changes_only _ _ (timer_fire _ _)) =>
  simple apply session_timer_fire : frame.
#[local] Hint Extern 0 (changes_only _ _ (DHCPv6ClientHandleWake _ _ _)) =>
  simple apply session_HandleWake : frame.
#[local] Hint Extern 0 (changes_only _ _ (confirm_if_bound _ _)) =>
  simple apply session_confirm_if_bound : frame.

Lemma session_HandleEvent e ev c :
  changes_only session_fields c (DHCPv6ClientHandleEvent e ev c).
Proof. frame_of DHCPv6ClientHandleEvent. Qed.

(** *** Reading a field through a call *)


(** A field outside the frame of a step is the same before and after. *)
Lemma keep_callback_rls fs c c' :
  changes_only fs c c' -> touches fs F_callback_rls = false -> callback_rls c' = callback_rls c.
Proof. intros H Hf. exact (H F_callback_rls Hf). Qed.
Lemma keep_callback fs c c' :
  changes_only fs c c' -> touches fs F_callback = false -> callback c' = callback c.
Proof. intros H Hf. exact (H F_callback Hf). Qed.
Lemma keep_our_ip fs c c' :
  changes_only fs c c' -> touches fs F_our_ip = false -> our_ip c' = our_ip c.
Proof. intros H Hf. exact (H F_our_ip Hf). Qed.
Lemma keep_our_prefix_length fs c c' :
  changes_only fs c c' -> touches fs F_our_prefix_length = false -> our_prefix_length c' = our_prefix_length c.
Proof. intros H Hf. exact (H F_our_prefix_length Hf). Qed.
Lemma keep_mode fs c c' :
  changes_only fs c c' -> touches fs F_mode = false -> mode c' = mode c.
Proof. intros H Hf. exact (H F_mode Hf). Qed.
Lemma keep_cstate fs c c' :
  changes_only fs c c' -> touches fs F_cstate = false -> cstate c' = cstate c.
Proof. intros H Hf. exact (H F_cstate Hf). Qed.
Lemma keep_sock_receive fs c c' :
  changes_only fs c c' -> touches fs F_sock_receive = false -> sock_receive c' = sock_receive c.
Proof. intros H Hf. exact (H F_sock_receive Hf). Qed.
Lemma keep_timer fs c c' :
  changes_only fs c c' -> touches fs F_timer = false -> timer c' = timer c.
Proof. intros H Hf. exact (H F_timer Hf). Qed.
Lemma keep_transaction_id fs c c' :
  changes_only fs c c' -> touches fs F_transaction_id = false -> transaction_id c' = transaction_id c.
Proof. intros H Hf. exact (H F_transaction_id Hf). Qed.
Lemma keep_try_ fs c c' :
  changes_only fs c c' -> touches fs F_try = false -> try_ c' = try_ c.
Proof. intros H Hf. exact (H F_try Hf). Qed.
Lemma keep_start_time fs c c' :
  changes_only fs c c' -> touches fs F_start_time = false -> start_time c' = start_time c.
Proof. intros H Hf. exact (H F_start_time Hf). Qed.
Lemma keep_retransmit_time fs c c' :
  changes_only fs c c' -> touches fs F_retransmit_time = false -> retransmit_time c' = retransmit_time c.
Proof. intros H Hf. exact (H F_retransmit_time Hf). Qed.
Lemma keep_saved fs c c' :
  changes_only fs c c' -> touches fs F_saved = false -> saved c' = saved c.
Proof. intros H Hf. exact (H F_saved Hf). Qed.
Lemma keep_saved_verified fs c c' :
  changes_only fs c c' -> touches fs F_saved_verified = false -> saved_verified c' = saved_verified c.
Proof. intros H Hf. exact (H F_saved_verified Hf). Qed.
Lemma keep_server_id fs c c' :
  changes_only fs c c' -> touches fs F_server_id = false -> server_id c' = server_id c.
Proof. intros H Hf. exact (H F_server_id Hf). Qed.
Lemma keep_ia_na fs c c' :
  changes_only fs c c' -> touches fs F_ia_na = false -> ia_na c' = ia_na c.
Proof. intros H Hf. exact (H F_ia_na Hf). Qed.
Lemma keep_ia_addr fs c c' :
  changes_only fs c c' -> touches fs F_ia_addr = false -> ia_addr c' = ia_addr c.
Proof. intros H Hf. exact (H F_ia_addr Hf). Qed.
Lemma keep_lease fs c c' :
  changes_only fs c c' -> touches fs F_lease = false -> lease c' = lease c.
Proof. intros H Hf. exact (H F_lease Hf). Qed.
Lemma keep_private_address fs c c' :
  changes_only fs c c' -> touches fs F_private_address = false -> private_address c' = private_address c.
Proof. intros H Hf. exact (H F_private_address Hf). Qed.
Lemma keep_duid fs c c' :
  changes_only fs c c' -> touches fs F_duid = false -> duid c' = duid c.
Proof. intros H Hf. exact (H F_duid Hf). Qed.
Lemma keep_renew_rebind_time fs c c' :
  changes_only fs c c' -> touches fs F_renew_rebind_time = false -> renew_rebind_time c' = renew_rebind_time c.
Proof. intros H Hf. exact (H F_renew_rebind_time Hf). Qed.
Lemma keep_rng fs c c' :
  changes_only fs c c' -> touches fs F_rng = false -> rng c' = rng c.
Proof. intros H Hf. exact (H F_rng Hf). Qed.
Lemma keep_trace fs c c' :
  changes_only fs c c' -> touches fs F_trace = false -> trace c' = trace c.
Proof. intros H Hf. exact (H F_trace Hf). Qed.
Lemma keep_fault fs c c' :
  changes_only fs c c' -> touches fs F_fault = false -> fault c' = fault c.
Proof. intros H Hf. exact (H F_fault Hf). Qed.

Ltac keep_of p :=
  lazymatch p with
  | callback_rls => constr:(keep_callback_rls)
  | callback => constr:(keep_callback)
  | our_ip => constr:(keep_our_ip)
  | our_prefix_length => constr:(keep_our_prefix_length)
  | mode => constr:(keep_mode)
  | cstate => constr:(keep_cstate)
  | sock_receive => constr:(keep_sock_receive)
  | timer => constr:(keep_timer)
  | transaction_id => constr:(keep_transaction_id)
  | try_ => constr:(keep_try_)
  | start_time => constr:(keep_start_time)
  | retransmit_time => constr:(keep_retransmit_time)
  | saved => constr:(keep_saved)
  | saved_verified => constr:(keep_saved_verified)
  | server_id => constr:(keep_server_id)
  | ia_na => constr:(keep_ia_na)
  | ia_addr => constr:(keep_ia_addr)
  | lease => constr:(keep_lease)
  | private_address => constr:(keep_private_address)
  | duid => constr:(keep_duid)
  | renew_rebind_time => constr:(keep_renew_rebind_time)
  | rng => constr:(keep_rng)
  | trace => constr:(keep_trace)
  | fault => constr:(keep_fault)
  end.

(** A field that the outermost call leaves alone is read before the call. *)
Ltac frame_rw :=
  match goal with
  | |- context [?p ?t] =>
      let K := keep_of p in
      let t' := lazymatch t with
                | snd (?g ?x) => x
                | ?g ?x => x
                end in
      let H := fresh "H" in
      let E := fresh "E" in
      eassert (H : changes_only _ t' t) by (clear; solve [eauto with frame]);
      assert (E : p t = p t') by (exact (K _ _ _ H eq_refl));
      rewrite E; clear E H
  end.

Lemma RemoveAddress_our_ip (e : Env) (c : DHCPv6Client) :
  our_ip (DHCPv6ClientRemoveAddress e c) = in6addr_any.
Proof. apply RemoveAddress_fields. Qed.

Ltac through :=
  repeat first
    [ progress cbv beta iota zeta | proj_set | frame_rw
    | rewrite RemoveAddress_our_ip
    | progress unfold_updates ].

(** ** stop *)

(** Every field after stop, but the trace. *)
Lemma Stop_fields (e : Env) (d : bool) (c : DHCPv6Client) :
  let c' := DHCPv6ClientStop e d c in
  cstate c' = kDHCPv6ClientStateInactive /\
  mode c' = kDHCPv6ClientModeIdle /\
  our_ip c' = in6addr_any /\
  our_prefix_length c'
  = (if IN6_IS_ADDR_UNSPECIFIED (our_ip c) then our_prefix_length c else 0) /\
  timer c' = None /\ sock_receive c' = None /\ duid c' = None /\
  saved_verified c' = false /\
  saved c' = (if d then no_info else saved c) /\
  lease c' = (if d then lease_zero else lease c) /\
  server_id c' = (if d then None else server_id c) /\
  ia_na c' = (if d then None else ia_na c) /\
  ia_addr c' = (if d then None else ia_addr c) /\
  changes_only ([F_cstate; F_mode; F_timer; F_sock_receive; F_duid; F_trace]
                ++ address_fields ++ packet_fields) c c'.
Proof.
  cbv zeta. unfold DHCPv6ClientStop. cbv zeta.
  destruct (RemoveAddress_fields e c) as (R1 & _).
  cbv zeta in R1.
  assert (our_prefix_length (DHCPv6ClientRemoveAddress e c)
          = (if IN6_IS_ADDR_UNSPECIFIED (our_ip c)
             then our_prefix_length c else 0)) as R2.
  { unfold DHCPv6ClientRemoveAddress.
    destruct (IN6_IS_ADDR_UNSPECIFIED (our_ip c)); [reflexivity|].
    through. reflexivity. }
  set (c1 := DHCPv6ClientRemoveAddress e c) in *.
  assert (changes_only (F_trace :: address_fields) c c1) as Fr
      by apply frame_RemoveAddress.
  clearbody c1.
  repeat split.
  - through. reflexivity.
  - through. reflexivity.
  - destruct d; through; exact R1.
  - destruct d; through; exact R2.
  - destruct d; through; reflexivity.
  - destruct d; through; reflexivity.
  - through. reflexivity.
  - destruct d; through; reflexivity.
  - destruct d; through; [reflexivity|]. exact (Fr F_saved eq_refl).
  - destruct d; through; [reflexivity|]. exact (Fr F_lease eq_refl).
  - destruct d; through; [reflexivity|]. exact (Fr F_server_id eq_refl).
  - destruct d; through; [reflexivity|]. exact (Fr F_ia_na eq_refl).
  - destruct d; through; [reflexivity|]. exact (Fr F_ia_addr eq_refl).
  - destruct d; frame.
Qed.

(** X4.  After stop the client is Inactive and Idle, holds no address, no
    timer, no receive handler and no private DUID, and get_info reports
    nothing.  The saved packet and the lease are cleared when
    discard_information is set and kept otherwise.  Until the next start
    the client is inert: no external event, timer expiry or received packet
    changes it. *)
Theorem DHCPv6ClientStop_inert (e : Env) (discard_information : bool)
    (c : DHCPv6Client) :
  let c' := DHCPv6ClientStop e discard_information c in
  cstate c' = kDHCPv6ClientStateInactive /\
  mode c' = kDHCPv6ClientModeIdle /\
  our_ip c' = in6addr_any /\
  timer c' = None /\ sock_receive c' = None /\ duid c' = None /\
  DHCPv6ClientGetInfo c' = (false, no_info) /\
  (if discard_information
   then saved c' = no_info /\ lease c' = lease_zero /\ ia_addr c' = None
   else saved c' = saved c /\ lease c' = lease c /\ ia_addr c' = ia_addr c) /\
  (forall e' event, DHCPv6ClientHandleEvent e' event c' = c') /\
  (forall e', timer_fire e' c' = c') /\
  (forall e' data, socket_receive e' data c' = c').
Proof.
  cbv zeta.
  destruct (Stop_fields e discard_information c)
    as (S1 & S2 & S3 & _ & S5 & S6 & S7 & S8 & S9 & S10 & _ & _ & S13 & _).
  cbv zeta in S1, S2, S3, S5, S6, S7, S8, S9, S10, S13.
  set (c' := DHCPv6ClientStop e discard_information c) in *. clearbody c'.
  split; [exact S1|]. split; [exact S2|]. split; [exact S3|].
  split; [exact S5|]. split; [exact S6|]. split; [exact S7|].
  split.
  { unfold DHCPv6ClientGetInfo. rewrite S8.
    destruct (options (saved c')); reflexivity. }
  split.
  { destruct discard_information; auto. }
  split.
  { intros e' event. unfold DHCPv6ClientHandleEvent. rewrite S2.
    reflexivity. }
  split.
  { intros e'. unfold timer_fire. rewrite S5. reflexivity. }
  intros e' data. unfold socket_receive. rewrite S6. reflexivity.
Qed.

Lemma changes_only_trace_intro (c c' : DHCPv6Client) :
  callback_rls c' = callback_rls c -> callback c' = callback c ->
  our_ip c' = our_ip c -> our_prefix_length c' = our_prefix_length c ->
  mode c' = mode c -> cstate c' = cstate c ->
  sock_receive c' = sock_receive c -> timer c' = timer c ->
  transaction_id c' = transaction_id c -> try_ c' = try_ c ->
  start_time c' = start_time c -> retransmit_time c' = retransmit_time c ->
  saved c' = saved c -> saved_verified c' = saved_verified c ->
  server_id c' = server_id c -> ia_na c' = ia_na c ->
  ia_addr c' = ia_addr c -> lease c' = lease c ->
  private_address c' = private_address c -> duid c' = duid c ->
  renew_rebind_time c' = renew_rebind_time c -> rng c' = rng c ->
  fault c' = fault c ->
  changes_only [F_trace] c c'.
Proof.
  intros. intros f Hf. destruct f; try assumption. discriminate Hf.
Qed.

Lemma Stop_trace (e : Env) (d : bool) (c : DHCPv6Client) :
  our_ip c = in6addr_any ->
  trace (DHCPv6ClientStop e d c)
  = (if callback_rls c then [Notify] else [])
    ++ LogState kDHCPv6ClientStateInactive :: trace c.
Proof.
  intros Hip. unfold DHCPv6ClientStop. cbv zeta.
  assert (DHCPv6ClientRemoveAddress e c = c) as ->.
  { unfold DHCPv6ClientRemoveAddress, IN6_IS_ADDR_UNSPECIFIED.
    rewrite Hip, bytes_eqb_refl. reflexivity. }
  unfold DHCPv6ClientPostNotification. through.
  destruct d; through; destruct (callback_rls c); through; reflexivity.
Qed.

(** X5.  A second stop changes no field of the client: after stop, a stop
    that discards no more than the first leaves everything as it is, and one
    that discards gives what a single discarding stop gives.  The second
    stop removes no address again; it logs the state and, with a callback
    registered, posts the notification once more. *)
Theorem DHCPv6ClientStop_twice (e1 e2 : Env) (d1 d2 : bool)
    (c : DHCPv6Client) :
  let c1 := DHCPv6ClientStop e1 d1 c in
  let c2 := DHCPv6ClientStop e2 d2 c1 in
  changes_only [F_trace] (DHCPv6ClientStop e1 (d1 || d2) c) c2 /\
  trace c2 = (if callback_rls c then [Notify] else [])
             ++ LogState kDHCPv6ClientStateInactive :: trace c1.
Proof.
  cbv zeta.
  destruct (Stop_fields e1 d1 c)
    as (S1 & S2 & S3 & S4 & S5 & S6 & S7 & S8 & S9 & S10 & S11 & S12 & S13
        & SF).
  destruct (Stop_fields e1 (d1 || d2) c)
    as (U1 & U2 & U3 & U4 & U5 & U6 & U7 & U8 & U9 & U10 & U11 & U12 & U13
        & UF).
  cbv zeta in *.
  pose proof (Stop_trace e2 d2 (DHCPv6ClientStop e1 d1 c) S3) as Tr.
  set (c1 := DHCPv6ClientStop e1 d1 c) in *.
  set (c3 := DHCPv6ClientStop e1 (d1 || d2) c) in *.
  destruct (Stop_fields e2 d2 c1)
    as (T1 & T2 & T3 & T4 & T5 & T6 & T7 & T8 & T9 & T10 & T11 & T12 & T13
        & TF).
  cbv zeta in *.
  set (c2 := DHCPv6ClientStop e2 d2 c1) in *.
  clearbody c1 c2 c3.
  assert (IN6_IS_ADDR_UNSPECIFIED (our_ip c1) = true) as Hu.
  { rewrite S3. apply bytes_eqb_refl. }
  rewrite Hu in T4.
  split.
  - apply changes_only_trace_intro; try congruence;
      try (destruct d1, d2; cbn [orb] in *; congruence);
      match goal with
      | |- ?p c2 = ?p c3 =>
          let K := keep_of p in
          rewrite (K _ _ _ TF eq_refl), (K _ _ _ SF eq_refl),
            (K _ _ _ UF eq_refl); reflexivity
      end.
  - rewrite Tr. rewrite (keep_callback_rls _ _ _ SF eq_refl). reflexivity.
Qed.

(** ** Back to Solicit *)

Lemma get_new_transaction_id_range (e : Env) (n : nat) :
  0 <= fst (get_new_transaction_id e n) <= LOWER_24_BITS.
Proof.
  unfold get_new_transaction_id, arc4random_next. cbn [fst].
  pose proof (Z.mod_pos_bound (arc4random e n) 4294967296 eq_refl) as Hr.
  split.
  - apply Z.land_nonneg. left. lia.
  - assert (Z.land (arc4random e n mod 4294967296) LOWER_24_BITS
            = (arc4random e n mod 4294967296) mod 2 ^ 24) as ->.
    { unfold LOWER_24_BITS. change 16777215 with (Z.ones 24).
      apply Z.land_ones. lia. }
    pose proof (Z.mod_pos_bound (arc4random e n mod 4294967296) (2 ^ 24)
                  eq_refl).
    unfold LOWER_24_BITS. lia.
Qed.

Lemma Solicit_start_outcome (e : Env) (c : DHCPv6Client) :
  let c' := DHCPv6Client_Solicit_start e c in
  cstate c' = kDHCPv6ClientStateSolicit /\
  saved c' = no_info /\ saved_verified c' = false /\
  lease c' = lease_zero /\ ia_na c' = None /\ ia_addr c' = None /\
  server_id c' = None /\
  sock_receive c' = Some DHCPv6Client_Solicit_fn /\ try_ c' = 0 /\
  (exists d, timer c' = Some (mkTimer d DHCPv6Client_Solicit_fn
                                      IFEventID_timeout_e) /\
             (0 <= d <= DHCPv6_SOL_MAX_DELAY)%Q) /\
  0 <= transaction_id c' <= LOWER_24_BITS /\
  trace c' = LogState kDHCPv6ClientStateSolicit :: trace c /\
  changes_only ([F_cstate; F_trace; F_try; F_transaction_id; F_rng;
                 F_sock_receive; F_timer] ++ packet_fields) c c'.
Proof.
  cbv zeta. unfold DHCPv6Client_Solicit_start. cbv zeta.
  match goal with
  | |- context [random_double_in_range e ?lo ?hi ?n] =>
      pose proof (random_double_in_range_unit e n
                  : (0 <= fst (random_double_in_range e lo hi n)
                     <= DHCPv6_SOL_MAX_DELAY)%Q) as Hd;
      destruct (random_double_in_range e lo hi n) as [d n']
  end.
  cbn [fst] in Hd.
  pose proof (get_new_transaction_id_range e
                (rng (DHCPv6ClientClearPacket
                        (DHCPv6ClientClearRetransmit
                           (DHCPv6ClientSetState kDHCPv6ClientStateSolicit
                                                 c))))) as Hx.
  unfold new_transaction_id.
  destruct (get_new_transaction_id e _) as [xid n0]. cbn [fst] in Hx.
  repeat split; try (through; reflexivity).
  - exists d. split; [through; reflexivity|exact Hd].
  - through. apply Hx.
  - through. apply Hx.
  - frame.
Qed.

Lemma Unbound_start_outcome (e : Env) (c : DHCPv6Client) :
  soliciting_anew (DHCPv6Client_Unbound_start e c) /\
  fault (DHCPv6Client_Unbound_start e c) = fault c.
Proof.
  unfold DHCPv6Client_Unbound_start. cbv zeta.
  set (c0 := DHCPv6ClientPostNotification _).
  assert (our_ip c0 = in6addr_any /\ fault c0 = fault c) as (Hip & Hf).
  { subst c0. through. split; reflexivity. }
  clearbody c0.
  destruct (Solicit_start_outcome e c0)
    as (S1 & S2 & S3 & S4 & S5 & S6 & S7 & S8 & S9 & S10 & _ & _ & SF).
  cbv zeta in *.
  split.
  - unfold soliciting_anew.
    rewrite (keep_our_ip _ _ _ SF eq_refl). tauto.
  - rewrite (keep_fault _ _ _ SF eq_refl). exact Hf.
Qed.

(** ** Entering Bound *)

Lemma Decline_start_outcome (e : Env) (c : DHCPv6Client) :
  let c' := DHCPv6Client_Decline_start e c in
  cstate c' = kDHCPv6ClientStateDecline /\ saved c' = saved c /\
  saved_verified c' = false /\ our_ip c' = in6addr_any /\
  lease c' = lease_zero /\ fault c' = fault c.
Proof.
  cbv zeta. unfold DHCPv6Client_Decline_start. cbv zeta.
  set (c0 := DHCPv6ClientClearRetransmit _).
  assert (cstate c0 = kDHCPv6ClientStateDecline /\ saved c0 = saved c /\
          saved_verified c0 = false /\ our_ip c0 = in6addr_any /\
          lease c0 = lease_zero /\ fault c0 = fault c /\ try_ c0 = 0)
    as (A1 & A2 & A3 & A4 & A5 & A6 & A7).
  { subst c0. through. repeat split; reflexivity. }
  clearbody c0.
  destruct (new_transaction_id_fields e c0)
    as (N1 & N2 & N3 & N4 & N5 & _ & N7 & _ & _ & N10 & _).
  cbv zeta in N1, N2, N3, N4, N5, N7, N10.
  set (c1 := DHCPv6SocketEnableReceive DHCPv6Client_Decline_fn
               (new_transaction_id e c0)).
  assert (cstate c1 = kDHCPv6ClientStateDecline /\ saved c1 = saved c /\
          saved_verified c1 = false /\ our_ip c1 = in6addr_any /\
          lease c1 = lease_zero /\ fault c1 = fault c /\ try_ c1 = 0)
    as (C1 & C2 & C3 & C4 & C5 & C6 & C7).
  { subst c1. unfold DHCPv6SocketEnableReceive. repeat proj_set.
    repeat split; congruence. }
  clearbody c1. unfold DHCPv6Client_Decline_timeout. rewrite C7.
  change (0 >=? DHCPv6_DEC_MAX_RC) with false. cbv iota.
  destruct (NextRetransmit_fields e DHCPv6_DEC_TIMEOUT 0 c1)
    as (X1 & _ & _ & X4 & X5 & X6 & _ & _ & X9 & X10 & _).
  destruct (DHCPv6ClientNextRetransmit e DHCPv6_DEC_TIMEOUT 0 c1)
    as [rt c2]. cbn [snd] in X1, X4, X5, X6, X9, X10.
  rewrite cstate_SendPacket.
  destruct (SendPacket_fields e
              (timer_callout_set rt DHCPv6Client_Decline_fn
                                 IFEventID_timeout_e c2))
    as (F1 & F2 & F3 & F4 & F5 & _).
  cbv zeta in F1, F2, F3, F4, F5. rewrite F1, F2, F3, F4, F5.
  unfold timer_callout_set. repeat proj_set. repeat split; congruence.
Qed.

(** The scan of the kernel's list: the first entry for the client's address
    decides. *)
Lemma address_scan_outcome (e : Env) (l : list inet6_addrinfo_t)
    (c : DHCPv6Client) :
  cstate c = kDHCPv6ClientStateBound ->
  let c' := address_scan e l c in
  match report_in l (our_ip c) with
  | address_duplicated => c' = DHCPv6Client_Decline_start e c
  | address_ready =>
      if negb (lease_valid_lifetime (lease c) =? DHCP_INFINITE_LEASE)
         && Qlt_bool (time_at_AddressChanged e) (lease_start (lease c))
      then soliciting_anew c' /\ fault c' = fault c
      else cstate c' = kDHCPv6ClientStateBound /\ saved c' = saved c /\
           saved_verified c' = saved_verified c /\ lease c' = lease c /\
           fault c' = fault c
  | _ => c' = c
  end.
Proof.
  intros Hst. cbv zeta. unfold report_in.
  induction l as [|scan rest IH]; cbn [address_scan find].
  - reflexivity.
  - unfold IN6_ARE_ADDR_EQUAL in *.
    destruct (bytes_eqb (our_ip c) (addr scan)) eqn:Eq; [|exact IH].
    unfold has_flag.
    destruct (negb (Z.land (addr_flags scan) IN6_IFF_DUPLICATED =? 0));
      [reflexivity|].
    destruct (negb (Z.land (addr_flags scan) IN6_IFF_TENTATIVE =? 0));
      [reflexivity|].
    destruct (PostNotification_fields c)
      as (P1 & P2 & P3 & P4 & P5 & P6 & _).
    cbv zeta in P1, P2, P3, P4, P5, P6.
    destruct (CancelPendingEvents_fields (DHCPv6ClientPostNotification c))
      as (K1 & K2 & K3 & K4 & K5 & K6 & _).
    cbv zeta in K1, K2, K3, K4, K5, K6.
    set (c1 := DHCPv6ClientCancelPendingEvents
                 (DHCPv6ClientPostNotification c)) in *.
    assert (cstate c1 = cstate c /\ saved c1 = saved c /\
            saved_verified c1 = saved_verified c /\ fault c1 = fault c /\
            our_ip c1 = our_ip c /\ lease c1 = lease c)
      as (C1 & C2 & C3 & C4 & C5 & C6) by (repeat split; congruence).
    clearbody c1. rewrite C6.
    destruct (negb (lease_valid_lifetime (lease c) =? DHCP_INFINITE_LEASE));
      cbn [andb].
    2:{ repeat split; congruence. }
    destruct (Qlt_bool (time_at_AddressChanged e) (lease_start (lease c))).
    + destruct (Unbound_start_outcome e c1) as (U1 & U2).
      split; [exact U1|congruence].
    + destruct (schedule_renew_fields (time_at_AddressChanged e)
                  (time_at_AddressChanged e - lease_start (lease c))%Q c1)
        as (S1 & S2 & S3 & S4 & S5 & S6).
      cbv zeta in S1, S2, S3, S4, S5, S6. repeat split; congruence.
Qed.

(** The second half of the start case of Bound. *)
Lemma Bound_set_address_outcome (e : Env) (ip : list byte) (tss : Q)
    (v p : Z) (c : DHCPv6Client) :
  cstate c = kDHCPv6ClientStateBound ->
  let c' := Bound_set_address e ip tss v p c in
  match address_outcome e c ip with
  | kDHCPv6ClientStateDecline =>
      cstate c' = kDHCPv6ClientStateDecline /\ saved c' = saved c /\
      saved_verified c' = false /\ fault c' = fault c
  | kDHCPv6ClientStateSolicit => soliciting_anew c' /\ fault c' = fault c
  | _ =>
      cstate c' = kDHCPv6ClientStateBound /\ saved c' = saved c /\
      saved_verified c' = saved_verified c /\ lease c' = lease c /\
      fault c' = fault c
  end.
Proof.
  intros Hst. cbv zeta.
  unfold Bound_set_address, address_outcome, puts_new_address, holds_address.
  cbv zeta.
  destruct (inet6_dgram_socket_ok e); cbn [negb andb].
  2:{ repeat split; auto. }
  set (c1 := emit (AddrAdd _ _ _ _) _).
  assert (cstate c1 = cstate c /\ saved c1 = saved c /\
          saved_verified c1 = saved_verified c /\ fault c1 = fault c /\
          lease c1 = lease c) as (C1 & C2 & C3 & C4 & C5).
  { subst c1.
    destruct (negb (IN6_IS_ADDR_UNSPECIFIED (our_ip c))
              && negb (IN6_ARE_ADDR_EQUAL (our_ip c) ip));
      fields; repeat split; reflexivity. }
  clearbody c1.
  destruct (inet6_aifaddr_ok e); cbn [negb andb].
  2:{ repeat split; congruence. }
  destruct (negb (IN6_IS_ADDR_UNSPECIFIED (our_ip c))
            && IN6_ARE_ADDR_EQUAL (our_ip c) ip); cbn [negb].
  - (* the address that the client holds already *)
    destruct (PostNotification_fields c1)
      as (_ & P2 & P3 & P4 & P5 & P6 & _).
    cbv zeta in P2, P3, P4, P5, P6.
    destruct (CancelPendingEvents_fields (DHCPv6ClientPostNotification c1))
      as (K1 & K2 & K3 & K4 & _ & K6 & _).
    cbv zeta in K1, K2, K3, K4, K6.
    set (c2 := DHCPv6ClientCancelPendingEvents
                 (DHCPv6ClientPostNotification c1)) in *.
    assert (cstate c2 = cstate c /\ saved c2 = saved c /\
            saved_verified c2 = saved_verified c /\ fault c2 = fault c /\
            lease c2 = lease c) as (E1 & E2 & E3 & E4 & E5)
        by (repeat split; congruence).
    clearbody c2. rewrite E5.
    destruct (negb (lease_valid_lifetime (lease c) =? DHCP_INFINITE_LEASE)).
    + destruct (schedule_renew_fields (time_at_Bound_ready e) tss c2)
        as (S1 & S2 & S3 & S4 & _ & S6).
      cbv zeta in S1, S2, S3, S4, S6. repeat split; congruence.
    + repeat split; congruence.
  - (* a new address *)
    unfold DHCPv6ClientSimulateAddressChanged,
      DHCPv6ClientHandleAddressChanged, kernel_report.
    set (c2 := set_our_prefix_length _ _).
    assert (cstate c2 = kDHCPv6ClientStateBound /\ saved c2 = saved c /\
            saved_verified c2 = saved_verified c /\ fault c2 = fault c /\
            lease c2 = lease c /\ our_ip c2 = ip)
      as (E1 & E2 & E3 & E4 & E5 & E6).
    { subst c2. repeat proj_set. repeat split; congruence. }
    clearbody c2.
    pose proof (address_scan_outcome e (inet6_addrlist_copy e) c2 E1)
      as Hscan.
    cbv zeta in Hscan. rewrite E5, E6 in Hscan.
    destruct (inet6_addrlist_copy e) as [|a l].
    { cbn. repeat split; congruence. }
    rewrite E1. cbn [DHCPv6ClientState_eqb negb].
    destruct (report_in (a :: l) ip).
    + rewrite Hscan. repeat split; congruence.
    + rewrite Hscan.
      destruct (Decline_start_outcome e c2) as (D1 & D2 & D3 & _ & _ & D6).
      cbv zeta in D1, D2, D3, D6. repeat split; congruence.
    + rewrite Hscan. repeat split; congruence.
    + destruct (negb (lease_valid_lifetime (lease c) =? DHCP_INFINITE_LEASE)
                && Qlt_bool (time_at_AddressChanged e)
                            (lease_start (lease c))).
      * destruct Hscan as (S1 & S2). split; [exact S1|congruence].
      * destruct Hscan as (S1 & S2 & S3 & S4 & S5).
        repeat split; congruence.
Qed.

Lemma address_outcome_same (e : Env) (c c' : DHCPv6Client) (a : list byte) :
  lease c' = lease c -> our_ip c' = our_ip c ->
  address_outcome e c' a = address_outcome e c a.
Proof.
  intros Hl Hip.
  unfold address_outcome, puts_new_address, holds_address.
  rewrite Hl, Hip. reflexivity.
Qed.

Lemma Bound_outcome_same (e : Env) (c c' : DHCPv6Client) (a : list byte) :
  lease c' = lease c -> our_ip c' = our_ip c ->
  Bound_outcome e c' a = Bound_outcome e c a.
Proof.
  intros Hl Hip. unfold Bound_outcome.
  rewrite (address_outcome_same e c c' a Hl Hip), Hl. reflexivity.
Qed.

(** The start case of Bound, by the state in which it leaves the client. *)
Lemma Bound_start_cases (e : Env) (c : DHCPv6Client) (ia : list byte) :
  ia_addr c = Some ia ->
  let c' := DHCPv6Client_Bound_start e c in
  match Bound_outcome e c (DHCPv6OptionIAADDRGetAddress ia) with
  | kDHCPv6ClientStateDecline =>
      cstate c' = kDHCPv6ClientStateDecline /\ saved c' = saved c /\
      saved_verified c' = false /\ fault c' = fault c
  | kDHCPv6ClientStateSolicit => soliciting_anew c' /\ fault c' = fault c
  | _ =>
      cstate c' = kDHCPv6ClientStateBound /\ saved c' = saved c /\
      saved_verified c' = true /\ lease c' = lease (set_lease_valid true c) /\
      fault c' = fault c
  end.
Proof.
  intros Hia. cbv zeta.
  unfold DHCPv6Client_Bound_start, Bound_outcome, lease_has_run_out.
  rewrite Hia. cbv zeta.
  set (ip := DHCPv6OptionIAADDRGetAddress ia).
  set (c1 := DHCPv6ClientCancelPendingEvents _).
  assert (cstate c1 = kDHCPv6ClientStateBound /\ saved c1 = saved c /\
          saved_verified c1 = true /\ fault c1 = fault c /\
          lease_valid_lifetime (lease c1) = lease_valid_lifetime (lease c) /\
          lease_preferred_lifetime (lease c1)
          = lease_preferred_lifetime (lease c) /\
          lease_start (lease c1) = lease_start (lease c) /\
          lease c1 = lease (set_lease_valid true c) /\
          our_ip c1 = our_ip c)
    as (C1 & C2 & C3 & C4 & C5 & C5' & C6 & C7 & C8).
  { subst c1. fields. repeat split; reflexivity. }
  clearbody c1. rewrite C5, C5', C6.
  assert (address_outcome e c1 ip = address_outcome e c ip) as Eo.
  { unfold address_outcome, puts_new_address, holds_address.
    rewrite C5, C6, C8. reflexivity. }
  assert (forall tss v p,
            let c' := Bound_set_address e ip tss v p c1 in
            match address_outcome e c ip with
            | kDHCPv6ClientStateDecline =>
                cstate c' = kDHCPv6ClientStateDecline /\
                saved c' = saved c /\ saved_verified c' = false /\
                fault c' = fault c
            | kDHCPv6ClientStateSolicit =>
                soliciting_anew c' /\ fault c' = fault c
            | _ =>
                cstate c' = kDHCPv6ClientStateBound /\ saved c' = saved c /\
                saved_verified c' = true /\
                lease c' = lease (set_lease_valid true c) /\
                fault c' = fault c
            end) as Hset.
  { intros tss v p.
    pose proof (Bound_set_address_outcome e ip tss v p c1 C1) as H.
    cbv zeta in *. rewrite Eo in H.
    destruct (address_outcome e c ip);
      try (destruct H as (H1 & H2 & H3 & H4 & H5);
           repeat split; congruence).
    - destruct H as (H1 & H2). split; [exact H1|congruence].
    - destruct H as (H1 & H2 & H3 & H4). repeat split; congruence. }
  destruct (Unbound_start_outcome e c1) as (U1 & U2). rewrite C4 in U2.
  destruct (negb (lease_valid_lifetime (lease c) =? DHCP_INFINITE_LEASE));
    cbn [andb]; [|apply Hset].
  destruct (Qlt_bool (time_at_Bound e) (lease_start (lease c)));
    cbn [orb]; [split; assumption|].
  rewrite Z.geb_leb.
  destruct (lease_valid_lifetime (lease c)
            <=? double_to_uint32 (time_at_Bound e - lease_start (lease c)));
    [split; assumption|apply Hset].
Qed.

(** X12.  The start case of Bound, by the state in which it leaves the
    client.  When the lease is finite and, at the reading of the clock that
    Bound takes, starts in the future or has lasted its valid lifetime, the
    client goes through Unbound to Solicit.  Otherwise the address is set.
    When that puts a new address on the interface (the socket opens, the
    ioctl succeeds and the client did not hold the address), the kernel's
    first entry for the address decides: flagged as a duplicate, the client
    goes on to Decline and what is saved is no longer trusted; ready (neither
    duplicate nor tentative) with a finite lease that starts after one more
    reading of the clock, the client goes through Unbound to Solicit.  In
    every other case the client is in Bound with the saved packet trusted
    and the lease marked valid. *)
Theorem DHCPv6Client_Bound_outcome (e : Env) (c : DHCPv6Client)
    (ia : list byte) :
  ia_addr c = Some ia ->
  let c' := DHCPv6Client_Bound_start e c in
  match Bound_outcome e c (DHCPv6OptionIAADDRGetAddress ia) with
  | kDHCPv6ClientStateDecline =>
      cstate c' = kDHCPv6ClientStateDecline /\ saved c' = saved c /\
      saved_verified c' = false /\ fault c' = fault c
  | kDHCPv6ClientStateSolicit => soliciting_anew c' /\ fault c' = fault c
  | _ =>
      cstate c' = kDHCPv6ClientStateBound /\ saved c' = saved c /\
      saved_verified c' = true /\ lease c' = lease (set_lease_valid true c) /\
      fault c' = fault c
  end.
Proof. exact (Bound_start_cases e c ia). Qed.

Lemma DHCPv6Client_Bound_outcome_witness :
  let e := example_env_duplicate in
  let c := DHCPv6ClientSavePacket e example_reply example_requesting in
  let c' := DHCPv6Client_Bound_start e c in
  ia_addr c = Some example_ia_addr /\
  kernel_report e example_addr = address_duplicated /\
  Bound_outcome e c example_addr = kDHCPv6ClientStateDecline /\
  cstate c' = kDHCPv6ClientStateDecline /\ saved c' = saved c /\
  saved_verified c' = false /\ fault c' = false.
Proof.
  cbv zeta.
  set (e := example_env_duplicate).
  set (c := DHCPv6ClientSavePacket e example_reply example_requesting).
  assert (ia_addr c = Some example_ia_addr) as Hia
      by (vm_compute; reflexivity).
  assert (Bound_outcome e c (DHCPv6OptionIAADDRGetAddress example_ia_addr)
          = kDHCPv6ClientStateDecline) as Ho by (vm_compute; reflexivity).
  pose proof (DHCPv6Client_Bound_outcome e c example_ia_addr Hia) as H.
  cbv zeta in H. rewrite Ho in H. destruct H as (H1 & H2 & H3 & H4).
  split; [exact Hia|]. split; [vm_compute; reflexivity|].
  split; [exact Ho|]. split; [exact H1|]. split; [exact H2|].
  split; [exact H3|]. rewrite H4. vm_compute. reflexivity.
Defined.

(** ** Replies in Request, Renew, Rebind and Confirm *)

(** X1.  In the Request state a matching REPLY (with a well-formed top-level
    STATUS_CODE) is handled in this order: if the top-level status is
    NoAddrsAvail it is ignored and the client stays as it is, in Request;
    otherwise, if the status read inside the IA_NA is NotOnLink, the client
    restarts Solicit; otherwise, if get_ia_na_addr_code found no usable IA_NA
    and IAADDR (whatever the IA_NA status, NoAddrsAvail included), the
    message is dropped and the client stays as it is, in Request; otherwise
    the packet is saved, with a lease that starts at the reading of the
    clock that DHCPv6ClientSavePacket takes, and the client enters Bound.
    Where the client is left is decided there, at later readings of the
    clock: in Solicit with everything given up, when the lease has run out
    at the reading of Bound or starts after the reading taken for a new
    address that the kernel reports ready; in Decline with the packet saved
    but no longer trusted, exactly when the address is newly put on the
    interface and the kernel's first entry for it is flagged as a
    duplicate; in Bound with the packet saved and trusted, in every other
    case. *)
Theorem DHCPv6Client_Request_reply (e : Env) (data : DHCPv6SocketReceiveData)
    (c : DHCPv6Client) (code : Z) :
  cstate c = kDHCPv6ClientStateRequest -> fault c = false ->
  acceptable_message e kDHCPv6MessageREPLY data c code ->
  let ia_na_code := snd (get_ia_na_addr_code e (data_options data)) in
  let binding := fst (get_ia_na_addr_code e (data_options data)) in
  let c1 := duid_looked_up e c in
  let c2 := DHCPv6ClientSavePacket e data c1 in
  let packet := mkInfo (Some (data_pkt data)) (data_pkt_len data)
                       (Some (data_options data)) in
  let c' := DHCPv6Client_Request_data e data c in
  if code =? kDHCPv6StatusCodeNoAddrsAvail then
    c' = c1 /\ cstate c' = kDHCPv6ClientStateRequest
  else if ia_na_code =? kDHCPv6StatusCodeNotOnLink then
    c' = DHCPv6Client_Solicit_start e c1 /\
    cstate c' = kDHCPv6ClientStateSolicit
  else
    match binding with
    | (Some _, Some ad) =>
        c' = DHCPv6Client_Bound_start e c2 /\
        lease_start (lease c2) = timer_get_current_time e /\
        our_ip c2 = our_ip c /\
        match Bound_outcome e c2 (DHCPv6OptionIAADDRGetAddress ad) with
        | kDHCPv6ClientStateSolicit => soliciting_anew c'
        | kDHCPv6ClientStateDecline =>
            cstate c' = kDHCPv6ClientStateDecline /\ saved c' = packet /\
            saved_verified c' = false
        | _ =>
            cstate c' = kDHCPv6ClientStateBound /\ saved c' = packet /\
            saved_verified c' = true
        end
    | _ => c' = c1 /\ cstate c' = kDHCPv6ClientStateRequest
    end.
Proof.
  intros Hst Hfault (Hm & Hcode & Hwf). cbv zeta.
  unfold DHCPv6Client_Request_data.
  destruct (prologue_accepts e _ data c Hm) as [Hn Hs].
  rewrite Hn, Hs, Hcode. cbn [negb].
  destruct (duid_looked_up_same e c) as (D1 & _ & _ & D4 & _ & _ & D7 & _).
  cbv zeta in D1, D4, D7.
  set (c1 := duid_looked_up e c) in *.
  destruct (code =? kDHCPv6StatusCodeNoAddrsAvail).
  { split; [reflexivity|congruence]. }
  pose proof (get_ia_na_addr_code_cases e (data_options data)) as Hcases.
  assert (get_ia_na_addr e (data_options data)
          = fst (get_ia_na_addr_code e (data_options data))) as Hg
      by reflexivity.
  destruct (get_ia_na_addr_code e (data_options data)) as [[na ad] code2].
  cbn [fst snd] in *.
  destruct (code2 =? kDHCPv6StatusCodeNotOnLink).
  { split; [reflexivity|]. apply cstate_Solicit_start. }
  destruct na as [na|].
  2:{ destruct ad; split; try reflexivity; congruence. }
  destruct ad as [ad|]; [|contradiction].
  destruct (DHCPv6ClientSavePacket_lease e data c1 _ na ad Hwf Hg)
    as (_ & Ls & _ & _ & _ & Lf & _ & Lia & _ & _ & _ & _ & Lip & _).
  cbv zeta in Ls, Lf, Lia, Lip.
  pose proof (DHCPv6ClientSavePacket_saved e data c1) as Hsaved.
  rewrite Hwf in Hsaved.
  set (c2 := DHCPv6ClientSavePacket e data c1) in *.
  rewrite Lf, D4, Hfault.
  split; [reflexivity|]. split; [exact Ls|]. split; [congruence|].
  pose proof (Bound_start_cases e c2 ad Lia) as HB. cbv zeta in HB.
  destruct (Bound_outcome e c2 (DHCPv6OptionIAADDRGetAddress ad));
    try (destruct HB as (H1 & H2 & H3 & _); repeat split; congruence).
  exact (proj1 HB).
Qed.

Lemma DHCPv6Client_Request_reply_witness :
  let c' := DHCPv6Client_Request_data env_wired example_reply
                                      example_requesting in
  cstate example_requesting = kDHCPv6ClientStateRequest /\
  saved c' = mkInfo (Some (data_pkt example_reply))
                    (data_pkt_len example_reply)
                    (Some (data_options example_reply)) /\
  cstate c' = kDHCPv6ClientStateBound /\ saved_verified c' = true.
Proof.
  assert (cstate example_requesting = kDHCPv6ClientStateRequest) as Hst
      by (vm_compute; reflexivity).
  assert (fault example_requesting = false) as Hf
      by (vm_compute; reflexivity).
  pose proof (DHCPv6Client_Request_reply env_wired example_reply
                example_requesting kDHCPv6StatusCodeSuccess Hst Hf
                example_reply_acceptable) as H.
  cbv zeta in H.
  assert (get_ia_na_addr_code env_wired (data_options example_reply)
          = (Some example_ia_na, Some example_ia_addr,
             kDHCPv6StatusCodeSuccess)) as E by (vm_compute; reflexivity).
  rewrite E in H. cbn [fst snd] in H.
  change (kDHCPv6StatusCodeSuccess =? kDHCPv6StatusCodeNoAddrsAvail)
    with false in H.
  change (kDHCPv6StatusCodeSuccess =? kDHCPv6StatusCodeNotOnLink)
    with false in H.
  cbv iota in H. destruct H as (_ & _ & _ & H).
  match type of H with
  | context [Bound_outcome ?a ?b ?d] =>
      assert (Bound_outcome a b d = kDHCPv6ClientStateBound) as Eo
          by (vm_compute; reflexivity)
  end.
  rewrite Eo in H. destruct H as (H1 & H2 & H3).
  cbv zeta. split; [exact Hst|]. split; [exact H2|]. split; assumption.
Defined.

(** The same REPLY when the kernel flags the new address as a duplicate,
    and when the clock has moved on by 900 seconds, the valid lifetime of
    the lease, between the reading of DHCPv6ClientSavePacket and that of
    Bound. *)
Example request_reply_duplicate :
  cstate (socket_receive example_env_duplicate example_reply
                         example_requesting)
  = kDHCPv6ClientStateDecline.
Proof. vm_compute. reflexivity. Qed.

Example request_reply_clock_moved :
  let c' := socket_receive (example_env_readings 1000 1900 []) example_reply
                           example_requesting in
  cstate c' = kDHCPv6ClientStateSolicit /\ saved c' = no_info.
Proof. cbv zeta. split; vm_compute; reflexivity. Qed.

(** X6.  In Renew and Rebind a matching REPLY (with a well-formed top-level
    STATUS_CODE) either renews the lease or costs the address.  A status
    other than Success, or a REPLY without a usable IA_NA and IAADDR, takes
    the client through Unbound to Solicit: the address is removed, and the
    saved packet and the lease are cleared.  Otherwise the packet is saved
    with its new lease, which starts at the reading of the clock that
    DHCPv6ClientSavePacket takes, and the client enters Bound.  Where the
    client is left is decided there, at later readings of the clock: in
    Solicit, when the lease has run out at the reading of Bound or starts
    after the reading taken for a new address that the kernel reports ready;
    in Decline with the packet saved but no longer trusted, exactly when the
    address is not the one the client holds, is put on the interface, and
    the kernel's first entry for it is flagged as a duplicate (for the
    address that the client holds the kernel's list is not looked at); in
    Bound with the packet saved and trusted, in every other case. *)
Theorem DHCPv6Client_RenewRebind_reply (e : Env)
    (data : DHCPv6SocketReceiveData) (c : DHCPv6Client) (code : Z) :
  fault c = false ->
  acceptable_message e kDHCPv6MessageREPLY data c code ->
  let binding := get_ia_na_addr e (data_options data) in
  let c1 := duid_looked_up e c in
  let c2 := DHCPv6ClientSavePacket e data c1 in
  let packet := mkInfo (Some (data_pkt data)) (data_pkt_len data)
                       (Some (data_options data)) in
  let c' := DHCPv6Client_RenewRebind_data e data c in
  if negb (code =? kDHCPv6StatusCodeSuccess) then
    c' = DHCPv6Client_Unbound_start e c1 /\ soliciting_anew c'
  else
    match binding with
    | (Some _, Some ad) =>
        c' = DHCPv6Client_Bound_start e c2 /\
        lease_start (lease c2) = timer_get_current_time e /\
        our_ip c2 = our_ip c /\
        match Bound_outcome e c2 (DHCPv6OptionIAADDRGetAddress ad) with
        | kDHCPv6ClientStateSolicit => soliciting_anew c'
        | kDHCPv6ClientStateDecline =>
            cstate c' = kDHCPv6ClientStateDecline /\ saved c' = packet /\
            saved_verified c' = false
        | _ =>
            cstate c' = kDHCPv6ClientStateBound /\ saved c' = packet /\
            saved_verified c' = true
        end
    | _ => c' = DHCPv6Client_Unbound_start e c1 /\ soliciting_anew c'
    end.
Proof.
  intros Hfault (Hm & Hcode & Hwf). cbv zeta.
  unfold DHCPv6Client_RenewRebind_data.
  destruct (prologue_accepts e _ data c Hm) as [Hn Hs].
  rewrite Hn, Hs, Hcode. cbn [negb].
  destruct (duid_looked_up_same e c) as (D1 & _ & _ & D4 & _ & _ & D7 & _).
  cbv zeta in D1, D4, D7.
  set (c1 := duid_looked_up e c) in *.
  destruct (negb (code =? kDHCPv6StatusCodeSuccess)).
  { split; [reflexivity|apply Unbound_start_outcome]. }
  pose proof (get_ia_na_addr_code_cases e (data_options data)) as Hcases.
  unfold get_ia_na_addr.
  assert (get_ia_na_addr e (data_options data)
          = fst (get_ia_na_addr_code e (data_options data))) as Hg
      by reflexivity.
  destruct (get_ia_na_addr_code e (data_options data)) as [[na ad] code2].
  cbn [fst snd] in *.
  destruct na as [na|].
  2:{ destruct ad; (split; [reflexivity|apply Unbound_start_outcome]). }
  destruct ad as [ad|]; [|contradiction].
  destruct (DHCPv6ClientSavePacket_lease e data c1 _ na ad Hwf Hg)
    as (_ & Ls & _ & _ & _ & Lf & _ & Lia & _ & _ & _ & _ & Lip & _).
  cbv zeta in Ls, Lf, Lia, Lip.
  pose proof (DHCPv6ClientSavePacket_saved e data c1) as Hsaved.
  rewrite Hwf in Hsaved.
  set (c2 := DHCPv6ClientSavePacket e data c1) in *.
  rewrite Lf, D4, Hfault.
  split; [reflexivity|]. split; [exact Ls|]. split; [congruence|].
  pose proof (Bound_start_cases e c2 ad Lia) as HB. cbv zeta in HB.
  destruct (Bound_outcome e c2 (DHCPv6OptionIAADDRGetAddress ad));
    try (destruct HB as (H1 & H2 & H3 & _); repeat split; congruence).
  exact (proj1 HB).
Qed.

Lemma example_renew_reply_acceptable :
  acceptable_message (example_env_addrs 1400 [mkAddrInfo example_addr 0])
                     kDHCPv6MessageREPLY example_renew_reply
                     example_renewing kDHCPv6StatusCodeSuccess.
Proof.
  split; [|split]; try (vm_compute; reflexivity).
  split; [|split; [|split]]; try (vm_compute; reflexivity).
  exists example_server_duid. split; vm_compute; reflexivity.
Qed.

Lemma DHCPv6Client_RenewRebind_reply_witness :
  let e := example_env_addrs 1400 [mkAddrInfo example_addr 0] in
  let c' := DHCPv6Client_RenewRebind_data e example_renew_reply
                                          example_renewing in
  cstate example_renewing = kDHCPv6ClientStateRenew /\
  fault example_renewing = false /\
  holds_address example_renewing example_addr = true /\
  saved c' = mkInfo (Some (data_pkt example_renew_reply))
                    (data_pkt_len example_renew_reply)
                    (Some (data_options example_renew_reply)) /\
  cstate c' = kDHCPv6ClientStateBound /\ saved_verified c' = true.
Proof.
  assert (fault example_renewing = false) as Hf
      by (vm_compute; reflexivity).
  pose proof (DHCPv6Client_RenewRebind_reply
                (example_env_addrs 1400 [mkAddrInfo example_addr 0])
                example_renew_reply example_renewing
                kDHCPv6StatusCodeSuccess Hf
                example_renew_reply_acceptable) as H.
  cbv zeta in H.
  assert (get_ia_na_addr (example_env_addrs 1400
                            [mkAddrInfo example_addr 0])
                         (data_options example_renew_reply)
          = (Some example_ia_na, Some example_ia_addr)) as E
      by (vm_compute; reflexivity).
  rewrite E in H.
  change (negb (kDHCPv6StatusCodeSuccess =? kDHCPv6StatusCodeSuccess))
    with false in H.
  cbv iota in H. destruct H as (_ & _ & _ & H).
  match type of H with
  | context [Bound_outcome ?a ?b ?d] =>
      assert (Bound_outcome a b d = kDHCPv6ClientStateBound) as Eo
          by (vm_compute; reflexivity)
  end.
  rewrite Eo in H. destruct H as (H1 & H2 & H3).
  cbv zeta. split; [vm_compute; reflexivity|]. split; [exact Hf|].
  split; [vm_compute; reflexivity|]. split; [exact H2|].
  split; assumption.
Defined.

(** A renewal of the address that the client holds does not look at the
    kernel's list: the REPLY leaves the client in Bound although the kernel
    flags the address as a duplicate. *)
Example renew_reply_same_address_not_scanned :
  let e := example_env_addrs 1400
             [mkAddrInfo example_addr IN6_IFF_DUPLICATED] in
  kernel_report e example_addr = address_duplicated /\
  cstate (socket_receive e example_renew_reply example_renewing)
  = kDHCPv6ClientStateBound.
Proof. cbv zeta. split; vm_compute; reflexivity. Qed.

Lemma Confirm_data_outcome (e : Env)
    (data : DHCPv6SocketReceiveData) (c : DHCPv6Client) (code : Z) :
  fault c = false ->
  acceptable_message e kDHCPv6MessageREPLY data c code ->
  let c1 := duid_looked_up e c in
  let c' := DHCPv6Client_Confirm_data e data c in
  if negb (code =? kDHCPv6StatusCodeSuccess) then
    c' = DHCPv6Client_Unbound_start e c1 /\ soliciting_anew c'
  else
    c' = DHCPv6Client_Bound_start e c1 /\
    match ia_addr c with
    | None => fault c' = true
    | Some ia =>
        match Bound_outcome e c (DHCPv6OptionIAADDRGetAddress ia) with
        | kDHCPv6ClientStateSolicit => soliciting_anew c'
        | kDHCPv6ClientStateDecline =>
            cstate c' = kDHCPv6ClientStateDecline /\ saved c' = saved c /\
            saved_verified c' = false
        | _ =>
            cstate c' = kDHCPv6ClientStateBound /\ saved c' = saved c /\
            saved_verified c' = true /\ lease_confirmed c c'
        end
    end.
Proof.
  intros Hfault (Hm & Hcode & Hwf). cbv zeta.
  unfold DHCPv6Client_Confirm_data.
  destruct (prologue_accepts e _ data c Hm) as [Hn Hs].
  rewrite Hn, Hs, Hcode. cbn [negb].
  destruct (duid_looked_up_same e c)
    as (_ & _ & D3 & D4 & D5 & _ & D7 & _ & _ & D10).
  cbv zeta in D3, D4, D5, D7, D10.
  set (c1 := duid_looked_up e c) in *. clearbody c1.
  destruct (negb (code =? kDHCPv6StatusCodeSuccess)).
  { split; [reflexivity|apply Unbound_start_outcome]. }
  split; [reflexivity|].
  destruct (ia_addr c) as [ia|] eqn:Eia.
  - pose proof (Bound_start_cases e c1 ia D10) as HB. cbv zeta in HB.
    rewrite (Bound_outcome_same e c c1 _ D5 D7) in HB.
    destruct (Bound_outcome e c (DHCPv6OptionIAADDRGetAddress ia));
      try (destruct HB as (H1 & H2 & H3 & H4 & _);
           split; [exact H1|]; split; [congruence|]; split; [exact H3|];
           unfold lease_confirmed, stored_times;
           rewrite H4, <- D5; unfold set_lease_valid; repeat proj_set;
           repeat split; reflexivity).
    + exact (proj1 HB).
    + destruct HB as (H1 & H2 & H3 & _). repeat split; congruence.
  - unfold DHCPv6Client_Bound_start. rewrite D10. reflexivity.
Qed.

(** X7.  In Confirm a matching REPLY (with a well-formed top-level
    STATUS_CODE) is judged by its status alone.  A status other than
    Success takes the client through Unbound to Solicit.  With Success the
    client enters Bound with what it has saved: nothing of the REPLY is
    kept.  When no address is saved any more, Bound reads the address
    through the NULL pointer.  Otherwise the client is left in Solicit, when
    the lease has run out at the reading of the clock that Bound takes or
    starts after the reading taken for a new address that the kernel reports
    ready; in Decline with the saved packet kept but no longer trusted,
    exactly when the address is newly put on the interface and the kernel's
    first entry for it is flagged as a duplicate; and in every other case
    in Bound, with the saved packet kept and trusted and the lease marked
    valid with its times as they were. *)
Theorem DHCPv6Client_Confirm_reply (e : Env)
    (data : DHCPv6SocketReceiveData) (c : DHCPv6Client) (code : Z) :
  fault c = false ->
  acceptable_message e kDHCPv6MessageREPLY data c code ->
  let c1 := duid_looked_up e c in
  let c' := DHCPv6Client_Confirm_data e data c in
  if negb (code =? kDHCPv6StatusCodeSuccess) then
    c' = DHCPv6Client_Unbound_start e c1 /\ soliciting_anew c'
  else
    c' = DHCPv6Client_Bound_start e c1 /\
    match ia_addr c with
    | None => fault c' = true
    | Some ia =>
        match Bound_outcome e c (DHCPv6OptionIAADDRGetAddress ia) with
        | kDHCPv6ClientStateSolicit => soliciting_anew c'
        | kDHCPv6ClientStateDecline =>
            cstate c' = kDHCPv6ClientStateDecline /\ saved c' = saved c /\
            saved_verified c' = false
        | _ =>
            cstate c' = kDHCPv6ClientStateBound /\ saved c' = saved c /\
            saved_verified c' = true /\ lease_confirmed c c'
        end
    end.
Proof. exact (Confirm_data_outcome e data c code). Qed.

Lemma example_confirm_reply_acceptable (now : Q) :
  acceptable_message (example_env_addrs now [mkAddrInfo example_addr 0])
                     kDHCPv6MessageREPLY example_confirm_reply
                     example_confirming kDHCPv6StatusCodeSuccess.
Proof.
  split; [|split]; try (vm_compute; reflexivity).
  split; [|split; [|split]]; try (vm_compute; reflexivity).
  exists example_server_duid. split; vm_compute; reflexivity.
Qed.

Lemma DHCPv6Client_Confirm_reply_witness :
  let e := example_env_addrs 1101 [mkAddrInfo example_addr 0] in
  let c' := DHCPv6Client_Confirm_data e example_confirm_reply
                                      example_confirming in
  cstate example_confirming = kDHCPv6ClientStateConfirm /\
  fault example_confirming = false /\
  lease_has_run_out 1101 (lease example_confirming) = false /\
  saved c' = saved example_confirming /\
  cstate c' = kDHCPv6ClientStateBound /\ saved_verified c' = true /\
  lease_confirmed example_confirming c'.
Proof.
  assert (fault example_confirming = false) as Hf
      by (vm_compute; reflexivity).
  pose proof (DHCPv6Client_Confirm_reply
                (example_env_addrs 1101 [mkAddrInfo example_addr 0])
                example_confirm_reply example_confirming
                kDHCPv6StatusCodeSuccess Hf
                (example_confirm_reply_acceptable 1101)) as H.
  cbv zeta in H.
  change (negb (kDHCPv6StatusCodeSuccess =? kDHCPv6StatusCodeSuccess))
    with false in H.
  cbv iota in H. destruct H as (_ & H).
  assert (ia_addr example_confirming = Some example_ia_addr) as E
      by (vm_compute; reflexivity).
  rewrite E in H.
  match type of H with
  | context [Bound_outcome ?a ?b ?d] =>
      assert (Bound_outcome a b d = kDHCPv6ClientStateBound) as Eo
          by (vm_compute; reflexivity)
  end.
  rewrite Eo in H. destruct H as (B1 & B2 & B3 & B4).
  cbv zeta. split; [vm_compute; reflexivity|]. split; [exact Hf|].
  split; [vm_compute; reflexivity|]. split; [exact B2|].
  split; [exact B1|]. split; [exact B3|exact B4].
Defined.

(** ** Wake *)

(** Entering Renew with a lease that has run out at the reading of the clock
    that DHCPv6Client_RenewRebind takes: through Unbound to Solicit. *)
Lemma RenewRebind_start_run_out (e : Env) (c : DHCPv6Client) :
  fst (DHCPv6ClientLeaseStillValid e (time_at_RenewRebind e) c) = false ->
  soliciting_anew (DHCPv6Client_RenewRebind_start e c).
Proof.
  intros Hout. unfold DHCPv6Client_RenewRebind_start. cbv zeta.
  set (c1 := DHCPv6SocketEnableReceive DHCPv6Client_RenewRebind_fn _).
  assert (lease c1 = lease c) as C2.
  { subst c1. unfold DHCPv6SocketEnableReceive. repeat proj_set.
    match goal with
    | |- context [new_transaction_id e ?x] =>
        destruct (new_transaction_id_fields e x) as (_ & _ & N3 & _)
    end.
    cbv zeta in N3. rewrite N3. fields. reflexivity. }
  clearbody c1. unfold DHCPv6Client_RenewRebind_timeout. cbv zeta.
  assert (fst (DHCPv6ClientLeaseStillValid e (time_at_RenewRebind e) c1)
          = false) as Hv1.
  { rewrite DHCPv6ClientLeaseStillValid_fst, C2,
      <- (DHCPv6ClientLeaseStillValid_fst e (time_at_RenewRebind e) c).
    exact Hout. }
  destruct (DHCPv6ClientLeaseStillValid e (time_at_RenewRebind e) c1)
    as [ok c2]. cbn [fst] in Hv1. subst ok. cbn [negb].
  apply Unbound_start_outcome.
Qed.

(** X3.  Wake on the same link with a lease that is still valid at the
    reading of the clock that DHCPv6ClientHandleWake takes, in Bound, Renew
    or Rebind, and no BSSID change.  With an INFINITE valid_lifetime the
    client is left as it is.  Otherwise, when the renew/rebind time scheduled
    before is later than that reading by at least G_wake_skew_secs, only the
    timer is set again, for the difference of the two, and the state stays;
    else Renew is entered at once.  DHCPv6Client_RenewRebind reads the clock
    again and tests the lease at its own reading: still valid there, the
    client is in Renew (and leaves it for Rebind in the same step when T2
    has passed at that reading); no longer valid there, it goes through
    Unbound to Solicit. *)
Theorem DHCPv6ClientHandleWake_bound (e : Env) (link_event : link_event_data_t)
    (c : DHCPv6Client) :
  wake_on_same_link e link_event ->
  fst (DHCPv6ClientLeaseStillValid e (timer_get_current_time e) c) = true ->
  S_dhcp_state_is_bound_renew_or_rebind (cstate c) = true ->
  info link_event <> kLinkInfoBSSIDChanged ->
  let now := timer_get_current_time e in
  let again := time_at_RenewRebind e in
  let c' := DHCPv6ClientHandleWake e link_event c in
  (lease_valid_lifetime (lease c) = DHCP_INFINITE_LEASE -> c' = c) /\
  (lease_valid_lifetime (lease c) <> DHCP_INFINITE_LEASE ->
   (later_by_at_least now (renew_rebind_time c)
                      (inject_Z (G_wake_skew_secs e)) ->
    c' = set_timer (Some (mkTimer (renew_rebind_time c - now)
                                  DHCPv6Client_RenewRebind_fn
                                  IFEventID_start_e)) c /\
    cstate c' = cstate c) /\
   (~ later_by_at_least now (renew_rebind_time c)
                        (inject_Z (G_wake_skew_secs e)) ->
    c' = DHCPv6Client_RenewRebind_start e c /\
    (fst (DHCPv6ClientLeaseStillValid e again c) = true ->
     (exists pre,
        trace c' = pre ++ LogState kDHCPv6ClientStateRenew :: trace c) /\
     cstate c'
     = (if double_to_uint32 (again - lease_start (lease c))
           <? lease_t2 (lease c)
        then kDHCPv6ClientStateRenew else kDHCPv6ClientStateRebind)) /\
    (fst (DHCPv6ClientLeaseStillValid e again c) = false ->
     soliciting_anew c'))).
Proof.
  intros Hlink Hvalid Hbrr Hbssid. cbv zeta.
  unfold DHCPv6ClientHandleWake. cbv zeta.
  rewrite (wake_on_same_link_test e link_event Hlink).
  rewrite (DHCPv6ClientLeaseStillValid_true e _ c Hvalid). cbn [negb].
  rewrite Hbrr. cbn [negb orb].
  assert (link_info_eqb (info link_event) kLinkInfoBSSIDChanged = false) as Hb.
  { destruct (info link_event); try reflexivity. contradiction. }
  rewrite Hb.
  destruct (Z.eqb_spec (lease_valid_lifetime (lease c)) DHCP_INFINITE_LEASE)
    as [Hinf|Hfin].
  { split; [reflexivity|]. intros H. contradiction. }
  split; [intros H; contradiction|]. intros _.
  destruct (S_time_in_future (timer_get_current_time e) (renew_rebind_time c)
                             (inject_Z (G_wake_skew_secs e))) eqn:Ef.
  - apply S_time_in_future_iff in Ef. split.
    + intros _. split; reflexivity.
    + intros H. contradiction.
  - split.
    + intros H. apply S_time_in_future_iff in H. congruence.
    + intros _. split; [reflexivity|]. split.
      * intros Hv. destruct (RenewRebind_start_outcome e c Hv) as (Ht & Hs & _).
        split; assumption.
      * apply RenewRebind_start_run_out.
Qed.

Lemma DHCPv6ClientHandleWake_bound_witness :
  let e := example_env_addrs 1100 [mkAddrInfo example_addr 0] in
  let c' := DHCPv6ClientHandleWake e example_wake_event example_bound in
  cstate example_bound = kDHCPv6ClientStateBound /\
  (renew_rebind_time example_bound == 1300)%Q /\
  cstate c' = kDHCPv6ClientStateBound /\
  c' = set_timer (Some (mkTimer (renew_rebind_time example_bound - 1100)
                                DHCPv6Client_RenewRebind_fn
                                IFEventID_start_e)) example_bound.
Proof.
  cbv zeta.
  assert (wake_on_same_link (example_env_addrs 1100
                               [mkAddrInfo example_addr 0])
                            example_wake_event) as Hl.
  { split; [reflexivity|]. split; [discriminate|reflexivity]. }
  assert (later_by_at_least 1100 (renew_rebind_time example_bound)
                            (inject_Z 30)) as Hlater.
  { split; vm_compute; [reflexivity|discriminate]. }
  destruct (DHCPv6ClientHandleWake_bound
              (example_env_addrs 1100 [mkAddrInfo example_addr 0])
              example_wake_event example_bound Hl)
    as (_ & Hfin).
  - vm_compute. reflexivity.
  - vm_compute. reflexivity.
  - discriminate.
  - destruct Hfin as (Hre & _); [vm_compute; discriminate|].
    destruct (Hre Hlater) as (Hc & Hs).
    split; [vm_compute; reflexivity|].
    split; [vm_compute; reflexivity|].
    split; [rewrite Hs; vm_compute; reflexivity|].
    exact Hc.
Defined.

(** A wake at time 1290, ten seconds before the scheduled renewal, enters
    Renew at once; when the clock read again by DHCPv6Client_RenewRebind
    shows 1900, the end of the lease, the client is in Solicit after the
    wake. *)
Example wake_with_lease_running_out :
  let e := example_env_readings 1290 1900 [mkAddrInfo example_addr 0] in
  let c' := DHCPv6ClientHandleWake e example_wake_event example_bound in
  fst (DHCPv6ClientLeaseStillValid e (timer_get_current_time e)
                                   example_bound) = true /\
  fst (DHCPv6ClientLeaseStillValid e (time_at_RenewRebind e)
                                   example_bound) = false /\
  cstate c' = kDHCPv6ClientStateSolicit /\ saved c' = no_info.
Proof. cbv zeta. repeat split; vm_compute; reflexivity. Qed.

(** ** A lease that runs out while the client waits *)

Lemma LeaseStillValid_run_out (e : Env) (now : Q) (c : DHCPv6Client) :
  lease_valid (lease c) = true ->
  lease_valid_lifetime (lease c) <> DHCP_INFINITE_LEASE ->
  (now < lease_start (lease c) \/
   inject_Z (lease_valid_lifetime (lease c)) <= now - lease_start (lease c))%Q
  ->
  DHCPv6ClientLeaseStillValid e now c
  = (false, set_lease_valid false (DHCPv6ClientClearPacket c)).
Proof.
  intros Hv Hfin Hout. unfold DHCPv6ClientLeaseStillValid.
  rewrite Hv. cbn [negb]. apply Z.eqb_neq in Hfin. rewrite Hfin.
  assert (lease_valid (lease (set_lease_valid false
                                (DHCPv6ClientClearPacket c))) = false) as Hl.
  { unfold set_lease_valid. repeat proj_set. reflexivity. }
  destruct (Qlt_bool now (lease_start (lease c))) eqn:Hb.
  - cbv zeta. rewrite Hl. reflexivity.
  - destruct Hout as [Hlt|Hle].
    + apply Qlt_bool_iff in Hlt. congruence.
    + apply Qle_bool_iff in Hle. rewrite Hle. cbv zeta. rewrite Hl.
      reflexivity.
Qed.

Lemma passes_matching_same (e : Env) (mt : Z)
    (data : DHCPv6SocketReceiveData) (c c' : DHCPv6Client) :
  transaction_id c' = transaction_id c ->
  private_address c' = private_address c -> duid c' = duid c ->
  passes_matching e mt data c -> passes_matching e mt data c'.
Proof.
  intros Hx Hp Hd (H1 & H2 & H3 & H4).
  unfold passes_matching, our_duid, DHCPv6ClientGetDUID in *.
  rewrite Hx, Hp, Hd.
  split; [exact H1|]. split; [exact H2|]. split; [|exact H4].
  destruct (private_address c); [destruct (duid c)|]; exact H3.
Qed.

(** X8.  Confirm checks the status of a REPLY but not that there is still
    an address to confirm.  When a link-status event finds the lease run
    out, the saved packet is cleared and nothing else happens: the client
    stays in its state, with its receive handler, timer and transaction id.
    If that state is Confirm, a matching REPLY with the status Success then
    enters Bound with no address saved, and Bound reads the address through
    the NULL pointer. *)
Theorem Confirm_reply_after_lease_ran_out (e1 e2 : Env)
    (link_event : link_event_data_t) (data : DHCPv6SocketReceiveData)
    (c : DHCPv6Client) :
  fault c = false -> mode c = kDHCPv6ClientModeStateful ->
  sock_receive c = Some DHCPv6Client_Confirm_fn ->
  link_status_is_active (link_status link_event) = true ->
  lease_valid (lease c) = true ->
  lease_valid_lifetime (lease c) <> DHCP_INFINITE_LEASE ->
  (inject_Z (lease_valid_lifetime (lease c))
   <= timer_get_current_time e1 - lease_start (lease c))%Q ->
  acceptable_message e2 kDHCPv6MessageREPLY data c
                     kDHCPv6StatusCodeSuccess ->
  let c1 := DHCPv6ClientHandleEvent
              e1 (IFEventID_link_status_changed_e link_event) c in
  (cstate c1 = cstate c /\ sock_receive c1 = sock_receive c /\
   timer c1 = timer c /\ transaction_id c1 = transaction_id c /\
   saved c1 = no_info /\ ia_addr c1 = None /\ fault c1 = false) /\
  fault (socket_receive e2 data c1) = true.
Proof.
  intros Hfault Hmode Hsock Hactive Hv Hfin Hout (Hm & Hcode & Hwf).
  cbv zeta. unfold DHCPv6ClientHandleEvent. rewrite Hmode, Hactive.
  unfold confirm_if_bound. cbv zeta.
  rewrite (LeaseStillValid_run_out e1 _ c Hv Hfin (or_intror Hout)).
  cbn [andb].
  set (c1 := set_lease_valid false (DHCPv6ClientClearPacket c)).
  assert (cstate c1 = cstate c /\ sock_receive c1 = sock_receive c /\
          timer c1 = timer c /\ transaction_id c1 = transaction_id c /\
          saved c1 = no_info /\ ia_addr c1 = None /\ fault c1 = false /\
          private_address c1 = private_address c /\ duid c1 = duid c)
    as (C1 & C2 & C3 & C4 & C5 & C6 & C7 & C8 & C9).
  { subst c1. through. rewrite Hfault. repeat split; reflexivity. }
  clearbody c1.
  split; [repeat split; assumption|].
  unfold socket_receive. rewrite C2, Hsock.
  cbn [call_event_func DHCPv6Client_Confirm with_data].
  assert (acceptable_message e2 kDHCPv6MessageREPLY data c1
                             kDHCPv6StatusCodeSuccess) as Hacc.
  { split; [|split; assumption].
    apply (passes_matching_same e2 _ data c c1 C4 C8 C9 Hm). }
  pose proof (Confirm_data_outcome e2 data c1 kDHCPv6StatusCodeSuccess
                C7 Hacc) as H.
  cbv zeta in H.
  change (negb (kDHCPv6StatusCodeSuccess =? kDHCPv6StatusCodeSuccess))
    with false in H.
  cbv iota in H. destruct H as (_ & H). rewrite C6 in H. exact H.
Qed.

Lemma example_confirming_reachable : reachable example_confirming.
Proof.
  unfold example_confirming, example_bound, example_requesting,
    example_soliciting_again, example_soliciting.
  repeat (apply reachable_step || apply reachable_create); try exact I;
    vm_compute; reflexivity.
Qed.

Lemma Confirm_reply_after_lease_ran_out_witness :
  let c1 := DHCPv6ClientHandleEvent
              example_env_late
              (IFEventID_link_status_changed_e example_link_active)
              example_confirming in
  reachable example_confirming /\
  cstate example_confirming = kDHCPv6ClientStateConfirm /\
  cstate c1 = kDHCPv6ClientStateConfirm /\
  saved c1 = no_info /\ fault c1 = false /\
  fault (socket_receive example_env_late example_confirm_reply c1) = true.
Proof.
  assert (inject_Z (lease_valid_lifetime (lease example_confirming))
          <= timer_get_current_time example_env_late
             - lease_start (lease example_confirming))%Q as Hout
      by (vm_compute; discriminate).
  assert (lease_valid_lifetime (lease example_confirming)
          <> DHCP_INFINITE_LEASE) as Hfin by (vm_compute; discriminate).
  destruct (Confirm_reply_after_lease_ran_out
              example_env_late example_env_late example_link_active
              example_confirm_reply example_confirming
              eq_refl eq_refl eq_refl eq_refl eq_refl Hfin Hout
              (example_confirm_reply_acceptable 2000))
    as ((H1 & _ & _ & _ & H5 & _ & H7) & H8).
  cbv zeta. split; [exact example_confirming_reachable|].
  split; [vm_compute; reflexivity|].
  split; [rewrite H1; vm_compute; reflexivity|].
  split; [exact H5|]. split; [exact H7|exact H8].
Defined.

(** ** Stateless operation *)

Lemma SavePacket_well_formed (e : Env) (data : DHCPv6SocketReceiveData)
    (c : DHCPv6Client) :
  well_formed_data e data ->
  let c' := DHCPv6ClientSavePacket e data c in
  fault c' = fault c /\ saved_verified c' = true /\
  saved c' = mkInfo (Some (data_pkt data)) (data_pkt_len data)
                    (Some (data_options data)).
Proof.
  intros Hwf. cbv zeta.
  pose proof (DHCPv6ClientSavePacket_saved e data c) as Hs.
  rewrite Hwf in Hs. split; [|split; [|exact Hs]].
  - destruct (get_ia_na_addr e (data_options data)) as [na ad] eqn:Eg.
    destruct na as [na|].
    + destruct (get_ia_na_addr_Some e _ na ad Eg) as (ad' & -> & _).
      apply (DHCPv6ClientSavePacket_lease e data c _ na ad' Hwf Eg).
    + unfold DHCPv6ClientSavePacket. cbv zeta. through.
      unfold well_formed_data in Hwf. rewrite Hwf. cbn [options].
      rewrite Eg. through. reflexivity.
  - destruct (get_ia_na_addr e (data_options data)) as [na ad] eqn:Eg.
    destruct na as [na|].
    + destruct (get_ia_na_addr_Some e _ na ad Eg) as (ad' & -> & _).
      apply (DHCPv6ClientSavePacket_lease e data c _ na ad' Hwf Eg).
    + unfold DHCPv6ClientSavePacket. cbv zeta. through.
      unfold well_formed_data in Hwf. rewrite Hwf. cbn [options].
      rewrite Eg. through. reflexivity.
Qed.

Lemma NextRetransmit_first (e : Env) (IRT MRT : Q) (c : DHCPv6Client) :
  try_ c = 0 ->
  retransmit_time (snd (DHCPv6ClientNextRetransmit e IRT MRT c))
  = fst (DHCPv6ClientNextRetransmit e IRT MRT c) /\
  try_ (snd (DHCPv6ClientNextRetransmit e IRT MRT c)) = 1 /\
  exists u, jitter_double u /\
    (fst (DHCPv6ClientNextRetransmit e IRT MRT c) == IRT * (1 + u))%Q.
Proof.
  intros Ht. unfold DHCPv6ClientNextRetransmit. cbv zeta.
  repeat proj_set. rewrite Ht. change (0 + 1 =? 1) with true. cbv iota.
  destruct (DHCPv6InitialTimeout_interval e IRT (rng c))
    as (_ & u & Hu & Hrt).
  destruct (DHCPv6InitialTimeout e IRT (rng c)) as [rt n].
  cbn [fst snd] in *. repeat proj_set.
  split; [reflexivity|]. split; [reflexivity|]. exists u. split; assumption.
Qed.

Lemma Inform_start_outcome (e : Env) (c : DHCPv6Client) :
  let c' := DHCPv6Client_Inform_start e c in
  cstate c' = kDHCPv6ClientStateInform /\
  saved c' = no_info /\ saved_verified c' = false /\
  lease c' = lease_zero /\
  sock_receive c' = Some DHCPv6Client_Inform_fn /\
  0 <= transaction_id c' <= LOWER_24_BITS /\
  our_ip c' = our_ip c /\ mode c' = mode c /\ fault c' = fault c /\
  if if_is_cellular e then
    try_ c' = 1 /\ start_time c' = timer_get_current_time e /\
    (exists u, jitter_double u /\
       timer c' = Some (mkTimer (retransmit_time c') DHCPv6Client_Inform_fn
                                IFEventID_timeout_e) /\
       (retransmit_time c' == DHCPv6_INF_TIMEOUT * (1 + u))%Q) /\
    trace c' = SocketTransmit kDHCPv6MessageINFORMATION_REQUEST
               :: LogState kDHCPv6ClientStateInform :: trace c
  else
    try_ c' = 0 /\
    (exists d, timer c' = Some (mkTimer d DHCPv6Client_Inform_fn
                                        IFEventID_timeout_e) /\
               (0 <= d <= DHCPv6_INF_MAX_DELAY)%Q) /\
    trace c' = LogState kDHCPv6ClientStateInform :: trace c.
Proof.
  cbv zeta. unfold DHCPv6Client_Inform_start. cbv zeta.
  set (c0 := DHCPv6ClientClearRetransmit _).
  assert (cstate c0 = kDHCPv6ClientStateInform /\ saved c0 = no_info /\
          saved_verified c0 = false /\ lease c0 = lease_zero /\
          our_ip c0 = our_ip c /\ mode c0 = mode c /\ fault c0 = fault c /\
          try_ c0 = 0 /\
          trace c0 = LogState kDHCPv6ClientStateInform :: trace c)
    as (A1 & A2 & A3 & A4 & A5 & A6 & A7 & A8 & A9).
  { subst c0. through. repeat split; reflexivity. }
  clearbody c0.
  pose proof (get_new_transaction_id_range e (rng c0)) as Hx.
  pose proof (frame_new_transaction_id e c0) as Fx.
  assert (transaction_id (new_transaction_id e c0)
          = fst (get_new_transaction_id e (rng c0))) as Hxid.
  { unfold new_transaction_id.
    destruct (get_new_transaction_id e (rng c0)). through. reflexivity. }
  rewrite <- Hxid in Hx.
  set (c1 := DHCPv6SocketEnableReceive DHCPv6Client_Inform_fn
               (new_transaction_id e c0)).
  assert (changes_only [F_transaction_id; F_rng; F_sock_receive] c0 c1)
    as F1 by (subst c1; frame).
  assert (sock_receive c1 = Some DHCPv6Client_Inform_fn /\
          transaction_id c1 = transaction_id (new_transaction_id e c0))
    as (B1 & B2) by (subst c1; through; split; reflexivity).
  rewrite <- B2 in Hx. clear Hxid B2 Fx.
  clearbody c1.
  destruct (if_is_cellular e); cbn [negb].
  - unfold DHCPv6Client_Inform_timeout. cbv zeta.
    rewrite (keep_try_ _ _ _ F1 eq_refl), A8.
    change (0 =? 0) with true. cbv iota.
    set (c2 := set_start_time (timer_get_current_time e) c1).
    assert (changes_only [F_transaction_id; F_rng; F_sock_receive;
                          F_start_time] c0 c2) as F2 by (subst c2; frame).
    assert (sock_receive c2 = Some DHCPv6Client_Inform_fn /\
            transaction_id c2 = transaction_id c1 /\
            start_time c2 = timer_get_current_time e)
      as (C1 & C2 & C3) by (subst c2; through; repeat split; assumption).
    rewrite <- C2 in Hx. clearbody c2.
    pose proof (NextRetransmit_first e DHCPv6_INF_TIMEOUT
                  DHCPv6_INF_MAX_RT c2) as Hn.
    rewrite (keep_try_ _ _ _ F2 eq_refl), A8 in Hn.
    specialize (Hn eq_refl). destruct Hn as (N1 & N2 & u & Hu & N3).
    pose proof (frame_NextRetransmit e DHCPv6_INF_TIMEOUT DHCPv6_INF_MAX_RT
                  c2) as F3.
    destruct (DHCPv6ClientNextRetransmit e DHCPv6_INF_TIMEOUT
                DHCPv6_INF_MAX_RT c2) as [rt c3].
    cbn [fst snd] in N1, N2, N3, F3.
    unfold DHCPv6ClientSendInform. through.
    rewrite (keep_cstate _ _ _ F3 eq_refl), (keep_cstate _ _ _ F2 eq_refl),
      (keep_saved _ _ _ F3 eq_refl), (keep_saved _ _ _ F2 eq_refl),
      (keep_saved_verified _ _ _ F3 eq_refl),
      (keep_saved_verified _ _ _ F2 eq_refl),
      (keep_lease _ _ _ F3 eq_refl), (keep_lease _ _ _ F2 eq_refl),
      (keep_sock_receive _ _ _ F3 eq_refl),
      (keep_transaction_id _ _ _ F3 eq_refl),
      (keep_our_ip _ _ _ F3 eq_refl), (keep_our_ip _ _ _ F2 eq_refl),
      (keep_mode _ _ _ F3 eq_refl), (keep_mode _ _ _ F2 eq_refl),
      (keep_fault _ _ _ F3 eq_refl), (keep_fault _ _ _ F2 eq_refl),
      (keep_start_time _ _ _ F3 eq_refl),
      (keep_trace _ _ _ F3 eq_refl), (keep_trace _ _ _ F2 eq_refl).
    repeat split; try assumption; try apply Hx;
      try (rewrite A9; reflexivity).
    exists u. rewrite N1. split; [exact Hu|]. split; [reflexivity|exact N3].
  - pose proof (random_double_in_range_unit e (rng c1)
                : (0 <= fst (random_double_in_range e 0 DHCPv6_INF_MAX_DELAY
                                                   (rng c1))
                   <= DHCPv6_INF_MAX_DELAY)%Q) as Hd.
    destruct (random_double_in_range e 0 DHCPv6_INF_MAX_DELAY (rng c1))
      as [d n']. cbn [fst] in Hd. through.
    rewrite (keep_cstate _ _ _ F1 eq_refl), (keep_saved _ _ _ F1 eq_refl),
      (keep_saved_verified _ _ _ F1 eq_refl), (keep_lease _ _ _ F1 eq_refl),
      (keep_our_ip _ _ _ F1 eq_refl), (keep_mode _ _ _ F1 eq_refl),
      (keep_fault _ _ _ F1 eq_refl), (keep_try_ _ _ _ F1 eq_refl),
      (keep_trace _ _ _ F1 eq_refl).
    repeat split; try assumption; try apply Hx.
    exists d. split; [reflexivity|exact Hd].
Qed.

Lemma RemoveAddress_trace (e : Env) (c : DHCPv6Client) :
  trace (DHCPv6ClientRemoveAddress e c) = address_removal e c ++ trace c.
Proof.
  unfold DHCPv6ClientRemoveAddress, address_removal.
  destruct (IN6_IS_ADDR_UNSPECIFIED (our_ip c)); [reflexivity|].
  destruct (inet6_dgram_socket_ok e); through; reflexivity.
Qed.

Lemma PostNotification_trace (c : DHCPv6Client) :
  trace (DHCPv6ClientPostNotification c) = notification c ++ trace c.
Proof.
  unfold DHCPv6ClientPostNotification, notification.
  destruct (callback_rls c); through; reflexivity.
Qed.


(** X10.  In Inform a matching REPLY completes the exchange whatever status
    it carries: the status code is not looked at.  The packet is saved and
    trusted, the notification is posted, and the client enters
    InformComplete with its timer and its receive handler cancelled;
    get_info then returns the packet. *)
Theorem DHCPv6Client_Inform_reply (e : Env) (data : DHCPv6SocketReceiveData)
    (c : DHCPv6Client) :
  fault c = false ->
  passes_matching e kDHCPv6MessageREPLY data c ->
  well_formed_data e data ->
  let c' := DHCPv6Client_Inform_data e data c in
  cstate c' = kDHCPv6ClientStateInformComplete /\
  saved c' = mkInfo (Some (data_pkt data)) (data_pkt_len data)
                    (Some (data_options data)) /\
  saved_verified c' = true /\
  DHCPv6ClientGetInfo c' = (true, saved c') /\
  timer c' = None /\ sock_receive c' = None /\ fault c' = false /\
  trace c' = LogState kDHCPv6ClientStateInformComplete
             :: notification c ++ trace c.
Proof.
  intros Hfault Hm Hwf. cbv zeta. unfold DHCPv6Client_Inform_data.
  destruct (prologue_accepts e _ data c Hm) as [Hn Hs].
  rewrite Hn, Hs.
  destruct (duid_looked_up_same e c)
    as (_ & _ & _ & D4 & _ & D6 & _).
  cbv zeta in D4, D6.
  pose proof (frame_GetDUID e c) as Fd. fold (duid_looked_up e c) in Fd.
  set (c1 := duid_looked_up e c) in *. clearbody c1.
  destruct (SavePacket_well_formed e data c1 Hwf) as (P1 & P2 & P3).
  cbv zeta in P1, P2, P3.
  pose proof (frame_SavePacket e data c1) as Fp.
  set (c2 := DHCPv6ClientSavePacket e data c1) in *. clearbody c2.
  rewrite P1, D4, Hfault.
  unfold DHCPv6Client_InformComplete_start.
  assert (saved (DHCPv6ClientCancelPendingEvents
                   (DHCPv6ClientSetState kDHCPv6ClientStateInformComplete
                      (DHCPv6ClientPostNotification c2))) = saved c2) as Es
      by (through; reflexivity).
  assert (saved_verified
            (DHCPv6ClientCancelPendingEvents
               (DHCPv6ClientSetState kDHCPv6ClientStateInformComplete
                  (DHCPv6ClientPostNotification c2))) = true) as Ev
      by (through; exact P2).
  split; [through; reflexivity|].
  split; [rewrite Es; exact P3|].
  split; [exact Ev|].
  split.
  { unfold DHCPv6ClientGetInfo. rewrite Ev, Es, P3. reflexivity. }
  split; [through; reflexivity|].
  split; [through; reflexivity|].
  split; [through; congruence|].
  through. rewrite PostNotification_trace. unfold notification.
  rewrite (keep_callback_rls _ _ _ Fp eq_refl),
    (keep_callback_rls _ _ _ Fd eq_refl),
    (keep_trace _ _ _ Fp eq_refl), D6.
  reflexivity.
Qed.

Lemma DHCPv6Client_Inform_reply_witness :
  let c' := DHCPv6Client_Inform_data env_wired example_inform_reply
                                     example_informing in
  cstate example_informing = kDHCPv6ClientStateInform /\
  DHCPv6OptionListGetStatusCode env_wired
    (data_options example_inform_reply)
  = (true, kDHCPv6StatusCodeUnspecFail) /\
  cstate c' = kDHCPv6ClientStateInformComplete /\
  saved_verified c' = true /\
  DHCPv6ClientGetInfo c' = (true, saved c').
Proof.
  assert (passes_matching env_wired kDHCPv6MessageREPLY
                          example_inform_reply example_informing) as Hm.
  { split; [|split; [|split]]; try (vm_compute; reflexivity).
    exists example_server_duid. split; vm_compute; reflexivity. }
  assert (well_formed_data env_wired example_inform_reply) as Hwf
      by (vm_compute; reflexivity).
  destruct (DHCPv6Client_Inform_reply env_wired example_inform_reply
              example_informing eq_refl Hm Hwf)
    as (H1 & _ & H3 & H4 & _).
  cbv zeta. split; [vm_compute; reflexivity|].
  split; [vm_compute; reflexivity|].
  split; [exact H1|]. split; [exact H3|exact H4].
Defined.

(** ** stop, then start *)

Lemma Solicit_start_anew (e : Env) (c : DHCPv6Client) :
  our_ip c = in6addr_any -> soliciting_anew (DHCPv6Client_Solicit_start e c).
Proof.
  intros Hip.
  destruct (Solicit_start_outcome e c)
    as (S1 & S2 & S3 & S4 & S5 & S6 & S7 & S8 & S9 & S10 & _ & _ & SF).
  cbv zeta in *. unfold soliciting_anew.
  rewrite (keep_our_ip _ _ _ SF eq_refl). tauto.
Qed.

Lemma Confirm_start_frame (e : Env) (c : DHCPv6Client) :
  changes_only [F_cstate; F_trace; F_timer; F_sock_receive; F_try;
                F_saved_verified; F_transaction_id; F_rng]
               c (DHCPv6Client_Confirm_start e c).
Proof. frame_of DHCPv6Client_Confirm_start. Qed.

(** X11.  Whether a start after a stop can take up the old lease is decided
    by discard_information.  After a discarding stop a stateful start always
    solicits anew.  After a stop that keeps the information, a stateful
    start enters Confirm if and only if the lease that was kept is still
    valid and on the same network, and then the saved packet, the lease and
    the saved address are those from before the stop (the address itself is
    off the interface until Bound puts it back); otherwise it solicits
    anew. *)
Theorem stop_then_start (e1 e2 : Env)
    (discard_information privacy_required : bool) (c : DHCPv6Client) :
  let c1 := DHCPv6ClientStop e1 discard_information c in
  let c2 := DHCPv6ClientStart e2 true privacy_required c1 in
  let now := timer_get_current_time e2 in
  if discard_information then soliciting_anew c2
  else
    (cstate c2 = kDHCPv6ClientStateConfirm <->
     fst (DHCPv6ClientLeaseStillValid e2 now c) = true /\
     DHCPv6ClientLeaseOnSameNetwork e2 c = true) /\
    (cstate c2 = kDHCPv6ClientStateConfirm ->
     saved c2 = saved c /\ lease c2 = lease c /\ ia_addr c2 = ia_addr c /\
     saved_verified c2 = false /\ our_ip c2 = in6addr_any) /\
    (cstate c2 <> kDHCPv6ClientStateConfirm -> soliciting_anew c2).
Proof.
  cbv zeta.
  destruct (Stop_fields e1 discard_information c)
    as (_ & _ & S3 & _ & _ & _ & _ & _ & S9 & S10 & _ & _ & S13 & _).
  cbv zeta in S3, S9, S10, S13.
  set (c1 := DHCPv6ClientStop e1 discard_information c) in *. clearbody c1.
  destruct (Start_stateful_outcome e2 privacy_required c1)
    as (_ & _ & Hiff & Hyes & Hno).
  cbv zeta in Hiff, Hyes, Hno.
  assert (~ (fst (DHCPv6ClientLeaseStillValid
                    e2 (timer_get_current_time e2) c1) = true /\
             DHCPv6ClientLeaseOnSameNetwork e2 c1 = true) ->
          soliciting_anew (DHCPv6ClientStart e2 true privacy_required c1))
    as Hanew.
  { intros Hn. destruct (Hno Hn) as (-> & _).
    apply Solicit_start_anew. through. reflexivity. }
  destruct discard_information.
  - apply Hanew. intros (Hv & _).
    rewrite DHCPv6ClientLeaseStillValid_fst, S10 in Hv. discriminate Hv.
  - assert (fst (DHCPv6ClientLeaseStillValid
                   e2 (timer_get_current_time e2) c1)
            = fst (DHCPv6ClientLeaseStillValid
                     e2 (timer_get_current_time e2) c)) as E1.
    { rewrite !DHCPv6ClientLeaseStillValid_fst, S10. reflexivity. }
    assert (DHCPv6ClientLeaseOnSameNetwork e2 c1
            = DHCPv6ClientLeaseOnSameNetwork e2 c) as E2.
    { unfold DHCPv6ClientLeaseOnSameNetwork. rewrite S10. reflexivity. }
    rewrite E1, E2 in Hiff, Hyes, Hanew.
    split; [exact Hiff|]. split.
    + intros Hc. apply Hiff in Hc. destruct (Hyes Hc) as (Eq & Y2 & Y3 & Y4).
      split; [congruence|]. split; [congruence|].
      rewrite Eq.
      pose proof (Confirm_start_frame e2
                    (set_mode kDHCPv6ClientModeStateful
                       (set_private_address privacy_required c1))) as Fc.
      rewrite (keep_ia_addr _ _ _ Fc eq_refl),
        (keep_our_ip _ _ _ Fc eq_refl).
      split; [through; exact S13|].
      split; [|through; exact S3].
      apply Confirm_start_fields.
    + intros Hc. apply Hanew. intros Hv. apply Hc, Hiff, Hv.
Qed.

(** ** What the events leave alone *)

Lemma session_same_configuration (c c' : DHCPv6Client) :
  changes_only session_fields c c' -> same_configuration c c'.
Proof.
  intros H. unfold same_configuration.
  rewrite (keep_mode _ _ _ H eq_refl), (keep_callback _ _ _ H eq_refl),
    (keep_callback_rls _ _ _ H eq_refl),
    (keep_private_address _ _ _ H eq_refl).
  repeat split; reflexivity.
Qed.

(** X13.  No external event, timer expiry or received packet changes the
    mode of the client, its notification callback or its privacy setting:
    whatever the event functions do (through every state of the machine),
    these are set by start, stop and set_notification_callback only. *)
Theorem events_keep_configuration (e : Env) (c : DHCPv6Client) :
  (forall event,
     same_configuration c (DHCPv6ClientHandleEvent e event c)) /\
  same_configuration c (timer_fire e c) /\
  (forall data, same_configuration c (socket_receive e data c)).
Proof.
  split; [|split].
  - intros event. apply session_same_configuration, session_HandleEvent.
  - apply session_same_configuration, session_timer_fire.
  - intros data. apply session_same_configuration, session_socket_receive.
Qed.

(** ** The retransmissions of Renew and Rebind *)

Lemma double_to_uint32_floor (d : Q) :
  (0 <= d)%Q -> (d < 4294967296)%Q ->
  double_to_uint32 d = Qfloor d /\ (inject_Z (Qfloor d) <= d)%Q /\
  (d < inject_Z (Qfloor d) + 1)%Q /\ 0 <= Qfloor d.
Proof.
  intros H0 Hlt. unfold double_to_uint32.
  assert (Qle_bool 0 d = true) as -> by (apply Qle_bool_iff; exact H0).
  pose proof (Qfloor_le d) as Hfl. pose proof (Qlt_floor d) as Hlf.
  assert (0 <= Qfloor d) as Hnn.
  { change 0 with (Qfloor 0). apply Qfloor_resp_le. exact H0. }
  assert (Qfloor d < 4294967296) as Hub.
  { assert (inject_Z (Qfloor d) < inject_Z 4294967296)%Q as Hq.
    { apply Qle_lt_trans with d; assumption. }
    rewrite <- Zlt_Qlt in Hq. exact Hq. }
  rewrite Z.mod_small by lia.
  split; [reflexivity|]. split; [exact Hfl|]. split; [|exact Hnn].
  rewrite inject_Z_plus in Hlf. exact Hlf.
Qed.

Lemma DHCPv6ClientState_eqb_eq (a b : DHCPv6ClientState) :
  DHCPv6ClientState_eqb a b = true <-> a = b.
Proof.
  split; [|intros ->; destruct b; reflexivity].
  destruct a, b; intros H; try reflexivity; discriminate H.
Qed.

(** A lease that is still valid and finite: the time since its start, and
    the whole seconds of it. *)
Lemma still_valid_elapsed (e : Env) (now : Q) (c : DHCPv6Client) :
  fst (DHCPv6ClientLeaseStillValid e now c) = true ->
  lease_valid_lifetime (lease c) <> DHCP_INFINITE_LEASE ->
  lease_valid_lifetime (lease c) <= UINT32_MAX ->
  let tss := (now - lease_start (lease c))%Q in
  let elapsed := double_to_uint32 tss in
  (inject_Z elapsed <= tss)%Q /\ (tss < inject_Z elapsed + 1)%Q /\
  0 <= elapsed < lease_valid_lifetime (lease c).
Proof.
  intros Hv Hfin Hmax. cbv zeta.
  rewrite DHCPv6ClientLeaseStillValid_fst in Hv.
  apply andb_true_iff in Hv. destruct Hv as (_ & Hv).
  apply Z.eqb_neq in Hfin. rewrite Hfin in Hv. cbn [orb] in Hv.
  apply andb_true_iff in Hv. destruct Hv as (H1 & H2).
  apply negb_true_iff in H1, H2.
  apply Qlt_bool_false_iff in H1. apply Qle_bool_false_iff in H2.
  assert (0 <= now - lease_start (lease c))%Q as H0 by lra.
  assert (now - lease_start (lease c) < 4294967296)%Q as Hlt.
  { apply Qlt_le_trans with (inject_Z (lease_valid_lifetime (lease c)));
      [exact H2|].
    change (4294967296)%Q with (inject_Z 4294967296).
    rewrite <- Zle_Qle. unfold UINT32_MAX in Hmax. lia. }
  destruct (double_to_uint32_floor _ H0 Hlt) as (F1 & F2 & F3 & F4).
  rewrite F1. split; [exact F2|]. split; [exact F3|]. split; [exact F4|].
  assert (inject_Z (Qfloor (now - lease_start (lease c)))
          < inject_Z (lease_valid_lifetime (lease c)))%Q as Hq
      by (apply Qle_lt_trans with (now - lease_start (lease c))%Q;
          assumption).
  rewrite <- Zlt_Qlt in Hq. exact Hq.
Qed.

Lemma inject_Z_sub (a b : Z) :
  (inject_Z (a - b) == inject_Z a - inject_Z b)%Q.
Proof.
  unfold Z.sub. rewrite inject_Z_plus, inject_Z_opp. reflexivity.
Qed.

Lemma uint32_sub_small (a b : Z) :
  0 <= b <= a -> a <= UINT32_MAX -> uint32_sub a b = a - b.
Proof.
  intros H Ha. unfold uint32_sub, UINT32_MAX in *.
  apply Z.mod_small. lia.
Qed.

(** The shorter of the time until a deadline and the retransmission time. *)
Lemma shorter_wait (until rt : Q) :
  let wait := if Qlt_bool until rt then until else rt in
  (wait <= until)%Q /\ (wait <= rt)%Q.
Proof.
  cbv zeta. destruct (Qlt_bool until rt) eqn:E.
  - apply Qlt_bool_iff in E. split; [apply Qle_refl|apply Qlt_le_weak, E].
  - apply Qlt_bool_false_iff in E. split; [exact E|apply Qle_refl].
Qed.

Lemma RenewRebind_transmit_timer (e : Env) (now wait_time : Q)
    (c : DHCPv6Client) :
  let c' := DHCPv6ClientSendPacket e
              (timer_callout_set wait_time DHCPv6Client_RenewRebind_fn
                 IFEventID_timeout_e
                 (set_renew_rebind_time (now + wait_time)%Q c)) in
  timer c' = Some (mkTimer wait_time DHCPv6Client_RenewRebind_fn
                           IFEventID_timeout_e) /\
  cstate c' = cstate c /\ lease c' = lease c /\
  retransmit_time c' = retransmit_time c.
Proof.
  cbv zeta. through. repeat split; reflexivity.
Qed.


